(** * FAT16 recovery engine: a shallow embedding and its properties

    The development follows the Python sources of the repository:
    [FAT16Recover.py] (volume setup, FAT chain tracing, file recovery,
    long-name decoding and the directory walker), [MBR.py] (stand-alone
    MBR report) and [Boot.py] (stand-alone boot-sector report).

    Python integers are unbounded, so they are [Z].  [bytes] objects are
    lists of [Byte.byte]; [str] objects are lists of Unicode code points.
    An exception that escapes a function is an explicit [Raise] result. *)

From Stdlib Require Import Strings.Byte String Ascii ZArith List Lia Bool.
From Stdlib Require Import Permutation Sorted.
Import ListNotations.
Open Scope Z_scope.

(** ** Python primitives used by the sources *)
Module Py.

Abbreviation bytes := (list byte).

(** A [str]: the sequence of its code points. *)
Definition str := list Z.

Definition len {A : Type} (l : list A) : Z := Z.of_nat (length l).

Definition ord (b : byte) : Z := Z.of_N (Byte.to_N b).

Definition chr (z : Z) : byte :=
  match Byte.of_N (Z.to_N z) with Some b => b | None => x00 end.

(** Exceptions the modelled code can raise. *)
Inductive exn : Type :=
| struct_error
| ValueError
| ZeroDivisionError.

Inductive result (A : Type) : Type :=
| Ok (a : A)
| Raise (e : exn).
Arguments Ok {A} a.
Arguments Raise {A} e.

Definition bind {A B : Type} (m : result A) (k : A -> result B) : result B :=
  match m with
  | Ok a => k a
  | Raise e => Raise e
  end.

(** Bound adjustment of a slice with step 1: a negative bound counts
    from the end, and every bound is clamped to [0, n]. *)
Definition adjust (n i : Z) : Z :=
  if i <? 0 then Z.max 0 (i + n) else Z.min i n.

(** [l[start:stop]] *)
Definition slice {A : Type} (l : list A) (start stop : Z) : list A :=
  let lo := adjust (len l) start in
  let hi := adjust (len l) stop in
  firstn (Z.to_nat (hi - lo)) (skipn (Z.to_nat lo) l).

(** Little-endian unsigned value of a byte string. *)
Definition le_uint (bs : bytes) : Z :=
  fold_right (fun b acc => ord b + 256 * acc) 0 bs.

(** [struct.unpack] of one little-endian unsigned field of [size]
    bytes: the buffer must have exactly that size. *)
Definition unpack_uint (size : nat) (bs : bytes) : result Z :=
  if Nat.eqb (length bs) size then Ok (le_uint bs) else Raise struct_error.

Definition unpack_B : bytes -> result Z := unpack_uint 1.
Definition unpack_H : bytes -> result Z := unpack_uint 2.
Definition unpack_I : bytes -> result Z := unpack_uint 4.

(** A [str] literal with ASCII characters only. *)
Definition lit (s : string) : str :=
  map (fun a => Z.of_N (N_of_ascii a)) (list_ascii_of_string s).

(** [str.isspace] on one code point. *)
Definition isspace (c : Z) : bool :=
  ((0x09 <=? c) && (c <=? 0x0D)) || ((0x1C <=? c) && (c <=? 0x20))
  || (c =? 0x85) || (c =? 0xA0) || (c =? 0x1680)
  || ((0x2000 <=? c) && (c <=? 0x200A))
  || (c =? 0x2028) || (c =? 0x2029) || (c =? 0x202F)
  || (c =? 0x205F) || (c =? 0x3000).

Fixpoint lstrip (s : str) : str :=
  match s with
  | [] => []
  | c :: s' => if isspace c then lstrip s' else s
  end.

Definition rstrip (s : str) : str := rev (lstrip (rev s)).

Definition strip (s : str) : str := rstrip (lstrip s).

(** [s.split(sep)[0]] for a one-character separator. *)
Fixpoint split_first (sep : Z) (s : str) : str :=
  match s with
  | [] => []
  | c :: s' => if c =? sep then [] else c :: split_first sep s'
  end.

(** [s.replace(old, new)] for one-character [old] and [new]. *)
Definition replace (old new : Z) (s : str) : str :=
  map (fun c => if c =? old then new else c) s.

Definition str_eqb (a b : str) : bool :=
  if list_eq_dec Z.eq_dec a b then true else false.

(** [bytes.decode('ascii', errors='replace')] *)
Definition decode_ascii_replace (bs : bytes) : str :=
  map (fun b => if ord b <? 128 then ord b else 0xFFFD) bs.

(** The 16-bit code units of a little-endian byte string; a dangling
    last byte is kept as [None]. *)
Fixpoint code_units (bs : bytes) : list (option Z) :=
  match bs with
  | b0 :: b1 :: rest => Some (ord b0 + 256 * ord b1) :: code_units rest
  | [_] => [None]
  | [] => []
  end.

Definition is_high_surrogate (u : Z) : bool := (0xD800 <=? u) && (u <=? 0xDBFF).
Definition is_low_surrogate (u : Z) : bool := (0xDC00 <=? u) && (u <=? 0xDFFF).

(** Decoding of code units with [errors='replace']: a surrogate pair
    gives one code point, an unpaired surrogate or a dangling byte
    gives U+FFFD. *)
Fixpoint decode_units (us : list (option Z)) : str :=
  match us with
  | [] => []
  | None :: rest => 0xFFFD :: decode_units rest
  | Some u :: rest =>
      if is_high_surrogate u then
        match rest with
        | Some v :: rest' =>
            if is_low_surrogate v
            then (0x10000 + (u - 0xD800) * 0x400 + (v - 0xDC00)) :: decode_units rest'
            else 0xFFFD :: decode_units rest
        | _ => 0xFFFD :: decode_units rest
        end
      else if is_low_surrogate u then 0xFFFD :: decode_units rest
      else u :: decode_units rest
  end.

(** [bytes.decode('utf-16-le', errors='replace')] *)
Definition decode_utf16le_replace (bs : bytes) : str :=
  decode_units (code_units bs).

(** [posixpath.join(a, b)] *)
Definition path_join (a b : str) : str :=
  match b with
  | 47 :: _ => b
  | _ =>
      match rev a with
      | [] => b
      | 47 :: _ => a ++ b
      | _ => a ++ 47 :: b
      end
  end.

(** [list.sort(key=...)] with integer keys: a stable sort, here by
    insertion. *)
Section Sort.
Context {A : Type} (key : A -> Z).

Fixpoint insert (x : A) (l : list A) : list A :=
  match l with
  | [] => [x]
  | y :: l' => if key x <=? key y then x :: l else y :: insert x l'
  end.

Fixpoint sort (l : list A) : list A :=
  match l with
  | [] => []
  | x :: l' => insert x (sort l')
  end.
End Sort.

End Py.

Notation "x <- m ;; k" := (Py.bind m (fun x => k))
  (at level 61, m at next level, right associativity).

(** ** FAT16Recover.py *)
Module FAT16Recover.
Import Py.

Definition SECTOR_SIZE : Z := 512.
Definition PARTITION_TABLE_OFFSET : Z := 0x1BE.
Definition LFN_ATTRIBUTES : Z := 0x0F.
Definition RECOVERY_DIR : str := lit "RECOVERED_DATA".

(** The module-level globals that [setup_disk_params] populates. *)
Record DiskParams : Type := {
  PARTITION_START_LBA : Z;
  RESERVED_SECTORS : Z;
  NUM_FATS : Z;
  FAT_SIZE_SECTORS : Z;
  ROOT_DIR_SECTORS : Z;
  SECTORS_PER_CLUSTER : Z;
  FAT1_START_LBA : Z;
  ROOT_DIR_START_LBA : Z;
  DATA_REGION_START_LBA : Z;
  GLOBAL_FAT_DATA : bytes
}.

(** [read_sector]: the image file is given by its content.  A seek to
    a negative offset raises inside the [try] and gives [None]; a read
    past the end is short and gives [None]. *)
Definition read_sector (image : bytes) (lba count : Z) : option bytes :=
  let offset_bytes := lba * SECTOR_SIZE in
  if offset_bytes <? 0 then None
  else
    let data := firstn (Z.to_nat (SECTOR_SIZE * count))
                       (skipn (Z.to_nat offset_bytes) image) in
    if len data =? SECTOR_SIZE * count then Some data else None.

(** Truth value of [not data] for an optional byte string. *)
Definition not_ (data : option bytes) : bool :=
  match data with
  | None => true
  | Some [] => true
  | Some (_ :: _) => false
  end.

Definition bytes_eqb (a b : bytes) : bool :=
  if list_eq_dec Byte.byte_eq_dec a b then true else false.

(** [struct.unpack('<B3sB3sII', entry_data)] *)
Definition unpack_partition_entry (entry_data : bytes)
  : result (Z * bytes * Z * bytes * Z * Z) :=
  if Nat.eqb (List.length entry_data) 16 then
    Ok (le_uint (slice entry_data 0 1), slice entry_data 1 4,
        le_uint (slice entry_data 4 5), slice entry_data 5 8,
        le_uint (slice entry_data 8 12), le_uint (slice entry_data 12 16))
  else Raise struct_error.

(** Where [setup_disk_params] returns [False]. *)
Inductive setup_failure : Type :=
| InvalidMBR   (* "Error: Invalid MBR or signature." *)
| NoVBR        (* the boot sector cannot be read; nothing is printed *)
| NoFAT.       (* "Error: Could not read FAT table." *)

Inductive setup_result : Type :=
| SetupTrue (p : DiskParams)
| SetupFalse (why : setup_failure).

Definition setup_disk_params (image : bytes) : result setup_result :=
  let mbr_data := read_sector image 0 1 in
  match mbr_data with
  | None => Ok (SetupFalse InvalidMBR)
  | Some mbr =>
      if not_ mbr_data || negb (bytes_eqb (slice mbr 0x1FE 0x200) [x55; xaa])
      then Ok (SetupFalse InvalidMBR)
      else
        let entry_data :=
          slice mbr PARTITION_TABLE_OFFSET (PARTITION_TABLE_OFFSET + 16) in
        fields <- unpack_partition_entry entry_data ;;
        let '(_, _, type_id, _, start_lba, _) := fields in
        let PARTITION_START_LBA := start_lba in
        let vbr_data := read_sector image PARTITION_START_LBA 1 in
        match vbr_data with
        | None => Ok (SetupFalse NoVBR)
        | Some vbr =>
            if not_ vbr_data then Ok (SetupFalse NoVBR)
            else
              SECTORS_PER_CLUSTER <- unpack_B (slice vbr 0x0D 0x0E) ;;
              RESERVED_SECTORS <- unpack_H (slice vbr 0x0E 0x10) ;;
              NUM_FATS <- unpack_B (slice vbr 0x10 0x11) ;;
              root_entries <- unpack_H (slice vbr 0x11 0x13) ;;
              FAT_SIZE_SECTORS <- unpack_H (slice vbr 0x16 0x18) ;;
              let ROOT_DIR_SECTORS :=
                (root_entries * 32 + SECTOR_SIZE - 1) / SECTOR_SIZE in
              let FAT1_START_LBA := PARTITION_START_LBA + RESERVED_SECTORS in
              let ROOT_DIR_START_LBA :=
                FAT1_START_LBA + NUM_FATS * FAT_SIZE_SECTORS in
              let DATA_REGION_START_LBA :=
                ROOT_DIR_START_LBA + ROOT_DIR_SECTORS in
              let fat := read_sector image FAT1_START_LBA FAT_SIZE_SECTORS in
              match fat with
              | None => Ok (SetupFalse NoFAT)
              | Some fat_data =>
                  if not_ fat then Ok (SetupFalse NoFAT)
                  else Ok (SetupTrue
                    {| PARTITION_START_LBA := PARTITION_START_LBA;
                       RESERVED_SECTORS := RESERVED_SECTORS;
                       NUM_FATS := NUM_FATS;
                       FAT_SIZE_SECTORS := FAT_SIZE_SECTORS;
                       ROOT_DIR_SECTORS := ROOT_DIR_SECTORS;
                       SECTORS_PER_CLUSTER := SECTORS_PER_CLUSTER;
                       FAT1_START_LBA := FAT1_START_LBA;
                       ROOT_DIR_START_LBA := ROOT_DIR_START_LBA;
                       DATA_REGION_START_LBA := DATA_REGION_START_LBA;
                       GLOBAL_FAT_DATA := fat_data |})
              end
        end
  end.

(** *** FAT trace logic *)

(** How a run of the [while True] loop of [trace_fat_chain] ends.
    [Unfinished] stands for a run that needs more iterations than the
    model was given; it is shown below never to occur. *)
Inductive trace_outcome : Type :=
| Returned (chain : list Z)
| Raised (e : exn)
| Unfinished.

(** One iteration per unit of [fuel]; [chain] is the list built so
    far and [current_cluster] the loop variable. *)
Fixpoint trace_loop (fuel : nat) (fat : bytes) (current_cluster : Z)
         (chain : list Z) : trace_outcome :=
  match fuel with
  | O => Unfinished
  | S fuel' =>
      let offset := current_cluster * 2 in
      if offset + 2 >? len fat then Returned chain
      else
        let entry_bytes := slice fat offset (offset + 2) in
        match unpack_H entry_bytes with
        | Raise e => Raised e
        | Ok next_cluster =>
            let chain := chain ++ [current_cluster] in
            if (0xFFF8 <=? next_cluster) && (next_cluster <=? 0xFFFF)
            then Returned chain
            else if next_cluster =? 0x0000 then Returned chain
            else if next_cluster =? 0xFFF7 then Returned chain
            else
              let current_cluster := next_cluster in
              if len chain >? 65535 then Returned chain
              else trace_loop fuel' fat current_cluster chain
        end
  end.

(** The loop appends one cluster per iteration and leaves once the
    chain is longer than 65535, so 65536 iterations are enough. *)
Definition max_iterations : nat := Z.to_nat 65536.

Definition trace_fat_chain (fat : bytes) (start_cluster : Z) : trace_outcome :=
  trace_loop max_iterations fat start_cluster [].

Definition chain_of (o : trace_outcome) : list Z :=
  match o with
  | Returned chain => chain
  | _ => []
  end.

(** *** Recovery function *)

(** The [for cluster in cluster_chain] loop: [outfile] is what has
    been written so far. *)
Fixpoint write_clusters (image : bytes) (p : DiskParams) (file_size : Z)
         (cluster_chain : list Z) (outfile : bytes) (bytes_recovered : Z)
  : bytes * Z :=
  match cluster_chain with
  | [] => (outfile, bytes_recovered)
  | cluster :: rest =>
      let bytes_per_cluster := SECTORS_PER_CLUSTER p * SECTOR_SIZE in
      let lba := DATA_REGION_START_LBA p + (cluster - 2) * SECTORS_PER_CLUSTER p in
      let cluster_data := read_sector image lba (SECTORS_PER_CLUSTER p) in
      match cluster_data with
      | None => (outfile, bytes_recovered)
      | Some data =>
          if not_ cluster_data then (outfile, bytes_recovered)
          else
            let bytes_remaining := file_size - bytes_recovered in
            let bytes_to_write := Z.min bytes_per_cluster bytes_remaining in
            let outfile := outfile ++ slice data 0 bytes_to_write in
            let bytes_recovered := bytes_recovered + bytes_to_write in
            if bytes_recovered >=? file_size then (outfile, bytes_recovered)
            else write_clusters image p file_size rest outfile bytes_recovered
      end
  end.

(** What a call of [recover_file] does. *)
Inductive recover_outcome : Type :=
| NotRecovered
    (* returns False before the output file is opened *)
| Recovered (outfile : bytes) (bytes_recovered : Z)
    (* the output file holds [outfile]; prints
       "[+] RECOVERED: path (bytes_recovered bytes)"; returns True *)
| WriteError
    (* the host refused the output file; prints "[!] Error writing
       file"; returns False *)
| Stuck.
    (* the chain trace did not return; [trace_fat_chain] always
       returns or raises, so this outcome never occurs *)

Definition returns (o : recover_outcome) : bool :=
  match o with
  | Recovered _ _ => true
  | _ => false
  end.

(** [host_ok] tells whether the host file system accepts the output
    file (opening it and writing to it); when it does not, the
    [except] branch is taken. *)
Definition recover_file (host_ok : bool) (image : bytes) (p : DiskParams)
           (start_cluster file_size : Z) : result recover_outcome :=
  if (start_cluster <? 2) || (file_size =? 0) then Ok NotRecovered
  else
    match trace_fat_chain (GLOBAL_FAT_DATA p) start_cluster with
    | Unfinished => Ok Stuck
    | Raised e => Raise e
    | Returned cluster_chain =>
        match cluster_chain with
        | [] => Ok NotRecovered
        | _ :: _ =>
            if host_ok then
              let '(outfile, bytes_recovered) :=
                write_clusters image p file_size cluster_chain [] 0 in
              Ok (Recovered outfile bytes_recovered)
            else Ok WriteError
        end
    end.

(** The payload of a cluster: what the recovery loop reads for it. *)
Definition cluster_payload (image : bytes) (p : DiskParams) (cluster : Z)
  : option bytes :=
  read_sector image
    (DATA_REGION_START_LBA p + (cluster - 2) * SECTORS_PER_CLUSTER p)
    (SECTORS_PER_CLUSTER p).

Definition payload_or_empty (image : bytes) (p : DiskParams) (cluster : Z)
  : bytes :=
  match cluster_payload image p cluster with
  | Some data => data
  | None => []
  end.

(** A cluster read that the recovery loop accepts. *)
Definition readable (image : bytes) (p : DiskParams) (cluster : Z) : Prop :=
  not_ (cluster_payload image p cluster) = false.

(** The concatenation of the payloads of a chain. *)
Definition payloads (image : bytes) (p : DiskParams) (chain : list Z)
  : bytes :=
  concat (map (payload_or_empty image p) chain).

(** *** LFN utilities *)

Definition decode_lfn_fragment (entry_data : bytes) : str :=
  let chars := [slice entry_data 0x01 0x0B;
                slice entry_data 0x0E 0x1A;
                slice entry_data 0x1C 0x20] in
  let full_chars := concat chars in
  let name := decode_utf16le_replace full_chars in
  strip (split_first 0 name).

(** *** Directory parsing *)

(** [entry_data[i]]: directory records are 32 bytes long, so the
    index is always in range. *)
Definition byte_at (entry_data : bytes) (i : nat) : Z :=
  ord (nth i entry_data x00).

(** [name_bytes[0] = v] *)
Definition set_first (v : byte) (name_bytes : bytes) : bytes :=
  match name_bytes with
  | [] => []
  | _ :: rest => v :: rest
  end.

(** The long name: fragments sorted by sequence number and joined. *)
Definition lfn_name (lfn_fragments : list (Z * str)) : str :=
  match lfn_fragments with
  | [] => []
  | _ :: _ => concat (map snd (sort fst lfn_fragments))
  end.

(** The fallback to the short name. *)
Definition sfn_name (entry_data : bytes) (is_deleted : bool) : str :=
  let name_bytes := slice entry_data 0x00 0x0B in
  let name_bytes :=
    if is_deleted then
      if (1 <? len name_bytes) && (ord (nth 1 name_bytes x00) =? 0x5F)
      then set_first x2e name_bytes
      else set_first x5f name_bytes
    else name_bytes in
  let base_name := rstrip (decode_ascii_replace (slice name_bytes 0 8)) in
  let ext := rstrip (decode_ascii_replace (slice name_bytes 8 11)) in
  match ext with
  | [] => base_name
  | _ :: _ => base_name ++ 46 :: ext
  end.

(** Step 1 of the short-name entry handling: the final name. *)
Definition final_name_of (lfn_fragments : list (Z * str))
           (entry_data : bytes) (is_deleted : bool) : str :=
  let final_name := lfn_name lfn_fragments in
  let final_name :=
    match final_name with
    | [] => sfn_name entry_data is_deleted
    | _ :: _ => final_name
    end in
  strip (replace 92 95 (replace 47 95 (replace 63 95 final_name))).

(** What the walker does for a short-name entry. *)
Inductive action : Type :=
| EnterDirectory (host_dir : str) (sub_dir_lba : Z) (dir_path : str)
    (* os.makedirs(host_dir), then the recursive call on
       (sub_dir_lba, dir_path) *)
| RecoverFile (start_cluster file_size : Z) (relative_path : str).
    (* os.makedirs of the parent, then
       recover_file(start_cluster, file_size, relative_path) *)

(** Step 2 of the short-name entry handling: recovery or recursion.
    [None] is an entry that is passed over. *)
Definition sfn_action (p : DiskParams) (dir_path final_name : str)
           (is_dir : bool) (start_cluster file_size : Z) : option action :=
  if str_eqb final_name (lit ".") || str_eqb final_name (lit "..") then None
  else
    let current_full_path := path_join dir_path final_name in
    if is_dir then
      if start_cluster <? 2 then None
      else
        let sub_dir_lba :=
          DATA_REGION_START_LBA p + (start_cluster - 2) * SECTORS_PER_CLUSTER p in
        Some (EnterDirectory (path_join RECOVERY_DIR current_full_path)
                             sub_dir_lba current_full_path)
    else if (file_size >? 0) && (start_cluster >=? 2) then
      let relative_path := path_join RECOVERY_DIR current_full_path in
      Some (RecoverFile start_cluster file_size relative_path)
    else None.

(** The handling of one short-name entry, given the pending long-name
    fragments. *)
Definition sfn_entry (p : DiskParams) (dir_path : str)
           (lfn_fragments : list (Z * str)) (entry_data : bytes)
  : result (option action) :=
  let first_byte := byte_at entry_data 0x00 in
  let attributes := byte_at entry_data 0x0B in
  let is_deleted := first_byte =? 0xE5 in
  let is_dir := negb (Z.land attributes 0x10 =? 0) in
  file_size <- unpack_I (slice entry_data 0x1C 0x20) ;;
  start_cluster <- unpack_H (slice entry_data 0x1A 0x1C) ;;
  let final_name := final_name_of lfn_fragments entry_data is_deleted in
  Ok (sfn_action p dir_path final_name is_dir start_cluster file_size).

(** The loop over the 32-byte records [indices] of [dir_data]. *)
Fixpoint walk_entries (p : DiskParams) (dir_path : str) (dir_data : bytes)
         (indices : list nat) (lfn_fragments : list (Z * str))
  : result (list action) :=
  match indices with
  | [] => Ok []
  | i :: rest =>
      let offset := Z.of_nat i * 32 in
      let entry_data := slice dir_data offset (offset + 32) in
      let first_byte := byte_at entry_data 0x00 in
      let attributes := byte_at entry_data 0x0B in
      if first_byte =? 0x00 then Ok []
      else if attributes =? LFN_ATTRIBUTES then
        if negb (first_byte =? 0xE5) then
          let sequence := Z.land (byte_at entry_data 0x00) 0x1F in
          let fragment := decode_lfn_fragment entry_data in
          walk_entries p dir_path dir_data rest
                       (lfn_fragments ++ [(sequence, fragment)])
        else walk_entries p dir_path dir_data rest lfn_fragments
      else
        a <- sfn_entry p dir_path lfn_fragments entry_data ;;
        others <- walk_entries p dir_path dir_data rest [] ;;
        Ok (match a with Some x => x :: others | None => others end)
  end.

(** One activation of [parse_and_recover_directory], up to its
    recursive calls: the actions it takes, in order. *)
Definition directory_actions (image : bytes) (p : DiskParams)
           (start_lba : Z) (dir_path : str) : result (list action) :=
  let read_count :=
    if start_lba =? ROOT_DIR_START_LBA p
    then ROOT_DIR_SECTORS p else SECTORS_PER_CLUSTER p in
  let dir_data := read_sector image start_lba read_count in
  match dir_data with
  | None => Ok []
  | Some data =>
      if not_ dir_data then Ok []
      else walk_entries p dir_path data
             (seq 0 (Z.to_nat (len data / 32))) []
  end.

End FAT16Recover.

(** ** MBR.py *)
Module MBR.
Import Py.

Definition MBR_SIZE : Z := 512.
Definition PARTITION_TABLE_OFFSET : Z := 0x1BE.
Definition PARTITION_ENTRY_SIZE : Z := 16.
Definition SIGNATURE_OFFSET : Z := 0x1FE.
Definition SIGNATURE : bytes := [x55; xaa].

(** [PARTITION_TYPES.get(type_id, 'Unknown')] *)
Definition type_description (type_id : Z) : string :=
  if type_id =? 0x04 then "FAT16 (less than 32MB)"
  else if type_id =? 0x06 then "FAT16"
  else if type_id =? 0x0E then "FAT16 LBA"
  else if type_id =? 0x0B then "FAT32"
  else if type_id =? 0x0C then "FAT32 LBA"
  else if type_id =? 0x07 then "NTFS / exFAT / HPFS"
  else if type_id =? 0x05 then "Extended DOS Partition"
  else if type_id =? 0x0F then "Extended LBA Partition"
  else "Unknown".

(** [read_mbr_from_file]: the first 512 bytes of the image, or
    [None] when the file is too small. *)
Definition read_mbr_from_file (image : bytes) : option bytes :=
  let mbr_data := firstn (Z.to_nat MBR_SIZE) image in
  if negb (len mbr_data =? MBR_SIZE) then None else Some mbr_data.

Record partition : Type := {
  index : Z;
  bootable : bool;
  type_id : Z;
  description : string;
  start_lba : Z;
  size_sectors : Z;
  size_bytes : Z
}.

Record mbr_result : Type := {
  signature_valid : bool;
  warning_printed : bool;
  partitions : list partition
}.

Definition all_zero (entry_data : bytes) : bool :=
  FAT16Recover.bytes_eqb entry_data (repeat x00 (Z.to_nat PARTITION_ENTRY_SIZE)).

(** The loop [for i in range(4)] over the partition table. *)
Fixpoint parse_entries (partition_table : bytes) (indices : list Z)
  : result (list partition) :=
  match indices with
  | [] => Ok []
  | i :: rest =>
      let offset := i * PARTITION_ENTRY_SIZE in
      let entry_data :=
        slice partition_table offset (offset + PARTITION_ENTRY_SIZE) in
      if all_zero entry_data then parse_entries partition_table rest
      else
        fields <- FAT16Recover.unpack_partition_entry entry_data ;;
        let '(flag, _, type_id, _, start_lba, size_sectors) := fields in
        others <- parse_entries partition_table rest ;;
        Ok ({| index := i + 1;
               bootable := flag =? 0x80;
               type_id := type_id;
               description := type_description type_id;
               start_lba := start_lba;
               size_sectors := size_sectors;
               size_bytes := size_sectors * 512 |} :: others)
  end.

Definition parse_mbr (mbr_data : bytes) : result mbr_result :=
  if negb (len mbr_data =? MBR_SIZE) then Raise ValueError
  else
    let signature := slice mbr_data SIGNATURE_OFFSET (SIGNATURE_OFFSET + 2) in
    let valid := FAT16Recover.bytes_eqb signature SIGNATURE in
    let partition_table :=
      slice mbr_data PARTITION_TABLE_OFFSET SIGNATURE_OFFSET in
    parts <- parse_entries partition_table [0; 1; 2; 3] ;;
    Ok {| signature_valid := valid;
          warning_printed := negb valid;
          partitions := parts |}.

End MBR.

(** ** Boot.py *)
Module Boot.
Import Py.

Definition BOOT_SECTOR_SIZE : Z := 512.
Definition SIGNATURE_OFFSET : Z := 0x1FE.
Definition SIGNATURE : bytes := [x55; xaa].
Definition OFS_SECTOR_SIZE : Z := 0x0B.
Definition OFS_CLUSTER_SIZE : Z := 0x0D.
Definition OFS_RESERVED_COUNT : Z := 0x0E.
Definition OFS_NUM_FATS : Z := 0x10.
Definition OFS_ROOT_ENTRIES : Z := 0x11.
Definition OFS_TOTAL_SECTORS_SMALL : Z := 0x13.
Definition OFS_FAT_SIZE : Z := 0x16.
Definition OFS_TOTAL_SECTORS_LARGE : Z := 0x20.

Record parameters : Type := {
  bytes_per_sector : Z;
  sectors_per_cluster : Z;
  reserved_sectors : Z;
  num_fats : Z;
  root_entry_count : Z;
  root_size_bytes : Z;
  root_size_sectors : Z;
  fat_size_sectors : Z;
  total_sectors : Z;
  first_fat_sector : Z;
  root_dir_sector : Z;
  data_region_sector : Z
}.

Record boot_result : Type := {
  signature_valid : bool;
  params : parameters
}.

(** [read_boot_sector_from_file]: the 512 bytes at the start of the
    partition, or [None] when the seek fails or the file ends before. *)
Definition read_boot_sector_from_file (image : bytes) (partition_start_lba : Z)
  : option bytes :=
  let offset_bytes := partition_start_lba * BOOT_SECTOR_SIZE in
  if offset_bytes <? 0 then None
  else
    let boot_data := firstn (Z.to_nat BOOT_SECTOR_SIZE)
                            (skipn (Z.to_nat offset_bytes) image) in
    if negb (len boot_data =? BOOT_SECTOR_SIZE) then None else Some boot_data.

(** [a // b] on integers *)
Definition floordiv (a b : Z) : result Z :=
  if b =? 0 then Raise ZeroDivisionError else Ok (a / b).

Definition parse_fat16_boot_sector (boot_data : bytes)
           (partition_start_lba : Z) : result boot_result :=
  if negb (len boot_data =? BOOT_SECTOR_SIZE) then Raise ValueError
  else
    let valid :=
      FAT16Recover.bytes_eqb
        (slice boot_data SIGNATURE_OFFSET (SIGNATURE_OFFSET + 2)) SIGNATURE in
    bps <- unpack_H (slice boot_data OFS_SECTOR_SIZE (OFS_SECTOR_SIZE + 2)) ;;
    spc <- unpack_B (slice boot_data OFS_CLUSTER_SIZE (OFS_CLUSTER_SIZE + 1)) ;;
    rsv <- unpack_H (slice boot_data OFS_RESERVED_COUNT (OFS_RESERVED_COUNT + 2)) ;;
    nf <- unpack_B (slice boot_data OFS_NUM_FATS (OFS_NUM_FATS + 1)) ;;
    root_entries <-
      unpack_H (slice boot_data OFS_ROOT_ENTRIES (OFS_ROOT_ENTRIES + 2)) ;;
    let rsb := root_entries * 32 in
    rss <- floordiv (rsb + bps - 1) bps ;;
    fsz <- unpack_H (slice boot_data OFS_FAT_SIZE (OFS_FAT_SIZE + 2)) ;;
    total_sectors_small <-
      unpack_H (slice boot_data OFS_TOTAL_SECTORS_SMALL
                      (OFS_TOTAL_SECTORS_SMALL + 2)) ;;
    total <-
      (if negb (total_sectors_small =? 0) then Ok total_sectors_small
       else unpack_I (slice boot_data OFS_TOTAL_SECTORS_LARGE
                            (OFS_TOTAL_SECTORS_LARGE + 4))) ;;
    let first_fat := partition_start_lba + rsv in
    let root_dir := first_fat + nf * fsz in
    Ok {| signature_valid := valid;
          params :=
            {| bytes_per_sector := bps;
               sectors_per_cluster := spc;
               reserved_sectors := rsv;
               num_fats := nf;
               root_entry_count := root_entries;
               root_size_bytes := rsb;
               root_size_sectors := rss;
               fat_size_sectors := fsz;
               total_sectors := total;
               first_fat_sector := first_fat;
               root_dir_sector := root_dir;
               data_region_sector := root_dir + rss |} |}.

End Boot.

(** ** Sample volumes

    A small image: MBR (sector 0) with one FAT16 partition at LBA 1, a
    boot sector (sector 1) with one sector per cluster, one reserved
    sector, one FAT of one sector (sector 2) and a root directory of 16
    entries (sector 3); the data region starts at sector 4. *)
Module Samples.
Import Py FAT16Recover.

Definition le16 (z : Z) : bytes := [chr (z mod 256); chr (z / 256)].
Definition le32 (z : Z) : bytes := le16 (z mod 65536) ++ le16 (z / 65536).

(** [l] with the bytes [bs] written at offset [off]. *)
Definition patch (off : nat) (bs : bytes) (l : bytes) : bytes :=
  firstn off l ++ bs ++ skipn (off + List.length bs) l.

Definition build (size : nat) (patches : list (nat * bytes)) : bytes :=
  fold_left (fun l ob => patch (fst ob) (snd ob) l) patches (repeat x00 size).

Definition ascii_bytes (s : string) : bytes :=
  map (fun a => chr (Z.of_N (N_of_ascii a))) (list_ascii_of_string s).

Definition mbr_sector (signature : bytes) : bytes :=
  build 512
    [(446%nat, [x80; x01; x01; x00; x06; xfe; x3f; x02] ++ le32 1 ++ le32 5);
     (510%nat, signature)].

Definition vbr_sector (bytes_per_sector spc num_fats fat_size : Z) : bytes :=
  build 512
    [(11%nat, le16 bytes_per_sector); (13%nat, [chr spc]);
     (14%nat, le16 1); (16%nat, [chr num_fats]); (17%nat, le16 16);
     (22%nat, le16 fat_size); (510%nat, [x55; xaa])].

(** FAT entries: 2 -> 3, 3 -> end of chain, 4 -> 1, 5 -> 6, 6 -> 5,
    7 -> 7. *)
Definition fat_entries : list Z :=
  [0xFFF8; 0xFFFF; 3; 0xFFFF; 1; 6; 5; 7].

Definition fat_sector : bytes :=
  build 512 [(0%nat, concat (map le16 fat_entries))].

(** A long-name record with sequence byte [sequence] for [text]. *)
Definition lfn_record (sequence : Z) (text : string) : bytes :=
  let units :=
    firstn 13 (map (fun a => Z.of_N (N_of_ascii a)) (list_ascii_of_string text)
               ++ 0 :: repeat 0xFFFF 13) in
  let raw := concat (map le16 units) in
  build 32
    [(0%nat, [chr sequence]); (1%nat, firstn 10 raw); (11%nat, [x0f]);
     (14%nat, firstn 12 (skipn 10 raw)); (28%nat, skipn 22 raw)].

(** A short-name record. *)
Definition sfn_record (name : string) (attributes start_cluster size : Z)
  : bytes :=
  build 32
    [(0%nat, ascii_bytes name); (11%nat, [chr attributes]);
     (26%nat, le16 start_cluster); (28%nat, le32 size)].

Definition rec_o_txt : bytes := lfn_record 0x42 "o.txt".
Definition rec_hell : bytes := lfn_record 0x01 "hell".

Definition root_sector : bytes :=
  build 512
    [(0%nat, rec_o_txt); (32%nat, rec_hell);
     (64%nat, sfn_record "HELLO   TXT" 0x20 2 600);
     (96%nat, sfn_record "LABEL      " 0x08 2 5);
     (128%nat, sfn_record "VOLDIR     " 0x18 3 0);
     (160%nat, sfn_record "NO NAME    " 0x08 0 0)].

Definition data_sector (fill : byte) : bytes := repeat fill 512.

(** The whole sample image: clusters 2 and 3 are present. *)
Definition image : bytes :=
  mbr_sector [x55; xaa] ++ vbr_sector 512 1 1 1 ++ fat_sector
  ++ root_sector ++ data_sector x41 ++ data_sector x42.

(** The same image cut after cluster 2: reading cluster 3 fails. *)
Definition image_cut : bytes := firstn (5 * 512) image.

(** The same image without the MBR signature. *)
Definition image_nosig : bytes :=
  mbr_sector [x00; x00] ++ skipn 512 image.

(** An image whose boot sector has bytes_per_sector 0, three sectors
    per cluster and no FAT copy. *)
Definition image_badgeom : bytes :=
  mbr_sector [x55; xaa] ++ vbr_sector 0 3 0 1 ++ fat_sector.

(** An image whose boot sector declares a FAT of zero sectors. *)
Definition image_nofat : bytes :=
  mbr_sector [x55; xaa] ++ vbr_sector 512 1 1 0 ++ fat_sector.

(** The globals after [setup_disk_params] on [image]. *)
Definition params : DiskParams :=
  {| PARTITION_START_LBA := 1; RESERVED_SECTORS := 1; NUM_FATS := 1;
     FAT_SIZE_SECTORS := 1; ROOT_DIR_SECTORS := 1; SECTORS_PER_CLUSTER := 1;
     FAT1_START_LBA := 2; ROOT_DIR_START_LBA := 3;
     DATA_REGION_START_LBA := 4; GLOBAL_FAT_DATA := fat_sector |}.

(** Scenario S7: the same layout with eight sectors per cluster, so a
    cluster has 4096 bytes; clusters 2 and 3 are present. *)
Definition image_s7 : bytes :=
  mbr_sector [x55; xaa] ++ vbr_sector 512 8 1 1 ++ fat_sector
  ++ root_sector ++ repeat x41 4096 ++ repeat x42 4096.

Definition params_s7 : DiskParams :=
  {| PARTITION_START_LBA := 1; RESERVED_SECTORS := 1; NUM_FATS := 1;
     FAT_SIZE_SECTORS := 1; ROOT_DIR_SECTORS := 1; SECTORS_PER_CLUSTER := 8;
     FAT1_START_LBA := 2; ROOT_DIR_START_LBA := 3;
     DATA_REGION_START_LBA := 4; GLOBAL_FAT_DATA := fat_sector |}.

(** A FAT buffer of 14 bytes with 5 -> 6 and 6 -> 5. *)
Definition fat_cycle : bytes :=
  concat (map le16 [0xFFF8; 0xFFFF; 0; 0; 0; 6; 5]).

(** A FAT buffer with 2 -> 3, 3 -> 4, 4 -> 0xFFFF. *)
Definition fat_s3 : bytes :=
  concat (map le16 [0xFFF8; 0xFFFF; 3; 4; 0xFFFF]).

End Samples.

(** ** The fields that volume setup reads

    Each value below is the expression that [setup_disk_params] computes
    for it, written as a function of the MBR sector and of the boot
    sector. *)
Module Geometry.
Import Py FAT16Recover.

Definition partition_start (mbr : bytes) : Z :=
  le_uint (slice (slice mbr PARTITION_TABLE_OFFSET (PARTITION_TABLE_OFFSET + 16))
                 8 12).

Definition signature_ok (mbr : bytes) : bool :=
  bytes_eqb (slice mbr 0x1FE 0x200) [x55; xaa].

Definition sectors_per_cluster (vbr : bytes) : Z := le_uint (slice vbr 0x0D 0x0E).
Definition reserved_sectors (vbr : bytes) : Z := le_uint (slice vbr 0x0E 0x10).
Definition num_fats (vbr : bytes) : Z := le_uint (slice vbr 0x10 0x11).
Definition root_entries (vbr : bytes) : Z := le_uint (slice vbr 0x11 0x13).
Definition fat_size_sectors (vbr : bytes) : Z := le_uint (slice vbr 0x16 0x18).

(** The field at 0x0B, which [setup_disk_params] does not read. *)
Definition bytes_per_sector (vbr : bytes) : Z := le_uint (slice vbr 0x0B 0x0D).

Definition fat1_start (mbr vbr : bytes) : Z :=
  partition_start mbr + reserved_sectors vbr.

Definition geometry (mbr vbr fat_data : bytes) : DiskParams :=
  let root_dir_sectors := (root_entries vbr * 32 + SECTOR_SIZE - 1) / SECTOR_SIZE in
  let root_dir_start :=
    fat1_start mbr vbr + num_fats vbr * fat_size_sectors vbr in
  {| PARTITION_START_LBA := partition_start mbr;
     RESERVED_SECTORS := reserved_sectors vbr;
     NUM_FATS := num_fats vbr;
     FAT_SIZE_SECTORS := fat_size_sectors vbr;
     ROOT_DIR_SECTORS := root_dir_sectors;
     SECTORS_PER_CLUSTER := sectors_per_cluster vbr;
     FAT1_START_LBA := fat1_start mbr vbr;
     ROOT_DIR_START_LBA := root_dir_start;
     DATA_REGION_START_LBA := root_dir_start + root_dir_sectors;
     GLOBAL_FAT_DATA := fat_data |}.

(** The result of volume setup, stage by stage: the MBR read and its
    signature, the boot-sector read, the FAT read. *)
Definition setup_outcome (image : bytes) : setup_result :=
  if len image <? 512 then SetupFalse InvalidMBR
  else
    let mbr := firstn 512 image in
    if negb (signature_ok mbr) then SetupFalse InvalidMBR
    else
      match read_sector image (partition_start mbr) 1 with
      | None => SetupFalse NoVBR
      | Some vbr =>
          match read_sector image (fat1_start mbr vbr) (fat_size_sectors vbr) with
          | Some (b :: l) => SetupTrue (geometry mbr vbr (b :: l))
          | _ => SetupFalse NoFAT
          end
      end.

End Geometry.

(** ** The chain from a given cluster, without the accumulator

    [walk n fat c] lists the clusters that [trace_loop] appends from
    [c] on when [n] more clusters fit below the length limit.  It is the
    same loop with the chain built from the front, which is what the
    proofs below reason on. *)
Module Chain.
Import Py FAT16Recover.

Definition cons_outcome (c : Z) (o : trace_outcome) : trace_outcome :=
  match o with
  | Returned l => Returned (c :: l)
  | Raised e => Raised e
  | Unfinished => Unfinished
  end.

Definition extend (chain : list Z) (o : trace_outcome) : trace_outcome :=
  match o with
  | Returned l => Returned (chain ++ l)
  | Raised e => Raised e
  | Unfinished => Unfinished
  end.

(** The entry a cluster points to, as the loop reads it. *)
Definition entry_of (fat : bytes) (c : Z) : result Z :=
  unpack_H (slice fat (c * 2) (c * 2 + 2)).

(** The entries on which the loop leaves: end of chain, free, bad. *)
Definition stops (next_cluster : Z) : bool :=
  ((0xFFF8 <=? next_cluster) && (next_cluster <=? 0xFFFF))
  || (next_cluster =? 0x0000) || (next_cluster =? 0xFFF7).

(** The entries the loop follows: every other 16-bit value. *)
Definition followed (v : Z) : Prop := 0x0001 <= v <= 0xFFF6.

(** [a; b; a; b; ...] of length [n] *)
Fixpoint alternate (n : nat) (a b : Z) : list Z :=
  match n with
  | O => []
  | S n' => a :: alternate n' b a
  end.

Fixpoint walk (n : nat) (fat : bytes) (c : Z) : trace_outcome :=
  match n with
  | O => Unfinished
  | S n' =>
      if c * 2 + 2 >? len fat then Returned []
      else
        match unpack_H (slice fat (c * 2) (c * 2 + 2)) with
        | Raise e => Raised e
        | Ok next_cluster =>
            if (0xFFF8 <=? next_cluster) && (next_cluster <=? 0xFFFF)
            then Returned [c]
            else if next_cluster =? 0x0000 then Returned [c]
            else if next_cluster =? 0xFFF7 then Returned [c]
            else
              match n' with
              | O => Returned [c]
              | S _ => cons_outcome c (walk n' fat next_cluster)
              end
        end
  end.

End Chain.

(** ** Well-formed chains of a FAT *)
Module ChainShape.
Import Py FAT16Recover Chain.

(** [fat_path fat l]: [l] is a chain as the FAT stores it.  The entry
    of every cluster of [l] lies inside the buffer, the entry of each
    cluster but the last is the next cluster of [l], a value that is
    followed, and the entry of the last cluster is a stop value (end of
    chain, free or bad). *)
Fixpoint fat_path (fat : bytes) (l : list Z) : Prop :=
  match l with
  | [] => False
  | c :: rest =>
      c * 2 + 2 <= len fat
      /\ match rest with
         | [] => exists v, entry_of fat c = Ok v /\ stops v = true
         | d :: _ =>
             entry_of fat c = Ok d /\ stops d = false /\ fat_path fat rest
         end
  end.

End ChainShape.

(** ** The records of a directory block and the actions they give *)
Module WalkerShape.
Import Py FAT16Recover.

(** [dir_data[i * 32 : i * 32 + 32]], the record the loop looks at in
    its iteration [i]. *)
Definition record_at (dir_data : bytes) (i : nat) : bytes :=
  slice dir_data (Z.of_nat i * 32) (Z.of_nat i * 32 + 32).

(** A name that is one path component: not ".", not "..", and without
    '/' and backslash. *)
Definition component (name : str) : Prop :=
  name <> lit "." /\ name <> lit ".." /\ ~ In 47 name /\ ~ In 92 name.

(** An action as the walker can issue it in a directory [dir_path]. *)
Definition action_ok (p : DiskParams) (dir_path : str) (a : action) : Prop :=
  match a with
  | RecoverFile start_cluster file_size relative_path =>
      2 <= start_cluster < 65536 /\ 0 < file_size < 2 ^ 32
      /\ exists name,
           component name
           /\ relative_path = RECOVERY_DIR ++ 47 :: path_join dir_path name
  | EnterDirectory host_dir sub_dir_lba sub_path =>
      (exists c, 2 <= c < 65536
                 /\ sub_dir_lba
                    = DATA_REGION_START_LBA p + (c - 2) * SECTORS_PER_CLUSTER p)
      /\ hd_error sub_path <> Some 47
      /\ host_dir = RECOVERY_DIR ++ 47 :: sub_path
      /\ exists name, component name /\ sub_path = path_join dir_path name
  end.

End WalkerShape.

(** ** The slots of a partition table *)
Module MbrShape.
Import Py.

(** The 16-byte slot [i] of the partition table, as the loop of
    [parse_mbr] cuts it out. *)
Definition slot (partition_table : bytes) (i : Z) : bytes :=
  slice partition_table (i * MBR.PARTITION_ENTRY_SIZE)
        (i * MBR.PARTITION_ENTRY_SIZE + MBR.PARTITION_ENTRY_SIZE).

Definition used (partition_table : bytes) (i : Z) : bool :=
  negb (MBR.all_zero (slot partition_table i)).

(** The fields of a decoded partition lie in the ranges of their
    on-disk widths. *)
Definition partition_in_range (q : MBR.partition) : Prop :=
  1 <= MBR.index q <= 4
  /\ 0 <= MBR.type_id q < 256
  /\ 0 <= MBR.start_lba q < 2 ^ 32
  /\ 0 <= MBR.size_sectors q < 2 ^ 32
  /\ MBR.size_bytes q = MBR.size_sectors q * 512.

End MbrShape.

(** ** The recursive walk and the tool

    [parse_and_recover_directory] calls itself for every subdirectory
    and [recover_file] for every file, after creating the host
    directories.  The host file system is a parameter: it answers
    whether [os.makedirs] succeeds for a path and whether an output file
    can be written.  [depth] is the number of nested activations that
    the interpreter allows; one more raises RecursionError.  No
    activation catches an exception, so a failed [os.makedirs] and a
    RecursionError end the whole walk. *)
Module Tool.
Import Py FAT16Recover.

Record Host : Type := {
  makedirs_ok : str -> bool;
  output_ok : str -> bool
}.

(** An exception that leaves the walk: the recursion limit, a call of
    [os.makedirs] that the host refuses (OSError, or ValueError for a
    path that holds a NUL), or an exception of the code itself. *)
Inductive crash : Type :=
| RecursionError
| MakedirsFailed
| Escaped (e : exn).

(** What the walk does on the host, in order. *)
Inductive event : Type :=
| MakeDirs (path : str)
| RecoverCall (relative_path : str) (start_cluster file_size : Z)
              (o : recover_outcome).

Inductive status : Type :=
| Finished
| Crashed (c : crash).

Fixpoint drop_while (f : Z -> bool) (s : str) : str :=
  match s with
  | [] => []
  | c :: s' => if f c then drop_while f s' else s
  end.

(** [posixpath.dirname]: the part up to the last '/', without its
    trailing slashes unless it consists of slashes only. *)
Definition dirname (path : str) : str :=
  let head := rev (drop_while (fun c => negb (c =? 47)) (rev path)) in
  let stripped := rev (drop_while (fun c => c =? 47) (rev head)) in
  match stripped with
  | [] => head
  | _ :: _ => stripped
  end.

(** The actions of one activation, carried out in order; [recurse] is
    the recursive call. *)
Fixpoint run_actions (recurse : Z -> str -> list event * status) (h : Host)
         (image : bytes) (p : DiskParams) (acts : list action)
  : list event * status :=
  match acts with
  | [] => ([], Finished)
  | EnterDirectory host_dir sub_dir_lba sub_path :: rest =>
      if makedirs_ok h host_dir then
        let '(ev, st) := recurse sub_dir_lba sub_path in
        match st with
        | Finished =>
            let '(ev', st') := run_actions recurse h image p rest in
            (MakeDirs host_dir :: ev ++ ev', st')
        | Crashed c => (MakeDirs host_dir :: ev, Crashed c)
        end
      else ([], Crashed MakedirsFailed)
  | RecoverFile start_cluster file_size relative_path :: rest =>
      if makedirs_ok h (dirname relative_path) then
        match recover_file (output_ok h relative_path) image p
                           start_cluster file_size with
        | Raise e => ([MakeDirs (dirname relative_path)], Crashed (Escaped e))
        | Ok o =>
            let '(ev', st') := run_actions recurse h image p rest in
            (MakeDirs (dirname relative_path)
             :: RecoverCall relative_path start_cluster file_size o :: ev', st')
        end
      else ([], Crashed MakedirsFailed)
  end.

Fixpoint parse_and_recover_directory (depth : nat) (h : Host) (image : bytes)
         (p : DiskParams) (start_lba : Z) (dir_path : str)
  : list event * status :=
  match depth with
  | O => ([], Crashed RecursionError)
  | S depth' =>
      match directory_actions image p start_lba dir_path with
      | Raise e => ([], Crashed (Escaped e))
      | Ok acts =>
          run_actions (parse_and_recover_directory depth' h image p)
                      h image p acts
      end
  end.

Definition run_recovery_tool (depth : nat) (h : Host) (image : bytes)
  : list event * status :=
  match setup_disk_params image with
  | Raise e => ([], Crashed (Escaped e))
  | Ok (SetupFalse _) => ([], Finished)
  | Ok (SetupTrue p) =>
      if makedirs_ok h RECOVERY_DIR then
        let '(ev, st) :=
          parse_and_recover_directory depth h image p (ROOT_DIR_START_LBA p) [] in
        (MakeDirs RECOVERY_DIR :: ev, st)
      else ([], Crashed MakedirsFailed)
  end.

(** What an action is, apart from its paths. *)
Definition shape (a : action) : Z + Z * Z :=
  match a with
  | EnterDirectory _ sub_dir_lba _ => inl sub_dir_lba
  | RecoverFile start_cluster file_size _ => inr (start_cluster, file_size)
  end.



(** The directory at [lba] holds an entry that makes the walk enter the
    directory at [lba']. *)
Definition enters (image : bytes) (p : DiskParams) (lba lba' : Z) : Prop :=
  exists dir_path acts,
    directory_actions image p lba dir_path = Ok acts
    /\ In (inl lba') (map shape acts).

(** How a walk can end: normally, at the recursion limit, or by a
    refusal of the host; never by an exception of the code itself. *)
Definition ends_well (h : Host) (st : status) : Prop :=
  match st with
  | Finished => True
  | Crashed RecursionError => True
  | Crashed MakedirsFailed => exists path, makedirs_ok h path = false
  | Crashed (Escaped _) => False
  end.

(** A host that accepts everything. *)
Definition willing_host : Host :=
  {| makedirs_ok := fun _ => true; output_ok := fun _ => true |}.

(** The sample image with cluster 2 turned into a directory that holds
    an entry for itself, and a root directory that leads to it. *)
Definition loop_dir : bytes :=
  Samples.build 512 [(0%nat, Samples.sfn_record "LOOP       " 0x10 2 0)].

Definition image_loop : bytes :=
  Samples.mbr_sector [x55; xaa] ++ Samples.vbr_sector 512 1 1 1
  ++ Samples.fat_sector ++ loop_dir ++ loop_dir.

End Tool.

(** * Properties *)

(** ** Slices and unpacking *)
Section PyFacts.
Import Py.

Lemma len_nonneg {A : Type} (l : list A) : 0 <= len l.
Proof. unfold len. lia. Qed.

Lemma len_app {A : Type} (l1 l2 : list A) : len (l1 ++ l2) = len l1 + len l2.
Proof. unfold len. rewrite length_app. lia. Qed.

Lemma adjust_inside (n i : Z) : 0 <= i <= n -> adjust n i = i.
Proof.
  intros H. unfold adjust.
  destruct (Z.ltb_spec i 0); lia.
Qed.

Lemma slice_inside {A : Type} (l : list A) (a b : Z) :
  0 <= a -> a <= b -> b <= len l ->
  slice l a b = firstn (Z.to_nat (b - a)) (skipn (Z.to_nat a) l).
Proof.
  intros Ha Hab Hb. unfold slice.
  rewrite !adjust_inside by lia. reflexivity.
Qed.

Lemma slice_length {A : Type} (l : list A) (a b : Z) :
  0 <= a -> a <= b -> b <= len l ->
  List.length (slice l a b) = Z.to_nat (b - a).
Proof.
  intros Ha Hab Hb. rewrite slice_inside by assumption.
  rewrite length_firstn, length_skipn. unfold len in Hb. lia.
Qed.

Lemma slice_prefix {A : Type} (l : list A) (n : Z) :
  0 <= n -> slice l 0 n = firstn (Z.to_nat n) l.
Proof.
  intros Hn. unfold slice.
  rewrite (adjust_inside (len l) 0) by (pose proof (len_nonneg l); lia).
  change (Z.to_nat 0) with 0%nat. cbn [skipn]. rewrite Z.sub_0_r.
  unfold adjust. destruct (Z.ltb_spec n 0); [lia|].
  destruct (Z.min_spec n (len l)) as [[Hlt ->]|[Hge ->]]; [reflexivity|].
  unfold len in *. rewrite Nat2Z.id.
  rewrite firstn_all. rewrite firstn_all2; [reflexivity|lia].
Qed.

Lemma ord_range (b : byte) : 0 <= ord b < 256.
Proof.
  unfold ord. pose proof (Byte.to_N_bounded b) as H.
  apply N2Z.inj_le in H. change (Z.of_N 255) with 255 in H.
  pose proof (N2Z.is_nonneg (Byte.to_N b)). lia.
Qed.

Lemma le_uint_nonneg (bs : bytes) : 0 <= le_uint bs.
Proof.
  induction bs as [|b bs IH]; [discriminate|].
  unfold le_uint in *. cbn [fold_right].
  pose proof (ord_range b). lia.
Qed.

Lemma le_uint_two (bs : bytes) :
  List.length bs = 2%nat -> 0 <= le_uint bs < 65536.
Proof.
  destruct bs as [|b0 [|b1 [|? ?]]]; try discriminate.
  intros _. unfold le_uint. cbn [fold_right].
  pose proof (ord_range b0). pose proof (ord_range b1). lia.
Qed.

Lemma unpack_H_ok (bs : bytes) :
  List.length bs = 2%nat -> unpack_H bs = Ok (le_uint bs).
Proof.
  intros H. unfold unpack_H, unpack_uint. rewrite H. reflexivity.
Qed.

Lemma unpack_H_range (bs : bytes) (v : Z) :
  unpack_H bs = Ok v -> 0 <= v < 65536.
Proof.
  unfold unpack_H, unpack_uint.
  destruct (Nat.eqb_spec (List.length bs) 2); [|discriminate].
  intros [= <-]. now apply le_uint_two.
Qed.

End PyFacts.

(** ** The chain walk *)
Section ChainFacts.
Import Py FAT16Recover Chain.

Variable fat : bytes.

Lemma walk_unfold (n : nat) (c : Z) :
  walk (S n) fat c =
    if c * 2 + 2 >? len fat then Returned []
    else match entry_of fat c with
         | Raise e => Raised e
         | Ok next_cluster =>
             if stops next_cluster then Returned [c]
             else match n with
                  | O => Returned [c]
                  | S _ => cons_outcome c (walk n fat next_cluster)
                  end
         end.
Proof.
  cbn [walk]. unfold entry_of, stops.
  destruct (c * 2 + 2 >? len fat); [reflexivity|].
  destruct (unpack_H _) as [v|e]; [|reflexivity].
  destruct ((0xFFF8 <=? v) && (v <=? 0xFFFF)); [reflexivity|].
  destruct (v =? 0x0000); [reflexivity|].
  destruct (v =? 0xFFF7); reflexivity.
Qed.

(** The loop of the source and the walk agree. *)
Lemma trace_loop_walk (n : nat) :
  forall (fuel : nat) (c : Z) (chain : list Z),
    (1 <= n)%nat -> (n <= fuel)%nat -> len chain + Z.of_nat n = 65536 ->
    trace_loop fuel fat c chain = extend chain (walk n fat c).
Proof.
  induction n as [|n IH]; intros fuel c chain Hn Hfuel Hlen; [lia|].
  destruct fuel as [|fuel]; [lia|].
  rewrite walk_unfold. cbn [trace_loop]. unfold entry_of, stops.
  destruct (c * 2 + 2 >? len fat).
  { simpl. now rewrite app_nil_r. }
  destruct (unpack_H _) as [v|e]; [|reflexivity].
  destruct ((0xFFF8 <=? v) && (v <=? 0xFFFF)); [reflexivity|].
  destruct (v =? 0x0000); [reflexivity|].
  destruct (v =? 0xFFF7); [reflexivity|].
  cbn [orb].
  assert (Hl : len (chain ++ [c]) = len chain + 1) by (rewrite len_app; reflexivity).
  destruct n as [|n'].
  - destruct (Z.gtb_spec (len (chain ++ [c])) 65535); [reflexivity|lia].
  - destruct (Z.gtb_spec (len (chain ++ [c])) 65535); [lia|].
    rewrite (IH fuel v (chain ++ [c])) by lia.
    destruct (walk (S n') fat v); simpl; try reflexivity.
    now rewrite <- app_assoc.
Qed.

Lemma walk_finishes (n : nat) :
  forall c, (1 <= n)%nat -> walk n fat c <> Unfinished.
Proof.
  induction n as [|n IH]; intros c Hn; [lia|].
  rewrite walk_unfold.
  destruct (c * 2 + 2 >? len fat); [discriminate|].
  destruct (entry_of fat c) as [v|e]; [|discriminate].
  destruct (stops v); [discriminate|].
  destruct n as [|n']; [discriminate|].
  specialize (IH v ltac:(lia)).
  destruct (walk (S n') fat v); simpl; congruence.
Qed.

Lemma walk_length (n : nat) :
  forall c l, walk n fat c = Returned l -> (List.length l <= n)%nat.
Proof.
  induction n as [|n IH]; intros c l; [discriminate|].
  rewrite walk_unfold.
  destruct (c * 2 + 2 >? len fat); [intros [= <-]; simpl; lia|].
  destruct (entry_of fat c) as [v|e]; [|discriminate].
  destruct (stops v); [intros [= <-]; simpl; lia|].
  destruct n as [|n']; [intros [= <-]; simpl; lia|].
  destruct (walk (S n') fat v) as [l'| |] eqn:E; simpl; try discriminate.
  intros [= <-]. apply IH in E. simpl. lia.
Qed.

(** From a non-negative cluster the walk never raises. *)
Lemma entry_of_ok (c : Z) :
  0 <= c -> c * 2 + 2 <= len fat ->
  exists v, entry_of fat c = Ok v /\ 0 <= v < 65536.
Proof.
  intros Hc Hin. unfold entry_of.
  assert (Hlen : List.length (slice fat (c * 2) (c * 2 + 2)) = 2%nat).
  { rewrite slice_length by lia. replace (c * 2 + 2 - c * 2) with 2 by lia.
    reflexivity. }
  rewrite (unpack_H_ok _ Hlen). eexists; split; [reflexivity|].
  now apply le_uint_two.
Qed.

Lemma walk_returns (n : nat) :
  forall c, (1 <= n)%nat -> 0 <= c -> exists l, walk n fat c = Returned l.
Proof.
  induction n as [|n IH]; intros c Hn Hc; [lia|].
  rewrite walk_unfold.
  destruct (Z.gtb_spec (c * 2 + 2) (len fat)); [eauto|].
  destruct (entry_of_ok c Hc ltac:(lia)) as [v [-> Hv]].
  destruct (stops v); [eauto|].
  destruct n as [|n']; [eauto|].
  destruct (IH v ltac:(lia) ltac:(lia)) as [l ->]. simpl. eauto.
Qed.

(** Every listed cluster had its entry inside the buffer, and every
    cluster after the first is a followed entry. *)
Lemma stops_false (v : Z) :
  0 <= v < 65536 -> stops v = false -> followed v.
Proof.
  unfold stops, followed. intros Hv H.
  apply orb_false_iff in H as [H H3]. apply orb_false_iff in H as [H1 H2].
  apply Z.eqb_neq in H2, H3.
  destruct (Z.leb_spec 0xFFF8 v), (Z.leb_spec v 0xFFFF); simpl in H1;
    try discriminate; lia.
Qed.

Lemma walk_elements (n : nat) :
  forall c l, walk n fat c = Returned l ->
    Forall (fun x => x * 2 + 2 <= len fat) l
    /\ (forall x, In x (tl l) -> followed x)
    /\ (l = [] \/ hd 0 l = c).
Proof.
  induction n as [|n IH]; intros c l; [discriminate|].
  rewrite walk_unfold.
  destruct (Z.gtb_spec (c * 2 + 2) (len fat)).
  { intros [= <-]. split; [constructor|]. split; [|left; reflexivity].
    intros x []. }
  assert (Hone : Forall (fun x => x * 2 + 2 <= len fat) [c]
                 /\ (forall x, In x (tl [c]) -> followed x)
                 /\ ([c] = [] \/ hd 0 [c] = c)).
  { split; [repeat constructor; lia|]. split; [|right; reflexivity].
    intros x []. }
  destruct (entry_of fat c) as [v|e] eqn:Ev; [|discriminate].
  destruct (stops v) eqn:Sv; [intros [= <-]; exact Hone|].
  destruct n as [|n']; [intros [= <-]; exact Hone|].
  destruct (walk (S n') fat v) as [l'| |] eqn:E; simpl; try discriminate.
  intros [= <-]. destruct (IH _ _ E) as (Hall & Htl & Hhd).
  split; [constructor; [lia|exact Hall]|]. split; [|right; reflexivity].
  simpl. intros x Hx.
  assert (Hv : followed v).
  { apply stops_false; [|exact Sv]. apply (unpack_H_range _ _ Ev). }
  destruct l' as [|y l'']; [destruct Hx|].
  destruct Hhd as [Hnil|Hhd]; [discriminate|]. simpl in Hhd. subst y.
  destruct Hx as [<-|Hx]; [exact Hv|]. apply Htl. exact Hx.
Qed.

End ChainFacts.

(** ** Repeated clusters and the length limit *)
Section ChainRepeats.
Import Py FAT16Recover Chain.

Variable fat : bytes.

(** A walk that ends before the limit does not depend on the limit. *)
Lemma walk_mono (n : nat) :
  forall c l m, walk n fat c = Returned l -> (List.length l < n)%nat ->
    (n <= m)%nat -> walk m fat c = Returned l.
Proof.
  induction n as [|n IH]; intros c l m; [discriminate|].
  destruct m as [|m]; [lia|].
  rewrite !walk_unfold.
  destruct (c * 2 + 2 >? len fat); [auto|].
  destruct (entry_of fat c) as [v|e]; [|discriminate].
  destruct (stops v); [auto|].
  destruct n as [|n']; [intros [= <-]; simpl; lia|].
  destruct (walk (S n') fat v) as [l'| |] eqn:E; simpl; try discriminate.
  intros [= <-] Hlen Hm. simpl in Hlen.
  destruct m as [|m']; [lia|].
  rewrite (IH v l' (S m') E) by lia. reflexivity.
Qed.

(** The walk from a listed cluster is the rest of the list. *)
Lemma walk_suffix (l1 : list Z) :
  forall n c x l2, walk n fat c = Returned (l1 ++ x :: l2) ->
    (List.length (l1 ++ x :: l2) < n)%nat ->
    walk n fat x = Returned (x :: l2).
Proof.
  induction l1 as [|y l1 IH]; intros n c x l2 Hw Hlen.
  - destruct (walk_elements fat n c _ Hw) as (_ & _ & [Hnil|Hhd]);
      [discriminate|].
    simpl in Hhd. subst x. exact Hw.
  - destruct n as [|n]; [discriminate|].
    rewrite walk_unfold in Hw.
    destruct (c * 2 + 2 >? len fat); [discriminate|].
    destruct (entry_of fat c) as [v|e]; [|discriminate].
    destruct (stops v).
    { injection Hw as _ Hw. destruct l1; discriminate. }
    destruct n as [|n'].
    { injection Hw as _ Hw. destruct l1; discriminate. }
    destruct (walk (S n') fat v) as [l'| |] eqn:E; simpl in Hw;
      try discriminate.
    injection Hw as _ Hw. subst l'. simpl in Hlen.
    apply (walk_mono (S n')); [|simpl in *; rewrite length_app in Hlen; simpl in Hlen; lia|lia].
    apply (IH (S n') v); [exact E|lia].
Qed.

(** A walk that ends before the limit lists no cluster twice. *)
Lemma walk_nodup (n : nat) :
  forall c l, walk n fat c = Returned l -> (List.length l < n)%nat ->
    NoDup l.
Proof.
  induction n as [|n IH]; intros c l; [discriminate|].
  intros Hw Hlen. pose proof Hw as Hw0. rewrite walk_unfold in Hw.
  destruct (c * 2 + 2 >? len fat); [injection Hw as <-; constructor|].
  destruct (entry_of fat c) as [v|e]; [|discriminate].
  assert (Hone : NoDup [c]) by (constructor; [intros []|constructor]).
  destruct (stops v); [injection Hw as <-; exact Hone|].
  destruct n as [|n']; [injection Hw as <-; exact Hone|].
  destruct (walk (S n') fat v) as [l'| |] eqn:E; simpl in Hw;
    try discriminate.
  injection Hw as <-. simpl in Hlen.
  constructor; [|apply (IH v); [exact E|lia]].
  intros Hin. apply in_split in Hin as (l1 & l2 & ->).
  assert (Hs : walk (S n') fat c = Returned (c :: l2)).
  { apply (walk_suffix l1 (S n') v); [exact E|lia]. }
  assert (Hs' : walk (S (S n')) fat c = Returned (c :: l2)).
  { apply (walk_mono (S n')); [exact Hs| |lia].
    rewrite length_app in Hlen. simpl in *. lia. }
  rewrite Hw0 in Hs'. injection Hs' as Hs'.
  apply (f_equal (@List.length Z)) in Hs'.
  rewrite length_app in Hs'. simpl in Hs'. lia.
Qed.

(** Two clusters that point to each other are listed in turn up to
    the limit. *)
Lemma walk_two_cycle (a b : Z) :
  (a * 2 + 2 >? len fat) = false -> (b * 2 + 2 >? len fat) = false ->
  entry_of fat a = Ok b -> entry_of fat b = Ok a ->
  stops a = false -> stops b = false ->
  forall n, (1 <= n)%nat ->
    walk n fat a = Returned (alternate n a b)
    /\ walk n fat b = Returned (alternate n b a).
Proof.
  intros Ha Hb Eab Eba Sa Sb n. induction n as [|n IH]; [lia|]; intros _.
  rewrite !walk_unfold, Ha, Hb, Eab, Eba, Sa, Sb.
  destruct n as [|n']; [simpl; auto|].
  destruct (IH ltac:(lia)) as [-> ->]. simpl. auto.
Qed.

Lemma alternate_length (n : nat) : forall a b, List.length (alternate n a b) = n.
Proof. induction n; intros; simpl; auto. Qed.

(** *** Consequences for [trace_fat_chain] *)

Lemma trace_is_walk (s : Z) :
  trace_fat_chain fat s = walk max_iterations fat s.
Proof.
  unfold trace_fat_chain.
  rewrite (trace_loop_walk fat max_iterations) by
    (unfold max_iterations; try reflexivity; lia).
  destruct (walk max_iterations fat s); reflexivity.
Qed.

Lemma max_iterations_pos : (1 <= max_iterations)%nat.
Proof. unfold max_iterations. lia. Qed.

(** More fuel changes nothing: 65536 iterations are always enough. *)
Lemma trace_loop_enough (fuel : nat) (s : Z) :
  (max_iterations <= fuel)%nat ->
  trace_loop fuel fat s [] = trace_fat_chain fat s.
Proof.
  intros Hf. rewrite trace_is_walk.
  rewrite (trace_loop_walk fat max_iterations) by
    (unfold max_iterations in *; try reflexivity; lia).
  destruct (walk max_iterations fat s); reflexivity.
Qed.

Lemma trace_finishes (s : Z) : trace_fat_chain fat s <> Unfinished.
Proof. rewrite trace_is_walk. apply walk_finishes, max_iterations_pos. Qed.

Lemma trace_length (s : Z) :
  len (chain_of (trace_fat_chain fat s)) <= 65536.
Proof.
  rewrite trace_is_walk.
  destruct (walk max_iterations fat s) as [l| |] eqn:E; simpl;
    try (unfold len; simpl; lia).
  apply walk_length in E. unfold len, max_iterations in *. lia.
Qed.

Lemma trace_nodup_or_limit (s : Z) :
  NoDup (chain_of (trace_fat_chain fat s))
  \/ len (chain_of (trace_fat_chain fat s)) = 65536.
Proof.
  rewrite trace_is_walk.
  destruct (walk max_iterations fat s) as [l| |] eqn:E; simpl;
    try (left; constructor).
  pose proof (walk_length fat _ _ _ E) as Hle.
  destruct (Nat.eq_dec (List.length l) max_iterations) as [Heq|Hne].
  - right. unfold len. rewrite Heq. reflexivity.
  - left. apply (walk_nodup max_iterations s); [exact E|lia].
Qed.

Lemma trace_returns (s : Z) :
  0 <= s -> exists chain, trace_fat_chain fat s = Returned chain.
Proof.
  intros Hs. rewrite trace_is_walk.
  apply walk_returns; [apply max_iterations_pos|exact Hs].
Qed.

End ChainRepeats.

(** ** The recovery loop *)
Section RecoveryFacts.
Import Py FAT16Recover.

Variable image : bytes.
Variable p : DiskParams.

Let bytes_per_cluster : Z := SECTORS_PER_CLUSTER p * SECTOR_SIZE.

Lemma read_sector_length (lba count : Z) (data : bytes) :
  read_sector image lba count = Some data -> len data = SECTOR_SIZE * count.
Proof.
  unfold read_sector.
  destruct (lba * SECTOR_SIZE <? 0); [discriminate|].
  match goal with |- context [len ?d =? ?n] => destruct (Z.eqb_spec (len d) n) end;
    [|discriminate].
  intros [= <-]. assumption.
Qed.

Local Abbreviation readable := (FAT16Recover.readable image p).
Local Abbreviation payloads := (FAT16Recover.payloads image p).

Lemma readable_payload (cluster : Z) :
  readable cluster ->
  exists data, cluster_payload image p cluster = Some data
               /\ payload_or_empty image p cluster = data
               /\ not_ (Some data) = false
               /\ len data = bytes_per_cluster /\ 0 < bytes_per_cluster.
Proof.
  unfold FAT16Recover.readable, payload_or_empty.
  destruct (cluster_payload image p cluster) as [data|] eqn:E; [|discriminate].
  intros Hn. exists data. repeat split; auto.
  - unfold cluster_payload in E. apply read_sector_length in E.
    unfold bytes_per_cluster. lia.
  - unfold cluster_payload in E. apply read_sector_length in E.
    unfold bytes_per_cluster.
    destruct data; [discriminate|].
    unfold len, SECTOR_SIZE in *. cbn [List.length] in E. lia.
Qed.

Lemma payloads_length (chain : list Z) :
  Forall readable chain -> len (payloads chain) = bytes_per_cluster * len chain.
Proof.
  unfold FAT16Recover.payloads. induction 1 as [|c chain Hc _ IH]; simpl.
  - unfold len. simpl. lia.
  - destruct (readable_payload c Hc) as (d & _ & -> & _ & Hd & _).
    rewrite len_app, IH, Hd. unfold len. simpl length. lia.
Qed.

Lemma write_step (file_size : Z) (cluster : Z) (rest : list Z)
      (outfile : bytes) (bytes_recovered : Z) (data : bytes) :
  cluster_payload image p cluster = Some data -> not_ (Some data) = false ->
  write_clusters image p file_size (cluster :: rest) outfile bytes_recovered =
    let n := Z.min bytes_per_cluster (file_size - bytes_recovered) in
    if bytes_recovered + n >=? file_size
    then (outfile ++ slice data 0 n, bytes_recovered + n)
    else write_clusters image p file_size rest (outfile ++ slice data 0 n)
                        (bytes_recovered + n).
Proof.
  intros E Hn. cbn [write_clusters]. unfold cluster_payload in E.
  rewrite E, Hn. reflexivity.
Qed.

(** All reads succeed and the chain is long enough: exactly the first
    [file_size] payload bytes are written. *)
Lemma write_clusters_full (file_size : Z) (chain : list Z) :
  forall outfile bytes_recovered,
    Forall readable chain ->
    bytes_recovered = len outfile -> bytes_recovered < file_size ->
    file_size <= bytes_recovered + len (payloads chain) ->
    write_clusters image p file_size chain outfile bytes_recovered =
      (outfile ++ firstn (Z.to_nat (file_size - bytes_recovered)) (payloads chain),
       file_size).
Proof.
  induction chain as [|c chain IH]; intros outfile rec Hall Hrec Hlt Hge.
  - unfold FAT16Recover.payloads, len in Hge. simpl in Hge. lia.
  - inversion Hall as [|? ? Hc Hrest]; subst.
    destruct (readable_payload c Hc) as (d & E & Ed & Hn & Hd & Hpos).
    rewrite (write_step _ _ _ _ _ d E Hn). cbn zeta.
    fold bytes_per_cluster.
    assert (Hp : payloads (c :: chain) = d ++ payloads chain).
    { unfold FAT16Recover.payloads. simpl. now rewrite Ed. }
    rewrite Hp in *. rewrite len_app in Hge.
    rewrite firstn_app.
    destruct (Z.min_spec bytes_per_cluster (file_size - len outfile))
      as [[Hm ->]|[Hm ->]].
    + (* a whole cluster is written and more is needed *)
      destruct (Z.geb_spec (len outfile + bytes_per_cluster) file_size); [lia|].
      rewrite slice_prefix by lia.
      assert (Hfd : firstn (Z.to_nat bytes_per_cluster) d = d).
      { apply firstn_all2. unfold len in Hd. lia. }
      assert (Hfd' : firstn (Z.to_nat (file_size - len outfile)) d = d).
      { apply firstn_all2. unfold len in Hd. lia. }
      rewrite Hfd, Hfd'.
      rewrite (IH (outfile ++ d) (len outfile + bytes_per_cluster));
        [|exact Hrest|rewrite len_app; lia|lia|lia].
      rewrite <- app_assoc. do 4 f_equal. unfold len in *. lia.
    + (* the last, possibly partial, cluster *)
      destruct (Z.geb_spec (len outfile + (file_size - len outfile)) file_size);
        [|lia].
      rewrite slice_prefix by lia.
      replace (Z.to_nat (file_size - len outfile) - List.length d)%nat
        with 0%nat by (unfold len in *; lia).
      cbn [firstn]. rewrite app_nil_r. f_equal. lia.
Qed.

(** A read fails before the file is complete: what the earlier
    clusters gave stays, and the loop ends. *)
Lemma write_clusters_partial (file_size : Z) (pre : list Z) (c : Z)
      (post : list Z) :
  forall outfile bytes_recovered,
    Forall readable pre -> not_ (cluster_payload image p c) = true ->
    bytes_recovered = len outfile ->
    bytes_recovered + len (payloads pre) < file_size ->
    write_clusters image p file_size (pre ++ c :: post) outfile bytes_recovered =
      (outfile ++ payloads pre, bytes_recovered + len (payloads pre)).
Proof.
  induction pre as [|x pre IH]; intros outfile rec Hall Hfail Hrec Hlt.
  - cbn [app write_clusters]. unfold cluster_payload in Hfail.
    unfold FAT16Recover.payloads, len. simpl. rewrite app_nil_r, Z.add_0_r.
    destruct (read_sector image _ _) as [d|]; [|reflexivity].
    rewrite Hfail. reflexivity.
  - inversion Hall as [|? ? Hx Hrest]; subst.
    destruct (readable_payload x Hx) as (d & E & Ed & Hn & Hd & Hpos).
    cbn [app]. rewrite (write_step _ _ _ _ _ d E Hn). cbn zeta.
    fold bytes_per_cluster.
    assert (Hp : payloads (x :: pre) = d ++ payloads pre).
    { unfold FAT16Recover.payloads. simpl. now rewrite Ed. }
    rewrite Hp in *. rewrite len_app in *.
    pose proof (len_nonneg (payloads pre)).
    rewrite Z.min_l by lia.
    destruct (Z.geb_spec (len outfile + bytes_per_cluster) file_size); [lia|].
    rewrite slice_prefix by lia.
    assert (Hfd : firstn (Z.to_nat bytes_per_cluster) d = d).
    { apply firstn_all2. unfold len in Hd. lia. }
    rewrite Hfd.
    rewrite (IH (outfile ++ d) (len outfile + bytes_per_cluster));
      [|exact Hrest|exact Hfail|rewrite len_app; lia|lia].
    rewrite <- app_assoc. f_equal. lia.
Qed.

End RecoveryFacts.

(** ** Chain tracing: main results *)
Section ChainClaims.
Import Py FAT16Recover Chain.

Lemma max_iterations_split : max_iterations = (3 + Z.to_nat 65533)%nat.
Proof. unfold max_iterations. lia. Qed.

Lemma fat_cycle_trace :
  trace_fat_chain Samples.fat_cycle 5 = Returned (alternate max_iterations 5 6).
Proof.
  rewrite trace_is_walk.
  refine (proj1 (walk_two_cycle Samples.fat_cycle 5 6 _ _ _ _ _ _
                   max_iterations max_iterations_pos));
    vm_compute; reflexivity.
Qed.

Lemma self_loop_trace :
  trace_fat_chain Samples.fat_sector 7 = Returned (alternate max_iterations 7 7).
Proof.
  rewrite trace_is_walk.
  refine (proj1 (walk_two_cycle Samples.fat_sector 7 7 _ _ _ _ _ _
                   max_iterations max_iterations_pos));
    vm_compute; reflexivity.
Qed.

Lemma len_alternate (a b : Z) : len (alternate max_iterations a b) = 65536.
Proof. unfold len. rewrite alternate_length. reflexivity. Qed.

Lemma walk_empty_iff (fat : bytes) (n : nat) (c : Z) :
  (1 <= n)%nat -> 0 <= c ->
  (walk n fat c = Returned [] <-> c * 2 + 2 > len fat).
Proof.
  intros Hn Hc. destruct n as [|n]; [lia|]. rewrite walk_unfold.
  destruct (Z.gtb_spec (c * 2 + 2) (len fat)) as [Hgt|Hle].
  - split; [lia|reflexivity].
  - destruct (entry_of_ok fat c Hc Hle) as [v [-> _]].
    split; [|lia].
    destruct (stops v); [discriminate|].
    destruct n as [|n']; [discriminate|].
    destruct (walk (S n') fat v); discriminate.
Qed.

Lemma trace_elements (fat : bytes) (s : Z) (chain : list Z) :
  0 <= s -> trace_fat_chain fat s = Returned chain ->
  Forall (fun c => 0 <= c /\ c * 2 + 2 <= len fat) chain
  /\ (forall c, In c (tl chain) -> followed c).
Proof.
  intros Hs Ht. rewrite trace_is_walk in Ht.
  destruct (walk_elements fat _ _ _ Ht) as (Hall & Htl & Hhd).
  split; [|exact Htl].
  destruct chain as [|x chain]; [constructor|].
  destruct Hhd as [Hnil|Hhd]; [discriminate|]. simpl in Hhd. subst x.
  inversion Hall as [|? ? Hx Hrest]; subst.
  constructor; [split; [exact Hs|exact Hx]|].
  rewrite Forall_forall in *. intros c Hc. split.
  - specialize (Htl c Hc). unfold followed in Htl. lia.
  - apply Hrest. exact Hc.
Qed.

End ChainClaims.

(** C1 (as stated, refuted).  On the FAT with 5 -> 6 and 6 -> 5 the
    chain from cluster 5 is returned with 65536 elements, not at most 2,
    and cluster 5 is listed again although it is already in the chain:
    the traversal does not end at a repeated cluster. *)
Lemma cycle_chain_is_not_cut :
  exists chain rest,
    FAT16Recover.trace_fat_chain Samples.fat_cycle 5 = FAT16Recover.Returned chain
    /\ chain = 5 :: 6 :: 5 :: rest
    /\ Py.len chain = 65536
    /\ ~ Py.len chain <= 2.
Proof.
  exists (Chain.alternate FAT16Recover.max_iterations 5 6).
  exists (Chain.alternate (Z.to_nat 65533) 6 5).
  split; [apply fat_cycle_trace|].
  split; [rewrite max_iterations_split; reflexivity|].
  rewrite len_alternate. split; [reflexivity|lia].
Qed.

(** C1 (amended).  [trace_fat_chain] has no test for a cluster that is
    already in the chain; a cycle is ended by the length limit only.
    On the FAT with 5 -> 6 and 6 -> 5 the chain from cluster 5 is the
    list 5, 6, 5, 6, ... of 65536 elements, and the return value is the
    bare list, with no cycle flag.  In general the traversal ends for
    every FAT buffer and every start cluster, and the returned chain
    either lists no cluster twice or has exactly 65536 elements. *)
Theorem trace_fat_chain_ends_cycles_at_the_limit :
  (FAT16Recover.trace_fat_chain Samples.fat_cycle 5
     = FAT16Recover.Returned (Chain.alternate FAT16Recover.max_iterations 5 6)
   /\ Py.len (Chain.alternate FAT16Recover.max_iterations 5 6) = 65536)
  /\ (forall fat s, FAT16Recover.trace_fat_chain fat s <> FAT16Recover.Unfinished)
  /\ (forall fat s,
        NoDup (FAT16Recover.chain_of (FAT16Recover.trace_fat_chain fat s))
        \/ Py.len (FAT16Recover.chain_of (FAT16Recover.trace_fat_chain fat s))
           = 65536).
Proof.
  split; [split; [apply fat_cycle_trace|apply len_alternate]|].
  split; intros fat s; [apply trace_finishes|apply trace_nodup_or_limit].
Qed.

(** C2 (as stated, refuted).  With the usual first FAT entry 0xFFF8 the
    chain from start cluster 0 is [0], not the empty chain, and its
    element is below 2; and an entry holding the reserved value 0x0001
    is followed, so 1 is a chain element for the valid start cluster 4. *)
Lemma chain_lists_clusters_below_two :
  FAT16Recover.trace_fat_chain Samples.fat_s3 0 = FAT16Recover.Returned [0]
  /\ FAT16Recover.trace_fat_chain Samples.fat_sector 4
     = FAT16Recover.Returned [4; 1]
  /\ ~ (forall c, In c [4; 1] -> 2 <= c).
Proof.
  split; [vm_compute; reflexivity|].
  split; [vm_compute; reflexivity|].
  intros H. specialize (H 1 (or_intror (or_introl eq_refl))). lia.
Qed.

(** C2 (amended).  For every FAT buffer and every start cluster
    [s >= 0], every cluster [c] of the chain has its entry inside the
    buffer ([0 <= c] and [c * 2 + 2 <= len fat]), and every cluster
    after the first is a followed entry, a value in 0x0001..0xFFF6: the
    free value, the bad-cluster value and the end-of-chain values never
    occur there, the reserved values 0x0001 and 0xFFF0..0xFFF6 may.
    The chain is empty exactly when the entry of [s] lies outside the
    buffer.  The test [start_cluster < 2] is made by [recover_file],
    which then returns False without tracing. *)
Theorem trace_fat_chain_elements (fat : Py.bytes) (s : Z) (Hs : 0 <= s) :
  exists chain,
    FAT16Recover.trace_fat_chain fat s = FAT16Recover.Returned chain
    /\ Forall (fun c => 0 <= c /\ c * 2 + 2 <= Py.len fat) chain
    /\ (forall c, In c (tl chain) -> 0x0001 <= c <= 0xFFF6)
    /\ (chain = [] <-> s * 2 + 2 > Py.len fat)
    /\ (s < 2 -> forall host_ok image p file_size,
          FAT16Recover.recover_file host_ok image p s file_size
          = Py.Ok FAT16Recover.NotRecovered).
Proof.
  destruct (trace_returns fat s Hs) as [chain Hc]. exists chain.
  destruct (trace_elements fat s chain Hs Hc) as [Hall Htl].
  split; [exact Hc|]. split; [exact Hall|]. split; [exact Htl|]. split.
  - rewrite trace_is_walk in Hc.
    rewrite <- (walk_empty_iff fat FAT16Recover.max_iterations s
                  (max_iterations_pos) Hs).
    rewrite Hc. split; [intros ->; reflexivity|intros [= ->]; reflexivity].
  - intros Hlt host_ok image p file_size. unfold FAT16Recover.recover_file.
    destruct (Z.ltb_spec s 2); [reflexivity|lia].
Qed.

Lemma trace_fat_chain_elements_witness :
  exists chain,
    FAT16Recover.trace_fat_chain Samples.fat_sector 4 = FAT16Recover.Returned chain
    /\ Forall (fun c => 0 <= c /\ c * 2 + 2 <= Py.len Samples.fat_sector) chain
    /\ (forall c, In c (tl chain) -> 0x0001 <= c <= 0xFFF6)
    /\ (chain = [] <-> 4 * 2 + 2 > Py.len Samples.fat_sector)
    /\ (4 < 2 -> forall host_ok image p file_size,
          FAT16Recover.recover_file host_ok image p 4 file_size
          = Py.Ok FAT16Recover.NotRecovered).
Proof.
  apply (trace_fat_chain_elements Samples.fat_sector 4). lia.
Defined.

(** C3 (the code at the failing input).  The loop leaves when
    [len(chain) > 65535], that is with 65536 elements: on a FAT whose
    entry 7 is 7, the chain from cluster 7 has 65536 elements, one more
    than the stated limit of 65535. *)
Theorem trace_fat_chain_exceeds_65535 :
  exists chain,
    FAT16Recover.trace_fat_chain Samples.fat_sector 7 = FAT16Recover.Returned chain
    /\ Py.len chain = 65536
    /\ ~ Py.len chain <= 65535.
Proof.
  exists (Chain.alternate FAT16Recover.max_iterations 7 7).
  split; [apply self_loop_trace|]. rewrite len_alternate.
  split; [reflexivity|lia].
Qed.

(** C10.  For every FAT buffer and every start cluster value [s >= 0]
    (0, 1 and values whose entry lies beyond the buffer included),
    [trace_fat_chain] returns a chain and raises nothing; every entry it
    has read, one per listed cluster [c], lies inside the buffer
    ([0 <= c * 2] and [c * 2 + 2 <= len fat]); and when
    [s * 2 + 2 > len fat] the result is the empty chain, which does not
    contain [s]. *)
Theorem trace_fat_chain_bounds_checked (fat : Py.bytes) (s : Z) (Hs : 0 <= s) :
  exists chain,
    FAT16Recover.trace_fat_chain fat s = FAT16Recover.Returned chain
    /\ Forall (fun c => 0 <= c * 2 /\ c * 2 + 2 <= Py.len fat) chain
    /\ (s * 2 + 2 > Py.len fat -> chain = [] /\ ~ In s chain).
Proof.
  destruct (trace_returns fat s Hs) as [chain Hc]. exists chain.
  destruct (trace_elements fat s chain Hs Hc) as [Hall _].
  split; [exact Hc|]. split.
  - eapply Forall_impl; [|exact Hall]. simpl. intros c [H1 H2]. lia.
  - intros Hout. rewrite trace_is_walk in Hc.
    assert (E : Chain.walk FAT16Recover.max_iterations fat s
                = FAT16Recover.Returned []).
    { apply walk_empty_iff; [apply max_iterations_pos|exact Hs|exact Hout]. }
    rewrite E in Hc. injection Hc as <-. split; [reflexivity|intros []].
Qed.

Lemma trace_fat_chain_bounds_checked_witness :
  exists chain,
    FAT16Recover.trace_fat_chain Samples.fat_s3 5 = FAT16Recover.Returned chain
    /\ Forall (fun c => 0 <= c * 2 /\ c * 2 + 2 <= Py.len Samples.fat_s3) chain
    /\ (5 * 2 + 2 > Py.len Samples.fat_s3 -> chain = [] /\ ~ In 5 chain).
Proof.
  apply (trace_fat_chain_bounds_checked Samples.fat_s3 5). lia.
Defined.

(** A negative start cluster is outside the values a directory entry
    can hold; for it the slice can be short and [struct.unpack] raises. *)
Remark trace_fat_chain_negative_start :
  FAT16Recover.trace_fat_chain Samples.fat_s3 (-1)
  = FAT16Recover.Raised Py.struct_error.
Proof. vm_compute. reflexivity. Qed.

(** Scenario S3 of the specification. *)
Remark trace_fat_chain_S3 :
  FAT16Recover.trace_fat_chain Samples.fat_s3 2 = FAT16Recover.Returned [2; 3; 4].
Proof. vm_compute. reflexivity. Qed.

(** ** File recovery: main results *)

(** The sample image goes through volume setup, and its root directory
    holds the file of scenario S5. *)
Remark sample_image_setup :
  FAT16Recover.setup_disk_params Samples.image
  = Py.Ok (FAT16Recover.SetupTrue Samples.params)
  /\ FAT16Recover.setup_disk_params Samples.image_cut
     = Py.Ok (FAT16Recover.SetupTrue Samples.params).
Proof. split; vm_compute; reflexivity. Qed.

Lemma recover_file_unfold (image : Py.bytes) (p : FAT16Recover.DiskParams)
      (start_cluster file_size : Z) (c : Z) (chain : list Z) :
  2 <= start_cluster -> file_size <> 0 ->
  FAT16Recover.trace_fat_chain (FAT16Recover.GLOBAL_FAT_DATA p) start_cluster
  = FAT16Recover.Returned (c :: chain) ->
  FAT16Recover.recover_file true image p start_cluster file_size
  = Py.Ok (FAT16Recover.Recovered
             (fst (FAT16Recover.write_clusters image p file_size (c :: chain) [] 0))
             (snd (FAT16Recover.write_clusters image p file_size (c :: chain) [] 0))).
Proof.
  intros Hs Hn Ht. unfold FAT16Recover.recover_file. rewrite Ht.
  destruct (Z.ltb_spec start_cluster 2); [lia|].
  destruct (Z.eqb_spec file_size 0); [lia|]. cbn [orb].
  destruct (FAT16Recover.write_clusters image p file_size (c :: chain) [] 0).
  reflexivity.
Qed.

(** C4.  For a file of recorded size [file_size] whose chain supplies at
    least [file_size] payload bytes and whose cluster reads all succeed,
    [recover_file] writes exactly the first [file_size] bytes of the
    concatenated cluster payloads: the host file has length [file_size]
    and holds none of the slack of the last cluster. *)
Theorem recover_file_byte_exact
        (image : Py.bytes) (p : FAT16Recover.DiskParams)
        (start_cluster file_size : Z) (chain : list Z)
        (Hstart : 2 <= start_cluster) (Hsize : 0 < file_size)
        (Hchain : FAT16Recover.trace_fat_chain
                    (FAT16Recover.GLOBAL_FAT_DATA p) start_cluster
                  = FAT16Recover.Returned chain)
        (Hreads : Forall (FAT16Recover.readable image p) chain)
        (Hsupply : file_size <= Py.len (FAT16Recover.payloads image p chain)) :
  FAT16Recover.recover_file true image p start_cluster file_size
  = Py.Ok (FAT16Recover.Recovered
             (firstn (Z.to_nat file_size) (FAT16Recover.payloads image p chain))
             file_size)
  /\ Py.len (firstn (Z.to_nat file_size) (FAT16Recover.payloads image p chain))
     = file_size.
Proof.
  split.
  - destruct chain as [|c chain].
    { unfold FAT16Recover.payloads, Py.len in Hsupply. simpl in Hsupply. lia. }
    rewrite (recover_file_unfold image p start_cluster file_size c chain)
      by (auto; lia).
    rewrite (write_clusters_full image p file_size (c :: chain) [] 0);
      [|exact Hreads|reflexivity|lia|lia].
    cbn [fst snd app]. rewrite Z.sub_0_r. reflexivity.
  - unfold Py.len in *. rewrite length_firstn. lia.
Qed.

Lemma recover_file_byte_exact_witness :
  FAT16Recover.recover_file true Samples.image Samples.params 2 600
  = Py.Ok (FAT16Recover.Recovered
             (firstn (Z.to_nat 600)
                (FAT16Recover.payloads Samples.image Samples.params [2; 3]))
             600)
  /\ Py.len (firstn (Z.to_nat 600)
               (FAT16Recover.payloads Samples.image Samples.params [2; 3]))
     = 600.
Proof.
  apply (recover_file_byte_exact Samples.image Samples.params 2 600 [2; 3]).
  - lia.
  - lia.
  - vm_compute. reflexivity.
  - repeat constructor; vm_compute; reflexivity.
  - vm_compute. discriminate.
Defined.

(** Scenario S7 of the specification: a file of 4099 bytes on
    4096-byte clusters, chain of two clusters.  The output has 4099
    bytes: cluster 2 and the first three bytes of cluster 3. *)
Remark recover_file_S7 :
  FAT16Recover.setup_disk_params Samples.image_s7
  = Py.Ok (FAT16Recover.SetupTrue Samples.params_s7)
  /\ FAT16Recover.recover_file true Samples.image_s7 Samples.params_s7 2 4099
     = Py.Ok (FAT16Recover.Recovered (repeat x41 4096 ++ repeat x42 3) 4099).
Proof. split; vm_compute; reflexivity. Qed.

(** C5 (as stated, refuted).  On the sample image cut after cluster 2,
    the read of cluster 3 fails while the file of 600 bytes is being
    recovered: [recover_file] ends as for a complete file, with the
    RECOVERED message and return value True, and only 512 bytes are in
    the output. *)
Lemma read_failure_is_reported_as_success :
  exists outfile,
    FAT16Recover.recover_file true Samples.image_cut Samples.params 2 600
    = Py.Ok (FAT16Recover.Recovered outfile 512)
    /\ Py.len outfile = 512
    /\ FAT16Recover.returns (FAT16Recover.Recovered outfile 512) = true.
Proof.
  eexists. split; [vm_compute; reflexivity|].
  split; vm_compute; reflexivity.
Qed.

(** C5 (amended).  If the read of a cluster fails before [file_size]
    bytes are written, the loop ends there: the output holds the
    payloads of the clusters read so far and nothing else, no exception
    leaves [recover_file], and the outcome is the one of a complete
    recovery, the RECOVERED message with the count of bytes written and
    the return value True.  There is no partial-recovery outcome. *)
Theorem recover_file_read_failure
        (image : Py.bytes) (p : FAT16Recover.DiskParams)
        (start_cluster file_size : Z) (pre : list Z) (c : Z) (post : list Z)
        (Hstart : 2 <= start_cluster) (Hsize : 0 < file_size)
        (Hchain : FAT16Recover.trace_fat_chain
                    (FAT16Recover.GLOBAL_FAT_DATA p) start_cluster
                  = FAT16Recover.Returned (pre ++ c :: post))
        (Hreads : Forall (FAT16Recover.readable image p) pre)
        (Hfail : FAT16Recover.not_ (FAT16Recover.cluster_payload image p c) = true)
        (Hshort : Py.len (FAT16Recover.payloads image p pre) < file_size) :
  FAT16Recover.recover_file true image p start_cluster file_size
  = Py.Ok (FAT16Recover.Recovered
             (FAT16Recover.payloads image p pre)
             (Py.len (FAT16Recover.payloads image p pre)))
  /\ FAT16Recover.returns
       (FAT16Recover.Recovered
          (FAT16Recover.payloads image p pre)
          (Py.len (FAT16Recover.payloads image p pre))) = true.
Proof.
  split; [|reflexivity].
  destruct (pre ++ c :: post) as [|x l] eqn:E.
  { destruct pre; discriminate. }
  rewrite (recover_file_unfold image p start_cluster file_size x l)
    by (auto; lia).
  rewrite <- E.
  rewrite (write_clusters_partial image p file_size pre c post [] 0);
    [reflexivity|exact Hreads|exact Hfail|reflexivity|lia].
Qed.

Lemma recover_file_read_failure_witness :
  FAT16Recover.recover_file true Samples.image_cut Samples.params 2 600
  = Py.Ok (FAT16Recover.Recovered
             (FAT16Recover.payloads Samples.image_cut Samples.params [2])
             (Py.len (FAT16Recover.payloads Samples.image_cut Samples.params [2])))
  /\ FAT16Recover.returns
       (FAT16Recover.Recovered
          (FAT16Recover.payloads Samples.image_cut Samples.params [2])
          (Py.len (FAT16Recover.payloads Samples.image_cut Samples.params [2])))
     = true.
Proof.
  apply (recover_file_read_failure Samples.image_cut Samples.params 2 600
           [2] 3 []).
  - lia.
  - lia.
  - vm_compute. reflexivity.
  - repeat constructor; vm_compute; reflexivity.
  - vm_compute. reflexivity.
  - vm_compute. reflexivity.
Defined.

(** ** Volume setup *)
Section SetupFacts.
Import Py FAT16Recover Geometry.

Lemma read_sector_first (image : bytes) :
  read_sector image 0 1
  = if len image <? 512 then None else Some (firstn 512 image).
Proof.
  unfold read_sector, SECTOR_SIZE.
  change (0 * 512) with 0. change (512 * 1) with 512.
  change (0 <? 0) with false. cbv iota.
  change (Z.to_nat 0) with 0%nat. change (Z.to_nat 512) with 512%nat.
  cbn [skipn]. unfold len. rewrite length_firstn.
  destruct (Z.ltb_spec (Z.of_nat (List.length image)) 512);
    destruct (Z.eqb_spec (Z.of_nat (Nat.min 512 (List.length image))) 512);
    try reflexivity; lia.
Qed.

Lemma sector_nonempty (image : bytes) (lba : Z) (data : bytes) :
  read_sector image lba 1 = Some data ->
  List.length data = 512%nat /\ not_ (Some data) = false.
Proof.
  intros H. apply read_sector_length in H. unfold SECTOR_SIZE, len in H.
  split; [lia|]. destruct data; [simpl in H; lia|reflexivity].
Qed.

Lemma slice_len_of_sector (data : bytes) (a b : Z) :
  List.length data = 512%nat -> 0 <= a -> a <= b -> b <= 512 ->
  List.length (slice data a b) = Z.to_nat (b - a).
Proof.
  intros H Ha Hab Hb. apply slice_length; unfold len; lia.
Qed.

Lemma unpack_entry_of_sector (mbr : bytes) :
  List.length mbr = 512%nat ->
  exists flag chs1 type_id chs2 size,
    unpack_partition_entry
      (slice mbr PARTITION_TABLE_OFFSET (PARTITION_TABLE_OFFSET + 16))
    = Ok (flag, chs1, type_id, chs2, partition_start mbr, size).
Proof.
  intros H. unfold unpack_partition_entry.
  rewrite (slice_len_of_sector mbr _ _ H) by (unfold PARTITION_TABLE_OFFSET; lia).
  unfold PARTITION_TABLE_OFFSET. cbn [Z.to_nat Z.add Z.sub]. simpl Nat.eqb.
  do 5 eexists. reflexivity.
Qed.

Lemma unpack_field (vbr : bytes) (a b : Z) (n : nat) :
  List.length vbr = 512%nat -> 0 <= a -> b = a + Z.of_nat n -> b <= 512 ->
  unpack_uint n (slice vbr a b) = Ok (le_uint (slice vbr a b)).
Proof.
  intros H Ha -> Hb. unfold unpack_uint.
  rewrite (slice_len_of_sector vbr _ _ H) by lia.
  replace (Z.to_nat (a + Z.of_nat n - a)) with n by lia.
  rewrite Nat.eqb_refl. reflexivity.
Qed.

(** What setup does once the MBR and the boot sector are read: only
    the read of the FAT decides. *)
Lemma setup_after_boot_sector (image mbr vbr : bytes) :
  read_sector image 0 1 = Some mbr -> signature_ok mbr = true ->
  read_sector image (partition_start mbr) 1 = Some vbr ->
  setup_disk_params image
  = Ok match read_sector image (fat1_start mbr vbr) (fat_size_sectors vbr) with
       | Some (b :: l) => SetupTrue (geometry mbr vbr (b :: l))
       | _ => SetupFalse NoFAT
       end.
Proof.
  intros Hmbr Hsig Hvbr. unfold setup_disk_params.
  rewrite Hmbr. destruct (sector_nonempty _ _ _ Hmbr) as [Lm ->].
  fold (signature_ok mbr). rewrite Hsig. cbn [negb orb].
  destruct (unpack_entry_of_sector mbr Lm) as (f & c1 & t & c2 & sz & ->).
  cbn [bind]. rewrite Hvbr. destruct (sector_nonempty _ _ _ Hvbr) as [Lv ->].
  unfold unpack_B, unpack_H.
  rewrite (unpack_field vbr 0x0D 0x0E 1 Lv), (unpack_field vbr 0x0E 0x10 2 Lv),
    (unpack_field vbr 0x10 0x11 1 Lv), (unpack_field vbr 0x11 0x13 2 Lv),
    (unpack_field vbr 0x16 0x18 2 Lv) by lia.
  cbn [bind].
  fold (sectors_per_cluster vbr) (reserved_sectors vbr) (num_fats vbr)
       (root_entries vbr) (fat_size_sectors vbr).
  fold (fat1_start mbr vbr).
  destruct (read_sector image (fat1_start mbr vbr) (fat_size_sectors vbr))
    as [[|b l]|]; reflexivity.
Qed.

End SetupFacts.

Section SetupOutcome.
Import Py FAT16Recover Geometry.

(** Volume setup raises nothing, and its result is [setup_outcome]. *)
Lemma setup_disk_params_outcome (image : bytes) :
  setup_disk_params image = Ok (setup_outcome image).
Proof.
  unfold setup_outcome.
  destruct (len image <? 512) eqn:Hlen.
  - unfold setup_disk_params. rewrite read_sector_first, Hlen. reflexivity.
  - assert (Hmbr : read_sector image 0 1 = Some (firstn 512 image))
      by (rewrite read_sector_first, Hlen; reflexivity).
    destruct (signature_ok (firstn 512 image)) eqn:Hsig; cbn [negb].
    + destruct (read_sector image (partition_start (firstn 512 image)) 1)
        as [vbr|] eqn:Hvbr.
      * apply (setup_after_boot_sector image _ vbr Hmbr Hsig Hvbr).
      * unfold setup_disk_params. rewrite Hmbr.
        destruct (sector_nonempty _ _ _ Hmbr) as [Lm ->].
        fold (signature_ok (firstn 512 image)). rewrite Hsig. cbn [negb orb].
        destruct (unpack_entry_of_sector _ Lm) as (f & c1 & t & c2 & sz & ->).
        cbn [bind]. rewrite Hvbr. reflexivity.
    + unfold setup_disk_params. rewrite Hmbr.
      fold (signature_ok (firstn 512 image)). rewrite Hsig.
      rewrite orb_true_r. reflexivity.
Qed.

Lemma read_mbr_from_file_spec (image : bytes) :
  MBR.read_mbr_from_file image
  = if len image <? 512 then None else Some (firstn 512 image).
Proof.
  unfold MBR.read_mbr_from_file, MBR.MBR_SIZE.
  change (Z.to_nat 512) with 512%nat. unfold len. rewrite length_firstn.
  destruct (Z.ltb_spec (Z.of_nat (List.length image)) 512);
    destruct (Z.eqb_spec (Z.of_nat (Nat.min 512 (List.length image))) 512);
    try reflexivity; lia.
Qed.

Lemma parse_entries_ok (table : bytes) (indices : list Z) :
  List.length table = 64%nat -> Forall (fun i => 0 <= i <= 3) indices ->
  exists parts, MBR.parse_entries table indices = Ok parts.
Proof.
  intros Ht. induction 1 as [|i indices Hi _ [parts IH]].
  - exists []. reflexivity.
  - cbn [MBR.parse_entries]. destruct (MBR.all_zero _); [eauto|].
    unfold unpack_partition_entry.
    rewrite slice_length by (unfold MBR.PARTITION_ENTRY_SIZE, len; lia).
    replace (Z.to_nat _) with 16%nat by (unfold MBR.PARTITION_ENTRY_SIZE; lia).
    cbn [Nat.eqb bind]. rewrite IH. cbn [bind]. eauto.
Qed.

(** [parse_mbr] of MBR.py decodes any 512 bytes; a missing signature
    gives a warning only. *)
Lemma parse_mbr_ok (mbr_data : bytes) :
  List.length mbr_data = 512%nat ->
  exists r, MBR.parse_mbr mbr_data = Ok r
            /\ MBR.signature_valid r = signature_ok mbr_data
            /\ MBR.warning_printed r = negb (signature_ok mbr_data).
Proof.
  intros H. unfold MBR.parse_mbr, MBR.MBR_SIZE.
  destruct (Z.eqb_spec (len mbr_data) 512) as [_|Hne];
    [|unfold len in Hne; lia].
  cbn [negb].
  destruct (parse_entries_ok
              (slice mbr_data MBR.PARTITION_TABLE_OFFSET MBR.SIGNATURE_OFFSET)
              [0; 1; 2; 3]) as [parts ->].
  - rewrite slice_length;
      unfold MBR.PARTITION_TABLE_OFFSET, MBR.SIGNATURE_OFFSET, len; lia.
  - repeat constructor; lia.
  - cbn [bind]. eexists. split; [reflexivity|]. split; reflexivity.
Qed.

End SetupOutcome.

(** C6 (as stated, refuted).  The sample image without the 0x55 0xAA
    signature is longer than 512 bytes, and volume setup fails on it
    with "Error: Invalid MBR or signature."; only [parse_mbr] of MBR.py
    goes on after a warning. *)
Lemma missing_signature_aborts_setup :
  512 <= Py.len Samples.image_nosig
  /\ FAT16Recover.setup_disk_params Samples.image_nosig
     = Py.Ok (FAT16Recover.SetupFalse FAT16Recover.InvalidMBR)
  /\ exists r, MBR.parse_mbr (firstn 512 Samples.image_nosig) = Py.Ok r
               /\ MBR.warning_printed r = true
               /\ List.length (MBR.partitions r) = 1%nat.
Proof.
  split; [vm_compute; discriminate|].
  split; [vm_compute; reflexivity|].
  eexists. split; [vm_compute; reflexivity|]. split; reflexivity.
Qed.

(** C6 (amended).  Volume setup ([setup_disk_params]) fails at the MBR
    stage exactly when the image is shorter than 512 bytes or bytes
    0x1FE..0x1FF are not 0x55 0xAA: a missing signature aborts setup.
    In MBR.py, [read_mbr_from_file] fails exactly when the image is
    shorter than 512 bytes, and [parse_mbr] decodes whatever it is given
    by it: a missing signature clears [signature_valid] and prints a
    warning, and the partition table is decoded all the same. *)
Theorem mbr_stage_failure (image : Py.bytes) :
  (FAT16Recover.setup_disk_params image
   = Py.Ok (FAT16Recover.SetupFalse FAT16Recover.InvalidMBR)
   <-> Py.len image < 512
       \/ Geometry.signature_ok (firstn 512 image) = false)
  /\ (MBR.read_mbr_from_file image = None <-> Py.len image < 512)
  /\ (forall mbr_data,
        MBR.read_mbr_from_file image = Some mbr_data ->
        exists r, MBR.parse_mbr mbr_data = Py.Ok r
                  /\ MBR.signature_valid r = Geometry.signature_ok mbr_data
                  /\ MBR.warning_printed r
                     = negb (Geometry.signature_ok mbr_data)).
Proof.
  split; [|split].
  - rewrite setup_disk_params_outcome. unfold Geometry.setup_outcome.
    destruct (Z.ltb_spec (Py.len image) 512) as [Hlt|Hge].
    { split; [left; exact Hlt|reflexivity]. }
    destruct (Geometry.signature_ok (firstn 512 image)); cbn [negb].
    + split; [|intros [H|H]; [lia|discriminate]].
      destruct (FAT16Recover.read_sector image _ 1) as [vbr|]; [|discriminate].
      destruct (FAT16Recover.read_sector image _ _) as [[|b l]|];
        discriminate.
    + split; [right; reflexivity|reflexivity].
  - rewrite read_mbr_from_file_spec.
    destruct (Z.ltb_spec (Py.len image) 512); split; try discriminate;
      try reflexivity; try lia; auto.
  - intros mbr_data. rewrite read_mbr_from_file_spec.
    destruct (Z.ltb_spec (Py.len image) 512); [discriminate|].
    intros Heq. replace mbr_data with (firstn 512 image) by congruence.
    apply parse_mbr_ok. rewrite length_firstn.
    unfold Py.len in *. lia.
Qed.

Lemma mbr_stage_failure_witness :
  FAT16Recover.setup_disk_params Samples.image_nosig
  = Py.Ok (FAT16Recover.SetupFalse FAT16Recover.InvalidMBR)
  /\ exists r, MBR.parse_mbr (firstn 512 Samples.image_nosig) = Py.Ok r
               /\ MBR.signature_valid r
                  = Geometry.signature_ok (firstn 512 Samples.image_nosig)
               /\ MBR.warning_printed r
                  = negb (Geometry.signature_ok (firstn 512 Samples.image_nosig)).
Proof.
  destruct (mbr_stage_failure Samples.image_nosig) as (Hsetup & _ & Hparse).
  split.
  - apply Hsetup. right. vm_compute. reflexivity.
  - apply Hparse. vm_compute. reflexivity.
Defined.

(** C7 (as stated, refuted).  A boot sector with bytes_per_sector 0,
    three sectors per cluster and no FAT copy passes volume setup, which
    goes on with that geometry. *)
Lemma invalid_geometry_is_accepted :
  exists p,
    FAT16Recover.setup_disk_params Samples.image_badgeom
    = Py.Ok (FAT16Recover.SetupTrue p)
    /\ FAT16Recover.SECTORS_PER_CLUSTER p = 3
    /\ FAT16Recover.NUM_FATS p = 0
    /\ Geometry.bytes_per_sector (firstn 512 (skipn 512 Samples.image_badgeom)) = 0.
Proof.
  eexists. split; [vm_compute; reflexivity|].
  split; [reflexivity|]. split; [reflexivity|]. vm_compute. reflexivity.
Qed.

(** C7 (amended).  Volume setup validates no field of the boot sector.
    Once the MBR is read with its signature and the boot sector is read,
    setup succeeds exactly when the read of [fat_size_sectors] sectors
    at the first FAT returns a non-empty buffer, and it adopts
    sectors_per_cluster, reserved_sectors, num_fats, root_entry_count
    and fat_size_sectors as stored, whatever their values; the
    sector-size field at 0x0B is not read.  A boot sector with
    fat_size_sectors = 0 makes that read empty, and setup fails with
    "Error: Could not read FAT table."; there is no geometry error. *)
Theorem setup_does_not_validate_geometry
        (image mbr vbr : Py.bytes)
        (Hmbr : FAT16Recover.read_sector image 0 1 = Some mbr)
        (Hsig : Geometry.signature_ok mbr = true)
        (Hvbr : FAT16Recover.read_sector image (Geometry.partition_start mbr) 1
                = Some vbr) :
  FAT16Recover.setup_disk_params image
  = Py.Ok match FAT16Recover.read_sector image (Geometry.fat1_start mbr vbr)
                  (Geometry.fat_size_sectors vbr) with
          | Some (b :: l) =>
              FAT16Recover.SetupTrue (Geometry.geometry mbr vbr (b :: l))
          | _ => FAT16Recover.SetupFalse FAT16Recover.NoFAT
          end.
Proof. exact (setup_after_boot_sector image mbr vbr Hmbr Hsig Hvbr). Qed.

Lemma setup_does_not_validate_geometry_witness :
  FAT16Recover.setup_disk_params Samples.image_badgeom
  = Py.Ok (FAT16Recover.SetupTrue
             (Geometry.geometry (firstn 512 Samples.image_badgeom)
                (firstn 512 (skipn 512 Samples.image_badgeom))
                Samples.fat_sector)).
Proof.
  rewrite (setup_does_not_validate_geometry Samples.image_badgeom
             (firstn 512 Samples.image_badgeom)
             (firstn 512 (skipn 512 Samples.image_badgeom))).
  - vm_compute. reflexivity.
  - vm_compute. reflexivity.
  - vm_compute. reflexivity.
  - vm_compute. reflexivity.
Defined.

(** A FAT of zero sectors: the read gives an empty buffer and setup
    fails as for an unreadable FAT. *)
Remark zero_fat_size_fails_setup :
  Geometry.fat_size_sectors (firstn 512 (skipn 512 Samples.image_nofat)) = 0
  /\ FAT16Recover.setup_disk_params Samples.image_nofat
     = Py.Ok (FAT16Recover.SetupFalse FAT16Recover.NoFAT).
Proof. split; vm_compute; reflexivity. Qed.

(** Boot.py decodes without validating either, and divides by the
    sector-size field. *)
Remark boot_sector_report_divides_by_sector_size :
  Boot.parse_fat16_boot_sector (firstn 512 (skipn 512 Samples.image_badgeom)) 1
  = Py.Raise Py.ZeroDivisionError.
Proof. vm_compute. reflexivity. Qed.

(** ** Long-name assembly *)
Section SortFacts.
Import Py.

Context {A : Type} (key : A -> Z).

Local Abbreviation key_le := (fun a b : A => key a <= key b).
Local Abbreviation key_lt := (fun a b : A => key a < key b).

Lemma insert_perm (x : A) (l : list A) : Permutation (insert key x l) (x :: l).
Proof.
  induction l as [|y l IH]; cbn [insert]; [reflexivity|].
  destruct (key x <=? key y); [reflexivity|].
  rewrite IH. apply perm_swap.
Qed.

Lemma sort_perm (l : list A) : Permutation (sort key l) l.
Proof.
  induction l as [|x l IH]; cbn [sort]; [reflexivity|].
  rewrite insert_perm. now constructor.
Qed.

Lemma insert_sorted (x : A) (l : list A) :
  StronglySorted key_le l -> StronglySorted key_le (insert key x l).
Proof.
  induction 1 as [|y l Hs IH Hy]; cbn [insert].
  - constructor; constructor.
  - destruct (Z.leb_spec (key x) (key y)) as [Hle|Hgt].
    + constructor; [constructor; assumption|].
      constructor; [exact Hle|].
      eapply Forall_impl; [|exact Hy]. cbv beta. intros a Ha. lia.
    + constructor; [exact IH|].
      apply (Permutation_Forall (Permutation_sym (insert_perm x l))).
      constructor; [lia|exact Hy].
Qed.

Lemma sort_sorted (l : list A) : StronglySorted key_le (sort key l).
Proof.
  induction l as [|x l IH]; cbn [sort]; [constructor|].
  now apply insert_sorted.
Qed.

(** A list sorted by key and a list strictly sorted by key with the
    same elements are the same list. *)
Lemma sorted_perm_unique (l2 : list A) :
  forall l1, StronglySorted key_le l1 -> StronglySorted key_lt l2 ->
    Permutation l1 l2 -> l1 = l2.
Proof.
  induction l2 as [|y l2 IH]; intros l1 H1 H2 HP.
  - now apply Permutation_sym, Permutation_nil in HP.
  - destruct l1 as [|x l1].
    { apply Permutation_nil in HP. discriminate. }
    inversion H1 as [|? ? H1' Hx]; subst.
    inversion H2 as [|? ? H2' Hy]; subst.
    assert (Hxy : x = y).
    { assert (Hin : In x (y :: l2))
        by (apply (Permutation_in _ HP); left; reflexivity).
      destruct Hin as [->|Hin]; [reflexivity|].
      assert (Hin' : In y (x :: l1))
        by (apply (Permutation_in _ (Permutation_sym HP)); left; reflexivity).
      destruct Hin' as [->|Hin']; [reflexivity|].
      rewrite Forall_forall in Hx, Hy.
      specialize (Hx y Hin'). specialize (Hy x Hin). cbv beta in *. lia. }
    subst y. f_equal. apply IH; auto.
    apply (Permutation_cons_inv HP).
Qed.

End SortFacts.

Section LfnFacts.
Import Py FAT16Recover.

(** The fragments numbered from [a] on. *)
Lemma numbered_keys_from (texts : list str) :
  forall (a : nat) (e : Z * str),
    In e (combine (map Z.of_nat (seq a (List.length texts))) texts) ->
    Z.of_nat a <= fst e.
Proof.
  induction texts as [|t texts IH]; intros a e; simpl; [intros []|].
  intros [<-|Hin]; [simpl; lia|].
  specialize (IH (S a) e Hin). lia.
Qed.

Lemma numbered_sorted (texts : list str) :
  forall a : nat,
    StronglySorted (fun x y : Z * str => fst x < fst y)
      (combine (map Z.of_nat (seq a (List.length texts))) texts).
Proof.
  induction texts as [|t texts IH]; intros a; simpl; constructor.
  - apply IH.
  - rewrite Forall_forall. intros e He.
    apply numbered_keys_from in He. simpl. lia.
Qed.

Lemma numbered_texts (texts : list str) :
  forall a : nat,
    map snd (combine (map Z.of_nat (seq a (List.length texts))) texts) = texts.
Proof.
  induction texts as [|t texts IH]; intros a; simpl; [reflexivity|].
  now rewrite IH.
Qed.

End LfnFacts.

(** C8.  Given long-name fragments whose sequence numbers are 1..k, one
    fragment for each number, in any on-disk order, the assembled long
    name is the concatenation of the fragment texts by ascending
    sequence number.  [texts] lists the texts by number and [frags] is
    any arrangement of the numbered fragments. *)
Theorem lfn_name_is_order_independent
        (texts : list Py.str) (frags : list (Z * Py.str))
        (Hfrags : Permutation frags
                    (combine (map Z.of_nat (seq 1 (List.length texts))) texts)) :
  FAT16Recover.lfn_name frags = concat texts.
Proof.
  assert (Hsort : Py.sort fst frags
                  = combine (map Z.of_nat (seq 1 (List.length texts))) texts).
  { apply (sorted_perm_unique fst).
    - apply sort_sorted.
    - apply numbered_sorted.
    - rewrite sort_perm. exact Hfrags. }
  unfold FAT16Recover.lfn_name. destruct frags as [|f frags].
  - apply Permutation_nil in Hfrags.
    destruct texts; [reflexivity|discriminate].
  - rewrite Hsort, numbered_texts. reflexivity.
Qed.

(** Scenario S5: the record with sequence byte 0x42 for "o.txt" comes
    first on disk, the record with sequence byte 0x01 for "hell" second. *)
Lemma lfn_name_is_order_independent_witness :
  FAT16Recover.lfn_name
    [(Z.land (FAT16Recover.byte_at Samples.rec_o_txt 0) 0x1F,
      FAT16Recover.decode_lfn_fragment Samples.rec_o_txt);
     (Z.land (FAT16Recover.byte_at Samples.rec_hell 0) 0x1F,
      FAT16Recover.decode_lfn_fragment Samples.rec_hell)]
  = concat [Py.lit "hell"; Py.lit "o.txt"].
Proof.
  apply (lfn_name_is_order_independent [Py.lit "hell"; Py.lit "o.txt"]).
  vm_compute. apply perm_swap.
Defined.

(** Scenario S5 through the directory walker, on the sample image. *)
Remark directory_walk_S5 :
  FAT16Recover.directory_actions Samples.image Samples.params 3 []
  = Py.Ok
      [FAT16Recover.RecoverFile 2 600 (Py.lit "RECOVERED_DATA/hello.txt");
       FAT16Recover.RecoverFile 2 5 (Py.lit "RECOVERED_DATA/LABEL");
       FAT16Recover.EnterDirectory (Py.lit "RECOVERED_DATA/VOLDIR") 5
         (Py.lit "VOLDIR")].
Proof. vm_compute. reflexivity. Qed.

(** ** Short-name entries *)
Section EntryFacts.
Import Py FAT16Recover.

Lemma str_eqb_eq (a b : str) : str_eqb a b = true <-> a = b.
Proof.
  unfold str_eqb. destruct (list_eq_dec Z.eq_dec a b); split; auto.
  discriminate.
Qed.

Lemma entry_fields (entry_data : bytes) :
  List.length entry_data = 32%nat ->
  unpack_I (slice entry_data 0x1C 0x20) = Ok (le_uint (slice entry_data 0x1C 0x20))
  /\ unpack_H (slice entry_data 0x1A 0x1C)
     = Ok (le_uint (slice entry_data 0x1A 0x1C))
  /\ 0 <= le_uint (slice entry_data 0x1C 0x20).
Proof.
  intros H. unfold unpack_I, unpack_H, unpack_uint.
  rewrite !slice_length by (unfold len; lia).
  repeat split. apply le_uint_nonneg.
Qed.

(** When [sfn_action] passes an entry over. *)
Lemma sfn_action_none (p : DiskParams) (dir_path final_name : str)
      (is_dir : bool) (start_cluster file_size : Z) :
  0 <= file_size ->
  (sfn_action p dir_path final_name is_dir start_cluster file_size = None
   <-> final_name = lit "." \/ final_name = lit ".."
       \/ (is_dir = true /\ start_cluster < 2)
       \/ (is_dir = false /\ (file_size = 0 \/ start_cluster < 2))).
Proof.
  intros Hsize. unfold sfn_action.
  destruct (str_eqb final_name (lit ".")) eqn:E1.
  { apply str_eqb_eq in E1. cbn [orb]. split; auto. }
  destruct (str_eqb final_name (lit "..")) eqn:E2.
  { apply str_eqb_eq in E2. cbn [orb]. split; auto. }
  cbn [orb].
  assert (N1 : final_name <> lit ".")
    by (intros H; apply str_eqb_eq in H; congruence).
  assert (N2 : final_name <> lit "..")
    by (intros H; apply str_eqb_eq in H; congruence).
  destruct is_dir.
  - destruct (Z.ltb_spec start_cluster 2).
    + split; [intros _|reflexivity].
      right; right; left. split; [reflexivity|assumption].
    + split; [discriminate|].
      intros [H'|[H'|[[_ H']|[H' _]]]]; try contradiction; try discriminate; lia.
  - destruct (Z.gtb_spec file_size 0), (Z.geb_spec start_cluster 2); cbn [andb].
    + split; [discriminate|].
      intros [H'|[H'|[[H' _]|[_ [H'|H']]]]]; try contradiction;
        try discriminate; lia.
    + split; [intros _|reflexivity].
      right; right; right. split; [reflexivity|right; lia].
    + split; [intros _|reflexivity].
      right; right; right. split; [reflexivity|left; lia].
    + split; [intros _|reflexivity].
      right; right; right. split; [reflexivity|right; lia].
Qed.

End EntryFacts.

(** C9 (as stated, refuted).  In the root directory of the sample image
    the entry LABEL has attribute byte 0x08, start cluster 2 and size 5,
    and the walker recovers it as a file; the entry VOLDIR has attribute
    byte 0x18 and start cluster 3, and the walker recurses into it. *)
Lemma volume_label_entries_are_processed :
  Z.land (FAT16Recover.byte_at (Samples.sfn_record "LABEL      " 0x08 2 5) 0x0B)
         0x08 <> 0
  /\ FAT16Recover.sfn_entry Samples.params [] []
       (Samples.sfn_record "LABEL      " 0x08 2 5)
     = Py.Ok (Some (FAT16Recover.RecoverFile 2 5 (Py.lit "RECOVERED_DATA/LABEL")))
  /\ Z.land (FAT16Recover.byte_at (Samples.sfn_record "VOLDIR     " 0x18 3 0) 0x0B)
            0x08 <> 0
  /\ FAT16Recover.sfn_entry Samples.params [] []
       (Samples.sfn_record "VOLDIR     " 0x18 3 0)
     = Py.Ok (Some (FAT16Recover.EnterDirectory
                      (Py.lit "RECOVERED_DATA/VOLDIR") 5 (Py.lit "VOLDIR")))
  /\ FAT16Recover.directory_actions Samples.image Samples.params 3 []
     = Py.Ok
         [FAT16Recover.RecoverFile 2 600 (Py.lit "RECOVERED_DATA/hello.txt");
          FAT16Recover.RecoverFile 2 5 (Py.lit "RECOVERED_DATA/LABEL");
          FAT16Recover.EnterDirectory (Py.lit "RECOVERED_DATA/VOLDIR") 5
            (Py.lit "VOLDIR")].
Proof.
  split; [vm_compute; discriminate|].
  split; [vm_compute; reflexivity|].
  split; [vm_compute; discriminate|].
  split; vm_compute; reflexivity.
Qed.

(** C9 (amended).  The walker has no test of the volume-label bit 0x08;
    it only sets long-name records (attribute byte exactly 0x0F) apart.
    A short-name entry of 32 bytes is passed over, neither recovered nor
    recursed into, exactly when its resolved name is "." or "..", or it
    has the directory bit 0x10 and a start cluster below 2, or it has no
    directory bit and its size is 0 or its start cluster is below 2.  A
    volume label, whose size and start cluster are normally 0, is passed
    over for that reason only. *)
Theorem sfn_entry_passed_over
        (p : FAT16Recover.DiskParams) (dir_path : Py.str)
        (lfn_fragments : list (Z * Py.str)) (entry_data : Py.bytes)
        (Hlen : List.length entry_data = 32%nat) :
  let attributes := FAT16Recover.byte_at entry_data 0x0B in
  let start_cluster := Py.le_uint (Py.slice entry_data 0x1A 0x1C) in
  let file_size := Py.le_uint (Py.slice entry_data 0x1C 0x20) in
  let final_name :=
    FAT16Recover.final_name_of lfn_fragments entry_data
      (FAT16Recover.byte_at entry_data 0x00 =? 0xE5) in
  exists r,
    FAT16Recover.sfn_entry p dir_path lfn_fragments entry_data = Py.Ok r
    /\ (r = None
        <-> final_name = Py.lit "." \/ final_name = Py.lit ".."
            \/ (Z.land attributes 0x10 <> 0 /\ start_cluster < 2)
            \/ (Z.land attributes 0x10 = 0
                /\ (file_size = 0 \/ start_cluster < 2))).
Proof.
  intros attributes start_cluster file_size final_name.
  destruct (entry_fields entry_data Hlen) as (HI & HH & Hsize).
  unfold FAT16Recover.sfn_entry. rewrite HI, HH. cbn [Py.bind].
  eexists. split; [reflexivity|].
  fold attributes start_cluster file_size final_name.
  rewrite sfn_action_none by exact Hsize.
  destruct (Z.eqb_spec (Z.land attributes 0x10) 0) as [Hz|Hnz]; cbn [negb].
  - intuition congruence.
  - intuition congruence.
Qed.

Lemma sfn_entry_passed_over_witness :
  exists r,
    FAT16Recover.sfn_entry Samples.params [] []
      (Samples.sfn_record "NO NAME    " 0x08 0 0) = Py.Ok r
    /\ r = None.
Proof.
  destruct (sfn_entry_passed_over Samples.params [] []
              (Samples.sfn_record "NO NAME    " 0x08 0 0) eq_refl)
    as (r & Hr & Hiff).
  exists r. split; [exact Hr|]. apply Hiff.
  right; right; right. split; vm_compute; auto.
Defined.

(** * Further properties of the code *)

(** ** The block reader *)
Section ReaderFacts.
Import Py FAT16Recover.

Lemma firstn_skipn_length (image : bytes) (off n : nat) :
  List.length (firstn n (skipn off image)) = Nat.min n (List.length image - off).
Proof. rewrite length_firstn, length_skipn. reflexivity. Qed.

Lemma read_sector_some (image : bytes) (lba count : Z) (data : bytes) :
  1 <= count ->
  (read_sector image lba count = Some data
   <-> 0 <= lba /\ (lba + count) * 512 <= len image
       /\ data = firstn (Z.to_nat (512 * count))
                   (skipn (Z.to_nat (lba * 512)) image)).
Proof.
  intros Hc. unfold read_sector, SECTOR_SIZE.
  destruct (Z.ltb_spec (lba * 512) 0) as [Hneg|Hpos].
  { split; [discriminate|]. intros (H & _). lia. }
  unfold len at 1. rewrite firstn_skipn_length.
  destruct (Z.eqb_spec
              (Z.of_nat (Nat.min (Z.to_nat (512 * count))
                                 (List.length image - Z.to_nat (lba * 512))))
              (512 * count)) as [He|Hne].
  - split.
    + intros [= <-]. unfold len. repeat split; lia.
    + intros (_ & _ & ->). reflexivity.
  - split; [discriminate|]. intros (H0 & Hle & _). unfold len in Hle. lia.
Qed.

End ReaderFacts.

(** X1.  [read_sector] never returns a short read: for a count of at
    least one sector it succeeds exactly when the [count] sectors from
    [lba] on lie inside the image, and then returns exactly those
    [512 * count] bytes of the image. *)
Theorem read_sector_exact (image : Py.bytes) (lba count : Z) (data : Py.bytes)
        (Hcount : 1 <= count) :
  FAT16Recover.read_sector image lba count = Some data
  <-> 0 <= lba /\ (lba + count) * 512 <= Py.len image
      /\ data = firstn (Z.to_nat (512 * count))
                  (skipn (Z.to_nat (lba * 512)) image)
      /\ Py.len data = 512 * count.
Proof.
  rewrite (read_sector_some image lba count data Hcount). split.
  - intros (H0 & Hle & ->). repeat split; auto.
    unfold Py.len in *. rewrite firstn_skipn_length. lia.
  - intros (H0 & Hle & Hd & _). auto.
Qed.

Lemma read_sector_exact_witness :
  FAT16Recover.read_sector Samples.image 2 1 = Some Samples.fat_sector.
Proof.
  apply (read_sector_exact Samples.image 2 1 Samples.fat_sector); [lia|].
  split; [lia|]. split; [vm_compute; discriminate|].
  split; vm_compute; reflexivity.
Defined.

(** X2.  A read of zero sectors succeeds with the empty byte string at
    any non-negative LBA, also beyond the end of the image, and every
    caller treats that empty result as a failed read. *)
Theorem read_sector_zero_count (image : Py.bytes) (lba : Z) (Hlba : 0 <= lba) :
  FAT16Recover.read_sector image lba 0 = Some []
  /\ FAT16Recover.not_ (FAT16Recover.read_sector image lba 0) = true.
Proof.
  assert (E : FAT16Recover.read_sector image lba 0 = Some []).
  { unfold FAT16Recover.read_sector, FAT16Recover.SECTOR_SIZE.
    destruct (Z.ltb_spec (lba * 512) 0); [lia|].
    change (Z.to_nat (512 * 0)) with 0%nat. reflexivity. }
  rewrite E. split; reflexivity.
Qed.

Lemma read_sector_zero_count_witness :
  FAT16Recover.read_sector Samples.image 1000 0 = Some []
  /\ FAT16Recover.not_ (FAT16Recover.read_sector Samples.image 1000 0) = true.
Proof. apply (read_sector_zero_count Samples.image 1000). lia. Defined.

(** ** Volume setup: the geometry it derives *)
Section GeometryFacts.
Import Py FAT16Recover Geometry.

Lemma le_uint_bound (bs : bytes) :
  0 <= le_uint bs < 256 ^ len bs.
Proof.
  induction bs as [|b bs IH].
  - unfold le_uint, len. simpl. lia.
  - unfold le_uint in *. cbn [fold_right].
    replace (len (b :: bs)) with (1 + len bs) by (unfold len; simpl length; lia).
    rewrite Z.pow_add_r by (try apply len_nonneg; lia).
    change (256 ^ 1) with 256. pose proof (ord_range b). nia.
Qed.

Lemma field_bound (sector : bytes) (a b : Z) :
  List.length sector = 512%nat -> 0 <= a -> a <= b -> b <= 512 ->
  0 <= le_uint (slice sector a b) < 256 ^ (b - a).
Proof.
  intros H Ha Hab Hb.
  pose proof (le_uint_bound (slice sector a b)) as Hbound.
  unfold len in Hbound. rewrite slice_len_of_sector in Hbound by assumption.
  rewrite Z2Nat.id in Hbound by lia. exact Hbound.
Qed.

(** What a successful setup was built from. *)
Lemma setup_true_inv (image : bytes) (p : DiskParams) :
  setup_disk_params image = Ok (SetupTrue p) ->
  exists mbr vbr b l,
    read_sector image 0 1 = Some mbr /\ signature_ok mbr = true
    /\ read_sector image (partition_start mbr) 1 = Some vbr
    /\ read_sector image (fat1_start mbr vbr) (fat_size_sectors vbr)
       = Some (b :: l)
    /\ p = geometry mbr vbr (b :: l).
Proof.
  rewrite setup_disk_params_outcome. unfold setup_outcome.
  destruct (len image <? 512) eqn:Hlen; [discriminate|].
  destruct (signature_ok (firstn 512 image)) eqn:Hsig; [|discriminate].
  cbn [negb].
  destruct (read_sector image (partition_start (firstn 512 image)) 1)
    as [vbr|] eqn:Hvbr; [|discriminate].
  destruct (read_sector image (fat1_start (firstn 512 image) vbr)
                        (fat_size_sectors vbr)) as [[|b l]|] eqn:Hfat;
    try discriminate.
  intros H. exists (firstn 512 image), vbr, b, l.
  split; [rewrite read_sector_first, Hlen; reflexivity|].
  split; [exact Hsig|]. split; [exact Hvbr|]. split; [exact Hfat|].
  congruence.
Qed.

End GeometryFacts.

(** X3.  After a successful [setup_disk_params] the globals are
    consistent: the first FAT starts [RESERVED_SECTORS] after the
    partition start, the root directory follows [NUM_FATS] FAT copies
    and the data region follows the root directory, so the three LBAs
    are in non-decreasing order; every field lies in the range of its
    on-disk width; the FAT has at least one sector; and the loaded FAT
    buffer holds exactly [512 * FAT_SIZE_SECTORS] bytes. *)
Theorem setup_success_geometry
        (image : Py.bytes) (p : FAT16Recover.DiskParams)
        (Hsetup : FAT16Recover.setup_disk_params image
                  = Py.Ok (FAT16Recover.SetupTrue p)) :
  FAT16Recover.FAT1_START_LBA p
  = FAT16Recover.PARTITION_START_LBA p + FAT16Recover.RESERVED_SECTORS p
  /\ FAT16Recover.ROOT_DIR_START_LBA p
     = FAT16Recover.FAT1_START_LBA p
       + FAT16Recover.NUM_FATS p * FAT16Recover.FAT_SIZE_SECTORS p
  /\ FAT16Recover.DATA_REGION_START_LBA p
     = FAT16Recover.ROOT_DIR_START_LBA p + FAT16Recover.ROOT_DIR_SECTORS p
  /\ (FAT16Recover.FAT1_START_LBA p <= FAT16Recover.ROOT_DIR_START_LBA p
      <= FAT16Recover.DATA_REGION_START_LBA p)
  /\ 0 <= FAT16Recover.PARTITION_START_LBA p < 2 ^ 32
  /\ 0 <= FAT16Recover.RESERVED_SECTORS p < 65536
  /\ 0 <= FAT16Recover.NUM_FATS p < 256
  /\ 0 <= FAT16Recover.SECTORS_PER_CLUSTER p < 256
  /\ 1 <= FAT16Recover.FAT_SIZE_SECTORS p < 65536
  /\ 0 <= FAT16Recover.ROOT_DIR_SECTORS p <= 4096
  /\ Py.len (FAT16Recover.GLOBAL_FAT_DATA p)
     = 512 * FAT16Recover.FAT_SIZE_SECTORS p.
Proof.
  destruct (setup_true_inv image p Hsetup)
    as (mbr & vbr & b & l & Hmbr & _ & Hvbr & Hfat & ->).
  destruct (sector_nonempty _ _ _ Hmbr) as [Lm _].
  destruct (sector_nonempty _ _ _ Hvbr) as [Lv _].
  apply read_sector_length in Hfat. unfold FAT16Recover.SECTOR_SIZE in Hfat.
  assert (Hps : 0 <= Geometry.partition_start mbr < 2 ^ 32).
  { unfold Geometry.partition_start.
    pose proof (le_uint_bound
                  (Py.slice (Py.slice mbr FAT16Recover.PARTITION_TABLE_OFFSET
                               (FAT16Recover.PARTITION_TABLE_OFFSET + 16)) 8 12))
      as Hb.
    unfold Py.len in Hb. rewrite slice_length in Hb.
    - exact Hb.
    - lia.
    - lia.
    - unfold Py.len. rewrite (slice_len_of_sector mbr _ _ Lm);
        unfold FAT16Recover.PARTITION_TABLE_OFFSET; lia. }
  pose proof (field_bound vbr 0x0D 0x0E Lv) as Hspc.
  pose proof (field_bound vbr 0x0E 0x10 Lv) as Hrsv.
  pose proof (field_bound vbr 0x10 0x11 Lv) as Hnf.
  pose proof (field_bound vbr 0x11 0x13 Lv) as Hre.
  pose proof (field_bound vbr 0x16 0x18 Lv) as Hfs.
  specialize (Hspc ltac:(lia) ltac:(lia) ltac:(lia)).
  specialize (Hrsv ltac:(lia) ltac:(lia) ltac:(lia)).
  specialize (Hnf ltac:(lia) ltac:(lia) ltac:(lia)).
  specialize (Hre ltac:(lia) ltac:(lia) ltac:(lia)).
  specialize (Hfs ltac:(lia) ltac:(lia) ltac:(lia)).
  fold (Geometry.sectors_per_cluster vbr) in Hspc.
  fold (Geometry.reserved_sectors vbr) in Hrsv.
  fold (Geometry.num_fats vbr) in Hnf.
  fold (Geometry.root_entries vbr) in Hre.
  fold (Geometry.fat_size_sectors vbr) in Hfs.
  change (256 ^ (0x0E - 0x0D)) with 256 in Hspc.
  change (256 ^ (0x10 - 0x0E)) with 65536 in Hrsv.
  change (256 ^ (0x11 - 0x10)) with 256 in Hnf.
  change (256 ^ (0x13 - 0x11)) with 65536 in Hre.
  change (256 ^ (0x18 - 0x16)) with 65536 in Hfs.
  assert (Hlenfat : 1 <= Py.len (b :: l)) by (unfold Py.len; simpl length; lia).
  unfold Geometry.geometry, Geometry.fat1_start, FAT16Recover.SECTOR_SIZE.
  cbn [FAT16Recover.FAT1_START_LBA FAT16Recover.PARTITION_START_LBA
       FAT16Recover.RESERVED_SECTORS FAT16Recover.ROOT_DIR_START_LBA
       FAT16Recover.NUM_FATS FAT16Recover.FAT_SIZE_SECTORS
       FAT16Recover.DATA_REGION_START_LBA FAT16Recover.ROOT_DIR_SECTORS
       FAT16Recover.SECTORS_PER_CLUSTER FAT16Recover.GLOBAL_FAT_DATA].
  assert (Hrds : 0 <= (Geometry.root_entries vbr * 32 + 512 - 1) / 512 <= 4096).
  { split.
    - apply Z.div_pos; lia.
    - apply Z.lt_succ_r. apply Z.div_lt_upper_bound; lia. }
  assert (Hprod : 0 <= Geometry.num_fats vbr * Geometry.fat_size_sectors vbr)
    by nia.
  repeat split; try lia.
Qed.

Lemma setup_success_geometry_witness :
  FAT16Recover.FAT1_START_LBA Samples.params
  = FAT16Recover.PARTITION_START_LBA Samples.params
    + FAT16Recover.RESERVED_SECTORS Samples.params
  /\ Py.len (FAT16Recover.GLOBAL_FAT_DATA Samples.params)
     = 512 * FAT16Recover.FAT_SIZE_SECTORS Samples.params.
Proof.
  pose proof (setup_success_geometry Samples.image Samples.params) as H.
  assert (Hs : FAT16Recover.setup_disk_params Samples.image
               = Py.Ok (FAT16Recover.SetupTrue Samples.params))
    by (vm_compute; reflexivity).
  specialize (H Hs). split; apply H.
Defined.

(** X4.  [setup_disk_params] raises nothing, whatever the image holds,
    and it returns True exactly when the image has at least 512 bytes,
    bytes 0x1FE..0x1FF are 0x55 0xAA, the sector at the start LBA of the
    first partition slot can be read, and the read of the FAT gives a
    non-empty buffer.  Neither the partition type nor an empty first
    slot is looked at. *)
Theorem setup_returns_true_iff (image : Py.bytes) :
  (forall e, FAT16Recover.setup_disk_params image <> Py.Raise e)
  /\ ((exists p, FAT16Recover.setup_disk_params image
                 = Py.Ok (FAT16Recover.SetupTrue p))
      <-> 512 <= Py.len image
          /\ Geometry.signature_ok (firstn 512 image) = true
          /\ exists vbr b l,
               FAT16Recover.read_sector image
                 (Geometry.partition_start (firstn 512 image)) 1 = Some vbr
               /\ FAT16Recover.read_sector image
                    (Geometry.fat1_start (firstn 512 image) vbr)
                    (Geometry.fat_size_sectors vbr) = Some (b :: l)).
Proof.
  split.
  - intros e. rewrite setup_disk_params_outcome. discriminate.
  - split.
    + intros [p Hp].
      destruct (setup_true_inv image p Hp)
        as (mbr & vbr & b & l & Hmbr & Hsig & Hvbr & Hfat & _).
      rewrite read_sector_first in Hmbr.
      destruct (Z.ltb_spec (Py.len image) 512); [discriminate|].
      assert (Hm : mbr = firstn 512 image) by congruence. subst mbr.
      split; [assumption|]. split; [exact Hsig|]. eauto.
    + intros (Hlen & Hsig & vbr & b & l & Hvbr & Hfat).
      rewrite setup_disk_params_outcome. unfold Geometry.setup_outcome.
      destruct (Z.ltb_spec (Py.len image) 512); [lia|].
      rewrite Hsig. cbn [negb]. rewrite Hvbr, Hfat. eauto.
Qed.

(** ** The shape of a traced chain *)
Section ChainShapeFacts.
Import Py FAT16Recover Chain ChainShape.

Variable fat : bytes.

Lemma walk_head (n : nat) (c : Z) (l : list Z) :
  walk n fat c = Returned l -> l = [] \/ hd_error l = Some c.
Proof.
  intros H. destruct (walk_elements fat n c l H) as (_ & _ & [->|Hhd]); auto.
  destruct l as [|x l]; auto. simpl in Hhd. subst x. right. reflexivity.
Qed.

(** Adjacent clusters of a walk are linked by the FAT. *)
Lemma walk_linked (n : nat) :
  forall c l, walk n fat c = Returned l ->
    forall i a b, nth_error l i = Some a -> nth_error l (S i) = Some b ->
      entry_of fat a = Ok b /\ stops b = false.
Proof.
  induction n as [|n IH]; intros c l; [discriminate|].
  rewrite walk_unfold.
  destruct (c * 2 + 2 >? len fat).
  { intros [= <-] i a b Ha. destruct i; discriminate. }
  destruct (entry_of fat c) as [v|e] eqn:Ev; [|discriminate].
  assert (Hone : forall i a b, nth_error [c] i = Some a ->
                   nth_error [c] (S i) = Some b ->
                   entry_of fat a = Ok b /\ stops b = false).
  { intros i a b _ Hb. destruct i; discriminate. }
  destruct (stops v) eqn:Sv; [intros [= <-]; exact Hone|].
  destruct n as [|n']; [intros [= <-]; exact Hone|].
  destruct (walk (S n') fat v) as [l'| |] eqn:E; simpl; try discriminate.
  intros [= <-] i a b Ha Hb. destruct i as [|i].
  - simpl in Ha, Hb. injection Ha as <-.
    destruct (walk_head _ _ _ E) as [->|Hhd]; [discriminate|].
    destruct l' as [|x l']; [discriminate|]. simpl in Hhd, Hb.
    injection Hhd as ->. injection Hb as <-. auto.
  - simpl in Ha, Hb. exact (IH v l' E i a b Ha Hb).
Qed.

(** A walk that ends before the limit ends at a stop value or at an
    entry outside the buffer. *)
Lemma walk_last (n : nat) :
  forall c l last, walk n fat c = Returned (l ++ [last]) ->
    (List.length (l ++ [last]) < n)%nat ->
    exists v, entry_of fat last = Ok v
              /\ (stops v = true \/ v * 2 + 2 > len fat).
Proof.
  induction n as [|n IH]; intros c l last; [discriminate|].
  rewrite walk_unfold.
  destruct (c * 2 + 2 >? len fat).
  { intros [= H]. destruct l; discriminate. }
  destruct (entry_of fat c) as [v|e] eqn:Ev; [|discriminate].
  destruct (stops v) eqn:Sv.
  { intros [= H] _. destruct l as [|x [|y l]]; try discriminate.
    injection H as H. subst last. eauto. }
  destruct n as [|n'].
  { intros _ Hlen. rewrite length_app in Hlen. simpl in Hlen. lia. }
  destruct (walk (S n') fat v) as [l'| |] eqn:E; simpl; try discriminate.
  intros [= H] Hlen. destruct l as [|x l].
  - simpl in H. injection H as H1 H2. subst last l'.
    exists v. split; [exact Ev|right].
    destruct (Z.gtb_spec (v * 2 + 2) (len fat)) as [Hgt|Hle]; [lia|].
    exfalso. rewrite walk_unfold in E.
    destruct (Z.gtb_spec (v * 2 + 2) (len fat)); [lia|].
    destruct (entry_of fat v) as [w|]; [|discriminate].
    destruct (stops w); [discriminate|].
    destruct n'; [discriminate|].
    destruct (walk (S n') fat w); discriminate.
  - simpl in H. injection H as H1 H2. subst x l'.
    apply (IH v l last E). simpl in Hlen. lia.
Qed.

(** A well-formed chain is walked exactly. *)
Lemma walk_fat_path (l : list Z) :
  forall n c rest, l = c :: rest -> fat_path fat l ->
    (List.length l <= n)%nat -> walk n fat c = Returned l.
Proof.
  induction l as [|x l IH]; intros n c rest Hl Hp Hlen; [discriminate|].
  injection Hl as -> ->. destruct n as [|n]; [simpl in Hlen; lia|].
  rewrite walk_unfold. cbn [fat_path] in Hp. destruct Hp as [Hin Hp].
  destruct (Z.gtb_spec (c * 2 + 2) (len fat)); [lia|].
  destruct rest as [|d rest'].
  - destruct Hp as (v & -> & ->). reflexivity.
  - destruct Hp as (-> & -> & Hp). simpl in Hlen.
    destruct n as [|n']; [lia|].
    rewrite (IH (S n') d rest' eq_refl Hp) by (simpl; lia). reflexivity.
Qed.

End ChainShapeFacts.

(** X5.  The chain that [trace_fat_chain] returns follows the FAT: it
    is empty or starts with the start cluster, and for any two adjacent
    elements [a], [b] the 16-bit entry of [a] is [b], a value other than
    0x0000, 0xFFF7 and 0xFFF8..0xFFFF. *)
Theorem trace_fat_chain_follows_fat
        (fat : Py.bytes) (s : Z) (chain : list Z)
        (Hchain : FAT16Recover.trace_fat_chain fat s = FAT16Recover.Returned chain) :
  (chain = [] \/ hd_error chain = Some s)
  /\ forall i a b,
       nth_error chain i = Some a -> nth_error chain (S i) = Some b ->
       Chain.entry_of fat a = Py.Ok b /\ Chain.stops b = false.
Proof.
  rewrite trace_is_walk in Hchain. split.
  - exact (walk_head fat _ _ _ Hchain).
  - exact (walk_linked fat _ _ _ Hchain).
Qed.

Lemma trace_fat_chain_follows_fat_witness :
  Chain.entry_of Samples.fat_s3 2 = Py.Ok 3 /\ Chain.stops 3 = false.
Proof.
  assert (H : FAT16Recover.trace_fat_chain Samples.fat_s3 2
              = FAT16Recover.Returned [2; 3; 4]) by (vm_compute; reflexivity).
  exact (proj2 (trace_fat_chain_follows_fat Samples.fat_s3 2 [2; 3; 4] H)
               0%nat 2 3 eq_refl eq_refl).
Defined.

(** X6.  For every FAT buffer and every start cluster the chain that
    [trace_fat_chain] builds has at most 65,536 elements. *)
Theorem trace_fat_chain_length_bound (fat : Py.bytes) (s : Z) :
  FAT16Recover.trace_fat_chain fat s <> FAT16Recover.Unfinished
  /\ Py.len (FAT16Recover.chain_of (FAT16Recover.trace_fat_chain fat s)) <= 65536.
Proof. split; [apply trace_finishes|apply trace_length]. Qed.

(** X7.  A returned chain with fewer than 65,536 elements ended for a
    reason the FAT shows: the entry of its last cluster is an
    end-of-chain value, the free value or the bad-cluster value, or it
    points to a cluster whose own entry lies outside the FAT buffer. *)
Theorem trace_fat_chain_end_reason
        (fat : Py.bytes) (s : Z) (l : list Z) (last : Z)
        (Hchain : FAT16Recover.trace_fat_chain fat s
                  = FAT16Recover.Returned (l ++ [last]))
        (Hshort : Py.len (l ++ [last]) < 65536) :
  exists v, Chain.entry_of fat last = Py.Ok v
            /\ (Chain.stops v = true \/ v * 2 + 2 > Py.len fat).
Proof.
  rewrite trace_is_walk in Hchain.
  apply (walk_last fat _ s l last Hchain).
  unfold Py.len, FAT16Recover.max_iterations in *. lia.
Qed.

Lemma trace_fat_chain_end_reason_witness :
  exists v, Chain.entry_of Samples.fat_s3 4 = Py.Ok v
            /\ (Chain.stops v = true \/ v * 2 + 2 > Py.len Samples.fat_s3).
Proof.
  apply (trace_fat_chain_end_reason Samples.fat_s3 2 [2; 3] 4).
  - vm_compute. reflexivity.
  - vm_compute. reflexivity.
Defined.

(** X8.  A well-formed chain is traced exactly: if the clusters of [l]
    are linked by in-range FAT entries that are followed values and the
    entry of the last one is an end-of-chain, free or bad value, then
    [trace_fat_chain] from the first cluster of [l] returns [l], as long
    as [l] has at most 65,536 clusters. *)
Theorem trace_fat_chain_of_fat_path
        (fat : Py.bytes) (c : Z) (rest : list Z)
        (Hpath : ChainShape.fat_path fat (c :: rest))
        (Hlen : Py.len (c :: rest) <= 65536) :
  FAT16Recover.trace_fat_chain fat c = FAT16Recover.Returned (c :: rest).
Proof.
  rewrite trace_is_walk.
  apply (walk_fat_path fat (c :: rest) _ c rest eq_refl Hpath).
  unfold Py.len, FAT16Recover.max_iterations in *. lia.
Qed.

Lemma trace_fat_chain_of_fat_path_witness :
  FAT16Recover.trace_fat_chain Samples.fat_s3 2 = FAT16Recover.Returned [2; 3; 4].
Proof.
  apply (trace_fat_chain_of_fat_path Samples.fat_s3 2 [3; 4]).
  - cbn [ChainShape.fat_path].
    repeat split; try (vm_compute; reflexivity); try (vm_compute; discriminate).
    exists 0xFFFF. split; vm_compute; reflexivity.
  - vm_compute. discriminate.
Defined.

(** ** The recovery loop: what it writes for any image *)
Section RecoveryBounds.
Import Py FAT16Recover.

Variable image : bytes.
Variable p : DiskParams.

Lemma firstn_app_short {A : Type} (k : nat) (l1 l2 : list A) :
  (k <= List.length l1)%nat -> firstn k (l1 ++ l2) = firstn k l1.
Proof.
  intros H. rewrite firstn_app.
  replace (k - List.length l1)%nat with 0%nat by lia.
  cbn [firstn]. apply app_nil_r.
Qed.

Lemma firstn_app_long {A : Type} (k : nat) (l1 l2 : list A) :
  (List.length l1 <= k)%nat ->
  firstn k (l1 ++ l2) = l1 ++ firstn (k - List.length l1) l2.
Proof.
  intros H. rewrite firstn_app. f_equal. now apply firstn_all2.
Qed.

(** Whatever the reads give, the loop keeps the count equal to the
    output length, never passes [file_size], and the output is a prefix
    of the payloads of the chain. *)
Lemma write_clusters_bounds (file_size : Z) (chain : list Z) :
  forall outfile bytes_recovered,
    bytes_recovered = len outfile -> bytes_recovered < file_size ->
    let r := write_clusters image p file_size chain outfile bytes_recovered in
    snd r = len (fst r) /\ bytes_recovered <= snd r <= file_size
    /\ fst r = outfile
               ++ firstn (Z.to_nat (snd r - bytes_recovered))
                         (payloads image p chain).
Proof.
  induction chain as [|c chain IH]; intros outfile rec Hrec Hlt; cbv zeta.
  - cbn [write_clusters fst snd]. rewrite Z.sub_diag. cbn [Z.to_nat firstn].
    rewrite app_nil_r. repeat split; lia.
  - destruct (not_ (cluster_payload image p c)) eqn:Hn.
    + (* the read fails: the loop ends *)
      assert (E : write_clusters image p file_size (c :: chain) outfile rec
                  = (outfile, rec)).
      { cbn [write_clusters]. unfold cluster_payload in Hn.
        destruct (read_sector image _ _) as [d|]; [|reflexivity].
        rewrite Hn. reflexivity. }
      rewrite E. cbn [fst snd]. rewrite Z.sub_diag. cbn [Z.to_nat firstn].
      rewrite app_nil_r. repeat split; lia.
    + destruct (readable_payload image p c Hn) as (d & E & Ed & Hnd & Hd & Hpos).
      rewrite (write_step image p _ _ _ _ _ d E Hnd). cbv zeta.
      assert (Hp : payloads image p (c :: chain) = d ++ payloads image p chain).
      { unfold payloads. simpl. now rewrite Ed. }
      rewrite Hp. set (bpc := SECTORS_PER_CLUSTER p * SECTOR_SIZE) in *.
      destruct (Z.min_spec bpc (file_size - rec)) as [[Hm ->]|[Hm ->]].
      * destruct (Z.geb_spec (rec + bpc) file_size); [lia|].
        rewrite slice_prefix by lia.
        assert (Hfd : firstn (Z.to_nat bpc) d = d)
          by (apply firstn_all2; unfold len in Hd; lia).
        rewrite Hfd.
        destruct (IH (outfile ++ d) (rec + bpc)) as (H1 & H2 & H3);
          [rewrite len_app; lia|lia|].
        split; [exact H1|]. split; [lia|].
        rewrite H3, <- app_assoc. f_equal.
        rewrite firstn_app_long by (unfold len in Hd; lia).
        do 2 f_equal. unfold len in Hd. lia.
      * destruct (Z.geb_spec (rec + (file_size - rec)) file_size); [|lia].
        rewrite slice_prefix by lia. cbn [fst snd].
        split; [rewrite len_app; unfold len at 2; rewrite length_firstn;
                unfold len in *; lia|].
        split; [lia|]. f_equal.
        rewrite firstn_app_short by (unfold len in Hd; lia).
        f_equal. lia.
Qed.

End RecoveryBounds.

(** X9.  Whatever the image holds, a recovery of a file of size
    [file_size > 0] never writes more than [file_size] bytes; the byte
    count it reports is the length of the output; and the output is a
    prefix of the concatenated payloads of the traced chain (the bytes of
    the clusters read before the end of the file or the first failed
    read). *)
Theorem recover_file_output_bounds
        (host_ok : bool) (image : Py.bytes) (p : FAT16Recover.DiskParams)
        (start_cluster file_size : Z) (outfile : Py.bytes) (n : Z)
        (Hsize : 0 < file_size)
        (Hrec : FAT16Recover.recover_file host_ok image p start_cluster file_size
                = Py.Ok (FAT16Recover.Recovered outfile n)) :
  n = Py.len outfile /\ n <= file_size
  /\ exists chain,
       FAT16Recover.trace_fat_chain (FAT16Recover.GLOBAL_FAT_DATA p) start_cluster
       = FAT16Recover.Returned chain
       /\ outfile = firstn (Z.to_nat n) (FAT16Recover.payloads image p chain).
Proof.
  unfold FAT16Recover.recover_file in Hrec.
  destruct ((start_cluster <? 2) || (file_size =? 0)); [discriminate|].
  destruct (FAT16Recover.trace_fat_chain _ start_cluster) as [chain|e|];
    try discriminate.
  destruct chain as [|c chain]; [discriminate|].
  destruct host_ok; [|discriminate].
  pose proof (write_clusters_bounds image p file_size (c :: chain) [] 0
                eq_refl Hsize) as H. cbv zeta in H.
  destruct (FAT16Recover.write_clusters image p file_size (c :: chain) [] 0)
    as [out m].
  injection Hrec as -> ->. cbn [fst snd app] in H.
  destruct H as (H1 & H2 & H3). rewrite Z.sub_0_r in H3.
  split; [exact H1|]. split; [lia|]. exists (c :: chain). auto.
Qed.

Lemma recover_file_output_bounds_witness :
  512 = Py.len (FAT16Recover.payloads Samples.image_cut Samples.params [2])
  /\ 512 <= 600.
Proof.
  destruct (recover_file_output_bounds true Samples.image_cut Samples.params
              2 600
              (FAT16Recover.payloads Samples.image_cut Samples.params [2]) 512)
    as (H1 & H2 & _).
  - lia.
  - vm_compute. reflexivity.
  - split; [exact H1|exact H2].
Defined.

(** X10.  [recover_file] raises nothing and always comes back.  It
    gives up before opening the output file exactly when the start
    cluster is below 2, the size is 0, or the FAT entry of the start
    cluster lies outside the loaded FAT buffer (the traced chain is
    empty); in every other case the output file is opened. *)
Theorem recover_file_gives_up_iff
        (host_ok : bool) (image : Py.bytes) (p : FAT16Recover.DiskParams)
        (start_cluster file_size : Z) :
  (forall e, FAT16Recover.recover_file host_ok image p start_cluster file_size
             <> Py.Raise e)
  /\ FAT16Recover.recover_file host_ok image p start_cluster file_size
     <> Py.Ok FAT16Recover.Stuck
  /\ (FAT16Recover.recover_file host_ok image p start_cluster file_size
      = Py.Ok FAT16Recover.NotRecovered
      <-> start_cluster < 2 \/ file_size = 0
          \/ start_cluster * 2 + 2
             > Py.len (FAT16Recover.GLOBAL_FAT_DATA p)).
Proof.
  unfold FAT16Recover.recover_file.
  destruct (Z.ltb_spec start_cluster 2) as [Hlt|Hge].
  { cbn [orb]. repeat split; try discriminate; auto. }
  destruct (Z.eqb_spec file_size 0) as [Hz|Hnz].
  { cbn [orb]. repeat split; try discriminate; auto. }
  cbn [orb].
  destruct (trace_returns (FAT16Recover.GLOBAL_FAT_DATA p) start_cluster
              ltac:(lia)) as [chain Hc].
  pose proof Hc as Hw. rewrite trace_is_walk in Hw.
  pose proof (walk_empty_iff (FAT16Recover.GLOBAL_FAT_DATA p)
                FAT16Recover.max_iterations start_cluster
                max_iterations_pos ltac:(lia)) as Hempty.
  rewrite Hw in Hempty. rewrite Hc.
  destruct chain as [|c chain].
  - repeat split; try discriminate.
    intros _. right. right. apply Hempty. reflexivity.
  - assert (Hin : ~ start_cluster * 2 + 2
                    > Py.len (FAT16Recover.GLOBAL_FAT_DATA p)).
    { intros H. apply Hempty in H. discriminate. }
    destruct host_ok.
    + destruct (FAT16Recover.write_clusters _ _ _ _ _ _).
      repeat split; try discriminate. intros [H|[H|H]]; [lia|lia|contradiction].
    + repeat split; try discriminate. intros [H|[H|H]]; [lia|lia|contradiction].
Qed.

(** ** Names *)
Section StringFacts.
Import Py.

Lemma lstrip_incl (s : str) (c : Z) : In c (lstrip s) -> In c s.
Proof.
  induction s as [|x s IH]; simpl; [auto|].
  destruct (isspace x); simpl; auto.
Qed.

Lemma lstrip_length (s : str) : (List.length (lstrip s) <= List.length s)%nat.
Proof.
  induction s as [|x s IH]; simpl; [lia|].
  destruct (isspace x); simpl; lia.
Qed.

Lemma lstrip_head (s : str) (c : Z) (t : str) :
  lstrip s = c :: t -> isspace c = false.
Proof.
  induction s as [|x s IH]; simpl; [discriminate|].
  destruct (isspace x) eqn:E; [exact IH|].
  intros [= <- _]. exact E.
Qed.

Lemma lstrip_keeps (c : Z) (s : str) :
  isspace c = false -> lstrip (c :: s) = c :: s.
Proof. intros H. simpl. now rewrite H. Qed.

Lemma lstrip_app_last (s : str) (c : Z) :
  isspace c = false -> lstrip (s ++ [c]) = lstrip s ++ [c].
Proof.
  intros H. induction s as [|x s IH]; simpl.
  - now rewrite H.
  - destruct (isspace x); [exact IH|reflexivity].
Qed.

Lemma rstrip_incl (s : str) (c : Z) : In c (rstrip s) -> In c s.
Proof.
  unfold rstrip. intros H. apply in_rev in H. apply lstrip_incl in H.
  now apply in_rev.
Qed.

Lemma rstrip_length (s : str) : (List.length (rstrip s) <= List.length s)%nat.
Proof.
  unfold rstrip. rewrite length_rev.
  pose proof (lstrip_length (rev s)) as H. rewrite length_rev in H. exact H.
Qed.

Lemma rstrip_keeps_head (c : Z) (s : str) :
  isspace c = false -> rstrip (c :: s) = c :: rstrip s.
Proof.
  intros H. unfold rstrip. cbn [rev].
  rewrite (lstrip_app_last _ _ H), rev_app_distr. reflexivity.
Qed.

Lemma rstrip_last (s t : str) (c : Z) :
  rstrip s = t ++ [c] -> isspace c = false.
Proof.
  unfold rstrip. intros H. apply (f_equal (@rev Z)) in H.
  rewrite rev_involutive, rev_app_distr in H. cbn [rev app] in H.
  exact (lstrip_head _ _ _ H).
Qed.

Lemma strip_incl (s : str) (c : Z) : In c (strip s) -> In c s.
Proof. unfold strip. intros H. now apply lstrip_incl, rstrip_incl. Qed.

Lemma strip_length (s : str) : (List.length (strip s) <= List.length s)%nat.
Proof.
  unfold strip. pose proof (rstrip_length (lstrip s)).
  pose proof (lstrip_length s). lia.
Qed.

Lemma strip_keeps_head (c : Z) (s : str) :
  isspace c = false -> strip (c :: s) = c :: rstrip s.
Proof.
  intros H. unfold strip. rewrite (lstrip_keeps _ _ H).
  now apply rstrip_keeps_head.
Qed.

(** A stripped string has no white space at either end. *)
Lemma strip_ends (s : str) :
  (forall c t, strip s = c :: t -> isspace c = false)
  /\ (forall t c, strip s = t ++ [c] -> isspace c = false).
Proof.
  split.
  - intros c t H. unfold strip in H.
    destruct (lstrip s) as [|x u] eqn:E.
    { unfold rstrip in H. simpl in H. discriminate. }
    pose proof (lstrip_head _ _ _ E) as Hx.
    rewrite (rstrip_keeps_head _ _ Hx) in H. injection H as <- _. exact Hx.
  - intros t c H. unfold strip in H. exact (rstrip_last _ _ _ H).
Qed.

Lemma split_first_no_sep (sep : Z) (s : str) : ~ In sep (split_first sep s).
Proof.
  induction s as [|x s IH]; simpl; [auto|].
  destruct (Z.eqb_spec x sep); simpl; [auto|]. intros [H|H]; auto.
Qed.

Lemma split_first_length (sep : Z) (s : str) :
  (List.length (split_first sep s) <= List.length s)%nat.
Proof.
  induction s as [|x s IH]; simpl; [lia|].
  destruct (x =? sep); simpl; lia.
Qed.

Lemma code_units_length (bs : bytes) :
  (2 * List.length (code_units bs) <= List.length bs + 1)%nat.
Proof.
  enough (H : (2 * List.length (code_units bs) <= List.length bs + 1)%nat
              /\ forall b, (2 * List.length (code_units (b :: bs))
                            <= List.length (b :: bs) + 1)%nat) by apply H.
  induction bs as [|b0 bs [IH1 IH2]].
  - split; [simpl; lia|]. intros b. simpl. lia.
  - split; [apply IH2|]. intros b. cbn [code_units List.length] in *. lia.
Qed.

Lemma decode_units_some (u : Z) (rest : list (option Z)) :
  decode_units (Some u :: rest)
  = if is_high_surrogate u then
      match rest with
      | Some v :: rest' =>
          if is_low_surrogate v
          then (0x10000 + (u - 0xD800) * 0x400 + (v - 0xDC00)) :: decode_units rest'
          else 0xFFFD :: decode_units rest
      | _ => 0xFFFD :: decode_units rest
      end
    else if is_low_surrogate u then 0xFFFD :: decode_units rest
    else u :: decode_units rest.
Proof. reflexivity. Qed.

Lemma decode_units_length (us : list (option Z)) :
  (List.length (decode_units us) <= List.length us)%nat.
Proof.
  enough (H : (List.length (decode_units us) <= List.length us)%nat
              /\ forall u, (List.length (decode_units (u :: us))
                            <= List.length (u :: us))%nat) by apply H.
  induction us as [|v us [IH1 IH2]].
  - split; [simpl; lia|]. intros [u|]; simpl; [|lia].
    destruct (is_high_surrogate u); [simpl; lia|].
    destruct (is_low_surrogate u); simpl; lia.
  - split; [apply IH2|]. intros [u|].
    + rewrite decode_units_some. destruct (is_high_surrogate u).
      * destruct v as [w|].
        -- destruct (is_low_surrogate w).
           ++ cbn [List.length]. lia.
           ++ specialize (IH2 (Some w)). cbn [List.length] in *. lia.
        -- specialize (IH2 None). cbn [List.length] in *. lia.
      * destruct (is_low_surrogate u); specialize (IH2 v);
          cbn [List.length] in *; lia.
    + specialize (IH2 v). change (decode_units (None :: v :: us))
        with (0xFFFD :: decode_units (v :: us)).
      cbn [List.length] in *. lia.
Qed.

Lemma slice_length_le {A : Type} (l : list A) (a b : Z) :
  0 <= a -> a <= b -> (List.length (slice l a b) <= Z.to_nat (b - a))%nat.
Proof.
  intros Ha Hab. unfold slice, adjust.
  destruct (Z.ltb_spec a 0); [lia|]. destruct (Z.ltb_spec b 0); [lia|].
  rewrite length_firstn. lia.
Qed.

End StringFacts.

(** X11.  Whatever bytes a record holds, the text decoded from a
    long-name record has at most 13 characters, contains no NUL
    character, and has no white space at its start or at its end. *)
Theorem decode_lfn_fragment_shape (entry_data : Py.bytes) :
  (List.length (FAT16Recover.decode_lfn_fragment entry_data) <= 13)%nat
  /\ ~ In 0 (FAT16Recover.decode_lfn_fragment entry_data)
  /\ (forall c t, FAT16Recover.decode_lfn_fragment entry_data = c :: t ->
                  Py.isspace c = false)
  /\ (forall t c, FAT16Recover.decode_lfn_fragment entry_data = t ++ [c] ->
                  Py.isspace c = false).
Proof.
  unfold FAT16Recover.decode_lfn_fragment.
  set (raw := concat [Py.slice entry_data 0x01 0x0B; Py.slice entry_data 0x0E 0x1A;
                      Py.slice entry_data 0x1C 0x20]).
  split; [|split; [|apply strip_ends]].
  - assert (Hraw : (List.length raw <= 26)%nat).
    { unfold raw. cbn [concat]. rewrite !length_app. cbn [List.length].
      pose proof (slice_length_le entry_data 0x01 0x0B ltac:(lia) ltac:(lia)).
      pose proof (slice_length_le entry_data 0x0E 0x1A ltac:(lia) ltac:(lia)).
      pose proof (slice_length_le entry_data 0x1C 0x20 ltac:(lia) ltac:(lia)).
      lia. }
    pose proof (strip_length
                  (Py.split_first 0 (Py.decode_utf16le_replace raw))).
    pose proof (split_first_length 0 (Py.decode_utf16le_replace raw)).
    unfold Py.decode_utf16le_replace in *.
    pose proof (decode_units_length (Py.code_units raw)).
    pose proof (code_units_length raw). lia.
  - intros H. apply strip_incl in H. exact (split_first_no_sep 0 _ H).
Qed.

Lemma decode_lfn_fragment_shape_witness :
  Py.isspace 111 = false.
Proof.
  assert (E : FAT16Recover.decode_lfn_fragment Samples.rec_o_txt
              = 111 :: Py.lit ".txt") by (vm_compute; reflexivity).
  exact (proj1 (proj2 (proj2 (decode_lfn_fragment_shape Samples.rec_o_txt)))
               111 (Py.lit ".txt") E).
Defined.

Lemma final_name_of_chars
      (lfn_fragments : list (Z * Py.str)) (entry_data : Py.bytes)
      (is_deleted : bool) (c : Z) :
  In c (FAT16Recover.final_name_of lfn_fragments entry_data is_deleted) ->
  c <> 47 /\ c <> 92 /\ c <> 63.
Proof.
  unfold FAT16Recover.final_name_of.
  match goal with |- context [Py.strip ?s] => set (name := s) end.
  intros H. apply strip_incl in H. unfold name, Py.replace in H.
  rewrite !in_map_iff in H. destruct H as (c2 & H2 & H).
  rewrite in_map_iff in H. destruct H as (c1 & H1 & H).
  rewrite in_map_iff in H. destruct H as (c0 & H0 & _).
  destruct (Z.eqb_spec c0 63), (Z.eqb_spec c1 47), (Z.eqb_spec c2 92); lia.
Qed.

(** X12.  The name that the walker resolves for an entry, from long
    name or short name, is safe as one path component: it contains no
    '/', no backslash and no '?', and it has no white space at its start
    or at its end. *)
Theorem final_name_is_sanitized
        (lfn_fragments : list (Z * Py.str)) (entry_data : Py.bytes)
        (is_deleted : bool) :
  (forall c, In c (FAT16Recover.final_name_of lfn_fragments entry_data is_deleted)
             -> c <> 47 /\ c <> 92 /\ c <> 63)
  /\ (forall c t,
        FAT16Recover.final_name_of lfn_fragments entry_data is_deleted = c :: t ->
        Py.isspace c = false)
  /\ (forall t c,
        FAT16Recover.final_name_of lfn_fragments entry_data is_deleted = t ++ [c] ->
        Py.isspace c = false).
Proof.
  split; [intros c; apply final_name_of_chars|].
  unfold FAT16Recover.final_name_of. apply strip_ends.
Qed.

Lemma final_name_is_sanitized_witness :
  32 <> 47 /\ 32 <> 92 /\ 32 <> 63.
Proof.
  apply (proj1 (final_name_is_sanitized []
                  (Samples.sfn_record "A? B/C  TXT" 0x20 2 5) false) 32).
  vm_compute. auto.
Defined.

Section DeletedNames.
Import Py FAT16Recover.

Lemma sanitize_keeps_head (c : Z) (s : str) :
  c <> 63 -> c <> 47 -> c <> 92 -> isspace c = false ->
  exists t, strip (replace 92 95 (replace 47 95 (replace 63 95 (c :: s))))
            = c :: t.
Proof.
  intros H1 H2 H3 Hs. unfold replace. cbn [map].
  destruct (Z.eqb_spec c 63); [contradiction|].
  destruct (Z.eqb_spec c 47); [contradiction|].
  destruct (Z.eqb_spec c 92); [contradiction|].
  rewrite (strip_keeps_head _ _ Hs). eauto.
Qed.

(** The short name of a deleted entry starts with the restored byte. *)
Lemma sfn_name_deleted_head (entry_data : bytes) :
  (11 <= List.length entry_data)%nat ->
  exists t, sfn_name entry_data true
            = (if byte_at entry_data 1 =? 0x5F then 0x2E else 0x5F) :: t.
Proof.
  intros Hlen.
  do 11 (destruct entry_data as [|? entry_data]; [simpl in Hlen; lia|]).
  unfold sfn_name.
  rewrite (slice_prefix _ 0x0B) by lia.
  change (Z.to_nat 0x0B) with 11%nat. cbn [firstn].
  change (1 <? len [b; b0; b1; b2; b3; b4; b5; b6; b7; b8; b9]) with true.
  cbn [andb nth]. unfold byte_at. cbn [nth].
  destruct (ord b0 =? 0x5F); cbn [set_first];
    rewrite (slice_prefix _ 8) by lia; change (Z.to_nat 8) with 8%nat;
    cbn [firstn decode_ascii_replace map];
    change (ord x2e <? 128) with true; change (ord x5f <? 128) with true;
    cbv iota;
    [change (ord x2e) with 0x2E | change (ord x5f) with 0x5F];
    rewrite rstrip_keeps_head by reflexivity;
    match goal with |- context [match ?e with [] => _ | _ :: _ => _ end] =>
      destruct e end; cbn [app]; eauto.
Qed.

End DeletedNames.

(** X13.  For a deleted entry with no pending long name, the resolved
    name starts with '.' when the second name byte is '_' (0x5F), and
    with '_' otherwise; the deletion marker 0xE5 is never part of the
    name. *)
Theorem deleted_name_prefix (entry_data : Py.bytes)
        (Hlen : List.length entry_data = 32%nat) :
  exists t,
    FAT16Recover.final_name_of [] entry_data true
    = (if FAT16Recover.byte_at entry_data 1 =? 0x5F then 0x2E else 0x5F) :: t.
Proof.
  destruct (sfn_name_deleted_head entry_data ltac:(lia)) as [t Ht].
  unfold FAT16Recover.final_name_of. cbn [FAT16Recover.lfn_name]. rewrite Ht.
  destruct (FAT16Recover.byte_at entry_data 1 =? 0x5F);
    apply sanitize_keeps_head; try lia; reflexivity.
Qed.

(** Scenario S6: bytes E5 5F 72 65 73 5F and spaces resolve to "._res_". *)
Lemma deleted_name_prefix_witness :
  exists t,
    FAT16Recover.final_name_of []
      (Samples.build 32
         [(0%nat, [xe5; x5f; x72; x65; x73; x5f; x20; x20; x20; x20; x20]);
          (11%nat, [x20])]) true
    = 0x2E :: t
    /\ 0x2E :: t = Py.lit "._res_".
Proof.
  destruct (deleted_name_prefix
              (Samples.build 32
                 [(0%nat, [xe5; x5f; x72; x65; x73; x5f; x20; x20; x20; x20; x20]);
                  (11%nat, [x20])]) eq_refl) as [t Ht].
  exists t. split; [exact Ht|].
  assert (E : FAT16Recover.final_name_of []
                (Samples.build 32
                   [(0%nat, [xe5; x5f; x72; x65; x73; x5f; x20; x20; x20; x20; x20]);
                    (11%nat, [x20])]) true = Py.lit "._res_")
    by (vm_compute; reflexivity).
  rewrite E in Ht. symmetry. exact Ht.
Defined.

(** ** The directory walker *)
Section WalkerFacts.
Import Py FAT16Recover WalkerShape.

Variable p : DiskParams.
Variable dir_path : str.

Lemma walk_entries_cons (dir_data : bytes) (i : nat) (rest : list nat)
      (lfn_fragments : list (Z * str)) :
  walk_entries p dir_path dir_data (i :: rest) lfn_fragments
  = let entry_data := record_at dir_data i in
    if byte_at entry_data 0 =? 0x00 then Ok []
    else if byte_at entry_data 0x0B =? LFN_ATTRIBUTES then
      if negb (byte_at entry_data 0 =? 0xE5) then
        walk_entries p dir_path dir_data rest
          (lfn_fragments
           ++ [(Z.land (byte_at entry_data 0) 0x1F, decode_lfn_fragment entry_data)])
      else walk_entries p dir_path dir_data rest lfn_fragments
    else
      a <- sfn_entry p dir_path lfn_fragments entry_data ;;
      others <- walk_entries p dir_path dir_data rest [] ;;
      Ok (match a with Some x => x :: others | None => others end).
Proof. reflexivity. Qed.

(** A record whose first byte is 0x00 ends the loop. *)
Lemma walk_entries_stop (dir_data : bytes) (i : nat) (post : list nat) :
  byte_at (record_at dir_data i) 0 = 0 ->
  forall pre lfn_fragments,
    walk_entries p dir_path dir_data (pre ++ i :: post) lfn_fragments
    = walk_entries p dir_path dir_data pre lfn_fragments.
Proof.
  intros Hz. induction pre as [|j pre IH]; intros frags.
  - cbn [app]. rewrite walk_entries_cons. cbv zeta. rewrite Hz. reflexivity.
  - cbn [app]. rewrite !walk_entries_cons. cbv zeta.
    destruct (byte_at (record_at dir_data j) 0 =? 0); [reflexivity|].
    destruct (byte_at (record_at dir_data j) 11 =? LFN_ATTRIBUTES).
    + destruct (negb (byte_at (record_at dir_data j) 0 =? 229)); apply IH.
    + destruct (sfn_entry p dir_path frags (record_at dir_data j));
        [|reflexivity].
      cbn [bind]. rewrite IH. reflexivity.
Qed.

(** The loop looks at the records of its indices only. *)
Lemma walk_entries_ext (d1 d2 : bytes) (indices : list nat) :
  (forall i, In i indices -> record_at d1 i = record_at d2 i) ->
  forall lfn_fragments,
    walk_entries p dir_path d1 indices lfn_fragments
    = walk_entries p dir_path d2 indices lfn_fragments.
Proof.
  induction indices as [|j indices IH]; intros Hrec frags; [reflexivity|].
  rewrite !walk_entries_cons. cbv zeta.
  rewrite <- (Hrec j (or_introl eq_refl)).
  assert (Hrest : forall i, In i indices -> record_at d1 i = record_at d2 i)
    by (intros i Hi; apply Hrec; right; exact Hi).
  destruct (byte_at (record_at d1 j) 0 =? 0); [reflexivity|].
  destruct (byte_at (record_at d1 j) 11 =? LFN_ATTRIBUTES).
  - destruct (negb (byte_at (record_at d1 j) 0 =? 229)); apply (IH Hrest).
  - destruct (sfn_entry p dir_path frags (record_at d1 j)); [|reflexivity].
    cbn [bind]. rewrite (IH Hrest). reflexivity.
Qed.

Lemma seq_split (k n : nat) :
  (k < n)%nat -> seq 0 n = seq 0 k ++ k :: seq (S k) (n - S k).
Proof.
  intros H. replace n with (k + S (n - S k))%nat at 1 by lia.
  rewrite seq_app. reflexivity.
Qed.

Lemma record_length (dir_data : bytes) (i : nat) :
  Z.of_nat i * 32 + 32 <= len dir_data ->
  List.length (record_at dir_data i) = 32%nat.
Proof.
  intros H. unfold record_at. rewrite slice_length by lia.
  replace (Z.of_nat i * 32 + 32 - Z.of_nat i * 32) with 32 by lia. reflexivity.
Qed.

Lemma path_join_tests (a b : str) :
  path_join a b
  = if match b with c :: _ => c =? 47 | [] => false end then b
    else match rev a with
         | [] => b
         | x :: _ => if x =? 47 then a ++ b else a ++ 47 :: b
         end.
Proof.
  assert (Hz : forall (x : Z) (X Y : str),
             match x with 47 => X | _ => Y end = if x =? 47 then X else Y).
  { intros x X Y. destruct x as [|q|q]; try reflexivity.
    do 6 (destruct q as [q|q|]; try reflexivity). }
  unfold path_join. destruct b as [|c b].
  - destruct (rev a) as [|x r]; [reflexivity|]. apply Hz.
  - rewrite <- (Hz c (c :: b)
                  (match rev a with
                   | [] => c :: b
                   | x :: _ => if x =? 47 then a ++ c :: b else a ++ 47 :: c :: b
                   end)).
    destruct (rev a) as [|x r]; [reflexivity|].
    rewrite <- (Hz x (a ++ c :: b) (a ++ 47 :: c :: b)). reflexivity.
Qed.

Lemma path_join_head (name : str) :
  hd_error dir_path <> Some 47 -> ~ In 47 name ->
  hd_error (path_join dir_path name) <> Some 47.
Proof.
  intros Hd Hn. rewrite path_join_tests.
  assert (Hname : match name with c :: _ => c =? 47 | [] => false end = false).
  { destruct name as [|c name]; [reflexivity|].
    apply Z.eqb_neq. intros ->. apply Hn. left. reflexivity. }
  rewrite Hname.
  destruct (rev dir_path) as [|x r] eqn:E.
  - destruct name as [|c name]; [discriminate|].
    simpl. intros [= ->]. apply Hn. left. reflexivity.
  - destruct dir_path as [|y d]; [discriminate|].
    destruct (x =? 47); exact Hd.
Qed.

Lemma recovery_dir_join (b : str) :
  hd_error b <> Some 47 -> path_join RECOVERY_DIR b = RECOVERY_DIR ++ 47 :: b.
Proof.
  intros Hb. rewrite path_join_tests.
  assert (Hh : match b with c :: _ => c =? 47 | [] => false end = false).
  { destruct b as [|c b]; [reflexivity|].
    apply Z.eqb_neq. intros ->. apply Hb. reflexivity. }
  rewrite Hh. reflexivity.
Qed.

End WalkerFacts.

Section WalkerActions.
Import Py FAT16Recover WalkerShape.

Variable p : DiskParams.
Variable dir_path : str.

Lemma sfn_action_ok (final_name : str) (is_dir : bool)
      (start_cluster file_size : Z) (a : action) :
  hd_error dir_path <> Some 47 ->
  ~ In 47 final_name -> ~ In 92 final_name ->
  0 <= start_cluster < 65536 -> 0 <= file_size < 2 ^ 32 ->
  sfn_action p dir_path final_name is_dir start_cluster file_size = Some a ->
  action_ok p dir_path a.
Proof.
  intros Hd H47 H92 Hc Hn. unfold sfn_action.
  destruct (str_eqb final_name (lit ".")) eqn:E1; [discriminate|].
  destruct (str_eqb final_name (lit "..")) eqn:E2; [discriminate|].
  cbn [orb].
  assert (Hcomp : component final_name).
  { repeat split; auto; intros H; apply str_eqb_eq in H; congruence. }
  pose proof (path_join_head dir_path final_name Hd H47) as Hhead.
  destruct is_dir.
  - destruct (Z.ltb_spec start_cluster 2); [discriminate|].
    intros [= <-]. cbn [action_ok]. split; [exists start_cluster; split; [lia|reflexivity]|].
    split; [exact Hhead|]. split; [apply recovery_dir_join; exact Hhead|].
    exists final_name. auto.
  - destruct (Z.gtb_spec file_size 0); [|discriminate].
    destruct (Z.geb_spec start_cluster 2); [|discriminate].
    cbn [andb]. intros [= <-]. cbn [action_ok].
    split; [lia|]. split; [lia|]. exists final_name. split; [exact Hcomp|].
    apply recovery_dir_join. exact Hhead.
Qed.

Lemma sfn_entry_total (lfn_fragments : list (Z * str)) (entry_data : bytes) :
  List.length entry_data = 32%nat ->
  exists r, sfn_entry p dir_path lfn_fragments entry_data = Ok r
            /\ (hd_error dir_path <> Some 47 ->
                forall a, r = Some a -> action_ok p dir_path a).
Proof.
  intros Hlen. destruct (entry_fields entry_data Hlen) as (HI & HH & Hsize).
  unfold sfn_entry. rewrite HI, HH. cbn [bind]. eexists. split; [reflexivity|].
  intros Hd a Ha.
  apply (sfn_action_ok _ _ _ _ a Hd) in Ha; [exact Ha| | | |].
  - intros H. apply final_name_of_chars in H. lia.
  - intros H. apply final_name_of_chars in H. lia.
  - apply le_uint_two. rewrite slice_length by (unfold len; lia). reflexivity.
  - pose proof (le_uint_bound (slice entry_data 0x1C 0x20)) as Hb.
    unfold len in Hb. rewrite slice_length in Hb by (unfold len; lia).
    exact Hb.
Qed.

Lemma walk_entries_total (dir_data : bytes) (indices : list nat) :
  (forall i, In i indices -> Z.of_nat i * 32 + 32 <= len dir_data) ->
  forall lfn_fragments,
    exists acts,
      walk_entries p dir_path dir_data indices lfn_fragments = Ok acts
      /\ (List.length acts <= List.length indices)%nat
      /\ (hd_error dir_path <> Some 47 -> Forall (action_ok p dir_path) acts).
Proof.
  induction indices as [|j indices IH]; intros Hin frags.
  - exists []. repeat split; auto.
  - assert (Hrest : forall i, In i indices -> Z.of_nat i * 32 + 32 <= len dir_data)
      by (intros i Hi; apply Hin; right; exact Hi).
    specialize (IH Hrest).
    rewrite walk_entries_cons. cbv zeta.
    destruct (byte_at (record_at dir_data j) 0 =? 0).
    { exists []. repeat split; auto. simpl. lia. }
    destruct (byte_at (record_at dir_data j) 11 =? LFN_ATTRIBUTES).
    + destruct (negb (byte_at (record_at dir_data j) 0 =? 229)).
      * destruct (IH (frags ++ [(Z.land (byte_at (record_at dir_data j) 0) 31,
                                 decode_lfn_fragment (record_at dir_data j))]))
          as (acts & -> & Hl & Hok).
        exists acts. repeat split; auto. simpl. lia.
      * destruct (IH frags) as (acts & -> & Hl & Hok).
        exists acts. repeat split; auto. simpl. lia.
    + destruct (sfn_entry_total frags (record_at dir_data j)) as (r & -> & Hr).
      { apply record_length. apply Hin. left. reflexivity. }
      destruct (IH []) as (acts & -> & Hl & Hok). cbn [bind].
      destruct r as [a|].
      * exists (a :: acts). split; [reflexivity|]. split; [simpl; lia|].
        intros Hd. constructor; [apply (Hr Hd); reflexivity|apply Hok; exact Hd].
      * exists acts. split; [reflexivity|]. split; [simpl; lia|exact Hok].
Qed.

Lemma directory_actions_total (image : bytes) (start_lba : Z) :
  exists acts,
    directory_actions image p start_lba dir_path = Ok acts
    /\ (hd_error dir_path <> Some 47 -> Forall (action_ok p dir_path) acts).
Proof.
  unfold directory_actions.
  destruct (read_sector image start_lba _) as [[|b data]|].
  - exists []. split; [reflexivity|constructor].
  - cbn [not_].
    destruct (walk_entries_total (b :: data)
                (seq 0 (Z.to_nat (len (b :: data) / 32)))) with (lfn_fragments := @nil (Z * str))
      as (acts & -> & _ & Hok).
    + intros i Hi. apply in_seq in Hi.
      pose proof (len_nonneg (b :: data)).
      assert (Z.of_nat i < len (b :: data) / 32) by lia.
      pose proof (Z.mul_div_le (len (b :: data)) 32 ltac:(lia)). lia.
    + exists acts. auto.
  - exists []. split; [reflexivity|constructor].
Qed.

End WalkerActions.

(** X14.  A record whose first byte is 0x00 ends a directory: the
    records that follow it are not looked at.  Two directory blocks that
    hold the same records up to such an end marker give the same
    actions, whatever follows the marker and however long the blocks
    are. *)
Theorem walk_entries_end_marker
        (p : FAT16Recover.DiskParams) (dir_path : Py.str)
        (d1 d2 : Py.bytes) (k n1 n2 : nat)
        (Hk1 : (k < n1)%nat) (Hk2 : (k < n2)%nat)
        (Hsame : forall i, (i <= k)%nat ->
                           WalkerShape.record_at d1 i = WalkerShape.record_at d2 i)
        (Hend : FAT16Recover.byte_at (WalkerShape.record_at d1 k) 0 = 0) :
  FAT16Recover.walk_entries p dir_path d1 (seq 0 n1) []
  = FAT16Recover.walk_entries p dir_path d2 (seq 0 n2) [].
Proof.
  rewrite (seq_split k n1 Hk1), (seq_split k n2 Hk2).
  rewrite (walk_entries_stop p dir_path d1 k _ Hend).
  rewrite (walk_entries_stop p dir_path d2 k _)
    by (rewrite <- (Hsame k (le_n k)); exact Hend).
  apply walk_entries_ext. intros i Hi. apply in_seq in Hi.
  apply Hsame. lia.
Qed.

Lemma walk_entries_end_marker_witness :
  FAT16Recover.walk_entries Samples.params [] Samples.root_sector (seq 0 16) []
  = FAT16Recover.walk_entries Samples.params []
      (firstn 224 Samples.root_sector ++ repeat xff 32) (seq 0 7) [].
Proof.
  apply (walk_entries_end_marker Samples.params [] Samples.root_sector
           (firstn 224 Samples.root_sector ++ repeat xff 32) 6 16 7).
  - lia.
  - lia.
  - intros i Hi.
    do 7 (destruct i as [|i]; [vm_compute; reflexivity|]). lia.
  - vm_compute. reflexivity.
Defined.

(** X15.  One activation of the directory walker raises nothing,
    whatever the image holds: every record it looks at has 32 bytes, so
    no [struct.unpack] fails; an unreadable directory gives no action. *)
Theorem directory_actions_never_raise
        (image : Py.bytes) (p : FAT16Recover.DiskParams)
        (start_lba : Z) (dir_path : Py.str) :
  (exists acts,
     FAT16Recover.directory_actions image p start_lba dir_path = Py.Ok acts)
  /\ (FAT16Recover.not_
        (FAT16Recover.read_sector image start_lba
           (if start_lba =? FAT16Recover.ROOT_DIR_START_LBA p
            then FAT16Recover.ROOT_DIR_SECTORS p
            else FAT16Recover.SECTORS_PER_CLUSTER p)) = true ->
      FAT16Recover.directory_actions image p start_lba dir_path = Py.Ok []).
Proof.
  split.
  - destruct (directory_actions_total p dir_path image start_lba)
      as (acts & H & _). eauto.
  - unfold FAT16Recover.directory_actions.
    destruct (FAT16Recover.read_sector image start_lba _) as [[|b d]|];
      try reflexivity. discriminate.
Qed.

Lemma directory_actions_never_raise_witness :
  FAT16Recover.directory_actions Samples.image Samples.params 100 [] = Py.Ok [].
Proof.
  apply (proj2 (directory_actions_never_raise Samples.image Samples.params 100 [])).
  vm_compute. reflexivity.
Defined.

(** X16.  Every action of the walker is well formed.  In a directory
    whose path does not start with '/', a file is handed to
    [recover_file] only with a start cluster in 2..65535 and a size in
    1..2^32-1, and a directory is entered only at the first sector of a
    cluster in 2..65535; the name used is one path component, not "."
    and not ".." and without '/' or backslash; every host path is
    "RECOVERED_DATA/" followed by the path inside the volume, and the
    path handed to the recursive call again does not start with '/'. *)
Theorem directory_actions_well_formed
        (image : Py.bytes) (p : FAT16Recover.DiskParams)
        (start_lba : Z) (dir_path : Py.str) (acts : list FAT16Recover.action)
        (Hpath : hd_error dir_path <> Some 47)
        (Hacts : FAT16Recover.directory_actions image p start_lba dir_path
                 = Py.Ok acts) :
  Forall (WalkerShape.action_ok p dir_path) acts.
Proof.
  destruct (directory_actions_total p dir_path image start_lba)
    as (acts' & H & Hok).
  rewrite H in Hacts. injection Hacts as <-. exact (Hok Hpath).
Qed.

Lemma directory_actions_well_formed_witness :
  Forall (WalkerShape.action_ok Samples.params [])
    [FAT16Recover.RecoverFile 2 600 (Py.lit "RECOVERED_DATA/hello.txt");
     FAT16Recover.RecoverFile 2 5 (Py.lit "RECOVERED_DATA/LABEL");
     FAT16Recover.EnterDirectory (Py.lit "RECOVERED_DATA/VOLDIR") 5
       (Py.lit "VOLDIR")].
Proof.
  apply (directory_actions_well_formed Samples.image Samples.params 3 []).
  - discriminate.
  - vm_compute. reflexivity.
Defined.

(** ** The stand-alone MBR report *)
Section MbrFacts.
Import Py MbrShape.

Lemma le_uint_slice_bound (l : bytes) (a b : Z) :
  0 <= a -> a <= b -> b <= len l ->
  0 <= le_uint (slice l a b) < 256 ^ (b - a).
Proof.
  intros Ha Hab Hb. pose proof (le_uint_bound (slice l a b)) as H.
  unfold len in H. rewrite slice_length in H by assumption.
  rewrite Z2Nat.id in H by lia. exact H.
Qed.

Lemma parse_entries_slots (table : bytes) (indices : list Z) :
  List.length table = 64%nat -> Forall (fun i => 0 <= i <= 3) indices ->
  exists parts,
    MBR.parse_entries table indices = Ok parts
    /\ map MBR.index parts
       = map (fun i => i + 1)
             (filter (used table) indices)
    /\ Forall partition_in_range parts.
Proof.
  intros Ht. induction 1 as [|i indices Hi _ (parts & IH & Hidx & Hall)].
  - exists []. repeat split; constructor.
  - cbn [MBR.parse_entries filter]. unfold used at 1.
    fold (slot table i).
    destruct (MBR.all_zero (slot table i)) eqn:Hz; cbn [negb].
    + exists parts. auto.
    + assert (Hlen : List.length (slot table i) = 16%nat).
      { unfold slot.
        rewrite slice_length by (unfold MBR.PARTITION_ENTRY_SIZE, len; lia).
        unfold MBR.PARTITION_ENTRY_SIZE. lia. }
      unfold FAT16Recover.unpack_partition_entry. rewrite Hlen.
      cbn [Nat.eqb bind]. rewrite IH. cbn [bind].
      eexists. split; [reflexivity|]. cbn [map MBR.index].
      split; [now rewrite Hidx|]. constructor; [|exact Hall].
      unfold partition_in_range.
      cbn [MBR.index MBR.type_id MBR.start_lba MBR.size_sectors MBR.size_bytes].
      pose proof (le_uint_slice_bound (slot table i) 4 5) as H1.
      pose proof (le_uint_slice_bound (slot table i) 8 12) as H2.
      pose proof (le_uint_slice_bound (slot table i) 12 16) as H3.
      unfold len in H1, H2, H3. rewrite Hlen in H1, H2, H3.
      specialize (H1 ltac:(lia) ltac:(lia) ltac:(lia)).
      specialize (H2 ltac:(lia) ltac:(lia) ltac:(lia)).
      specialize (H3 ltac:(lia) ltac:(lia) ltac:(lia)).
      change (256 ^ (5 - 4)) with 256 in H1.
      change (12 - 8) with 4 in H2. change (16 - 12) with 4 in H3.
      change (256 ^ 4) with (2 ^ 32) in H2, H3.
      repeat split; lia.
Qed.

End MbrFacts.

(** X17.  [parse_mbr] of MBR.py refuses any input that is not exactly
    512 bytes long with a ValueError.  On 512 bytes it raises nothing,
    whatever the signature is, and lists exactly the slots of the
    partition table that are not all zero, in slot order, numbered from
    1; there are at most four, and every decoded field lies in the range
    of its on-disk width, with the size in bytes 512 times the sector
    count. *)
Theorem parse_mbr_lists_used_slots (mbr_data : Py.bytes) :
  (Py.len mbr_data <> 512 -> MBR.parse_mbr mbr_data = Py.Raise Py.ValueError)
  /\ (Py.len mbr_data = 512 ->
      exists r,
        MBR.parse_mbr mbr_data = Py.Ok r
        /\ map MBR.index (MBR.partitions r)
           = map (fun i => i + 1)
               (filter (MbrShape.used
                          (Py.slice mbr_data MBR.PARTITION_TABLE_OFFSET
                                    MBR.SIGNATURE_OFFSET))
                       [0; 1; 2; 3])
        /\ Forall MbrShape.partition_in_range (MBR.partitions r)
        /\ (List.length (MBR.partitions r) <= 4)%nat).
Proof.
  unfold MBR.parse_mbr, MBR.MBR_SIZE. split.
  - intros H. destruct (Z.eqb_spec (Py.len mbr_data) 512); [contradiction|].
    reflexivity.
  - intros H. destruct (Z.eqb_spec (Py.len mbr_data) 512); [|contradiction].
    cbn [negb].
    destruct (parse_entries_slots
                (Py.slice mbr_data MBR.PARTITION_TABLE_OFFSET MBR.SIGNATURE_OFFSET)
                [0; 1; 2; 3]) as (parts & -> & Hidx & Hall).
    + rewrite slice_length;
        unfold MBR.PARTITION_TABLE_OFFSET, MBR.SIGNATURE_OFFSET; lia.
    + repeat constructor; lia.
    + cbn [Py.bind]. eexists. split; [reflexivity|]. cbn [MBR.partitions].
      split; [exact Hidx|]. split; [exact Hall|].
      apply (f_equal (@List.length Z)) in Hidx. rewrite !length_map in Hidx.
      rewrite Hidx.
      apply (Nat.le_trans _ _ _ (filter_length_le _ _)). simpl. lia.
Qed.

(** Scenario S1: one used slot, with start LBA 1 in the sample image. *)
Lemma parse_mbr_lists_used_slots_witness :
  exists r,
    MBR.parse_mbr (firstn 512 Samples.image) = Py.Ok r
    /\ map MBR.index (MBR.partitions r) = [1].
Proof.
  destruct (proj2 (parse_mbr_lists_used_slots (firstn 512 Samples.image)))
    as (r & Hr & Hidx & _).
  - vm_compute. reflexivity.
  - exists r. split; [exact Hr|]. rewrite Hidx. vm_compute. reflexivity.
Defined.

(** ** The stand-alone boot-sector report *)
Section BootFacts.
Import Py.

Lemma boot_reader_is_read_sector (image : bytes) (lba : Z) :
  Boot.read_boot_sector_from_file image lba = FAT16Recover.read_sector image lba 1.
Proof.
  unfold Boot.read_boot_sector_from_file, FAT16Recover.read_sector,
    Boot.BOOT_SECTOR_SIZE, FAT16Recover.SECTOR_SIZE.
  change (512 * 1) with 512.
  destruct (lba * 512 <? 0); [reflexivity|].
  destruct (len (firstn (Z.to_nat 512) (skipn (Z.to_nat (lba * 512)) image))
            =? 512); reflexivity.
Qed.

(** The result of the boot-sector decoder on 512 bytes with a non-zero
    sector size. *)
Lemma parse_boot_ok (boot_data : bytes) (lba : Z) :
  List.length boot_data = 512%nat -> Geometry.bytes_per_sector boot_data <> 0 ->
  exists total,
    Boot.parse_fat16_boot_sector boot_data lba
    = Ok {| Boot.signature_valid := Geometry.signature_ok boot_data;
            Boot.params :=
              {| Boot.bytes_per_sector := Geometry.bytes_per_sector boot_data;
                 Boot.sectors_per_cluster := Geometry.sectors_per_cluster boot_data;
                 Boot.reserved_sectors := Geometry.reserved_sectors boot_data;
                 Boot.num_fats := Geometry.num_fats boot_data;
                 Boot.root_entry_count := Geometry.root_entries boot_data;
                 Boot.root_size_bytes := Geometry.root_entries boot_data * 32;
                 Boot.root_size_sectors :=
                   (Geometry.root_entries boot_data * 32
                    + Geometry.bytes_per_sector boot_data - 1)
                   / Geometry.bytes_per_sector boot_data;
                 Boot.fat_size_sectors := Geometry.fat_size_sectors boot_data;
                 Boot.total_sectors := total;
                 Boot.first_fat_sector := lba + Geometry.reserved_sectors boot_data;
                 Boot.root_dir_sector :=
                   lba + Geometry.reserved_sectors boot_data
                   + Geometry.num_fats boot_data
                     * Geometry.fat_size_sectors boot_data;
                 Boot.data_region_sector :=
                   lba + Geometry.reserved_sectors boot_data
                   + Geometry.num_fats boot_data
                     * Geometry.fat_size_sectors boot_data
                   + (Geometry.root_entries boot_data * 32
                      + Geometry.bytes_per_sector boot_data - 1)
                     / Geometry.bytes_per_sector boot_data |} |}
    /\ total = (if negb (le_uint (slice boot_data 0x13 0x15) =? 0)
                then le_uint (slice boot_data 0x13 0x15)
                else le_uint (slice boot_data 0x20 0x24)).
Proof.
  intros L Hbps. unfold Boot.parse_fat16_boot_sector, Boot.BOOT_SECTOR_SIZE.
  destruct (Z.eqb_spec (len boot_data) 512) as [_|Hne];
    [|unfold len in Hne; lia].
  cbn [negb].
  unfold unpack_H, unpack_B, unpack_I, Boot.OFS_SECTOR_SIZE,
    Boot.OFS_CLUSTER_SIZE, Boot.OFS_RESERVED_COUNT, Boot.OFS_NUM_FATS,
    Boot.OFS_ROOT_ENTRIES, Boot.OFS_FAT_SIZE, Boot.OFS_TOTAL_SECTORS_SMALL,
    Boot.OFS_TOTAL_SECTORS_LARGE, Boot.SIGNATURE_OFFSET, Boot.SIGNATURE.
  rewrite (unpack_field boot_data 0x0B (0x0B + 2) 2 L),
    (unpack_field boot_data 0x0D (0x0D + 1) 1 L),
    (unpack_field boot_data 0x0E (0x0E + 2) 2 L),
    (unpack_field boot_data 0x10 (0x10 + 1) 1 L),
    (unpack_field boot_data 0x11 (0x11 + 2) 2 L) by lia.
  cbn [bind]. unfold Boot.floordiv.
  change (0x0B + 2) with 0x0D. change (0x0D + 1) with 0x0E.
  change (0x0E + 2) with 0x10. change (0x10 + 1) with 0x11.
  change (0x11 + 2) with 0x13.
  fold (Geometry.bytes_per_sector boot_data)
       (Geometry.sectors_per_cluster boot_data)
       (Geometry.reserved_sectors boot_data) (Geometry.num_fats boot_data)
       (Geometry.root_entries boot_data).
  destruct (Z.eqb_spec (Geometry.bytes_per_sector boot_data) 0);
    [contradiction|].
  cbn [bind].
  rewrite (unpack_field boot_data 0x16 (0x16 + 2) 2 L),
    (unpack_field boot_data 0x13 (0x13 + 2) 2 L) by lia.
  cbn [bind]. change (0x16 + 2) with 0x18. change (0x13 + 2) with 0x15.
  change (510 + 2) with 0x200.
  fold (Geometry.fat_size_sectors boot_data) (Geometry.signature_ok boot_data).
  destruct (negb (le_uint (slice boot_data 0x13 0x15) =? 0)) eqn:Hs.
  - cbn [bind]. eexists. split; [reflexivity|reflexivity].
  - rewrite (unpack_field boot_data 0x20 (0x20 + 4) 4 L) by lia. cbn [bind].
    eexists. split; [reflexivity|reflexivity].
Qed.

Lemma parse_boot_value_error (boot_data : bytes) (lba : Z) :
  len boot_data <> 512 ->
  Boot.parse_fat16_boot_sector boot_data lba = Raise ValueError.
Proof.
  intros H. unfold Boot.parse_fat16_boot_sector, Boot.BOOT_SECTOR_SIZE.
  destruct (Z.eqb_spec (len boot_data) 512); [contradiction|reflexivity].
Qed.

Lemma parse_boot_zero_division (boot_data : bytes) (lba : Z) :
  len boot_data = 512 -> Geometry.bytes_per_sector boot_data = 0 ->
  Boot.parse_fat16_boot_sector boot_data lba = Raise ZeroDivisionError.
Proof.
  intros H Hz. unfold Boot.parse_fat16_boot_sector, Boot.BOOT_SECTOR_SIZE.
  destruct (Z.eqb_spec (len boot_data) 512); [|contradiction]. cbn [negb].
  assert (L : List.length boot_data = 512%nat) by (unfold len in H; lia).
  unfold unpack_H, unpack_B, Boot.OFS_SECTOR_SIZE, Boot.OFS_CLUSTER_SIZE,
    Boot.OFS_RESERVED_COUNT, Boot.OFS_NUM_FATS, Boot.OFS_ROOT_ENTRIES.
  rewrite (unpack_field boot_data 0x0B (0x0B + 2) 2 L),
    (unpack_field boot_data 0x0D (0x0D + 1) 1 L),
    (unpack_field boot_data 0x0E (0x0E + 2) 2 L),
    (unpack_field boot_data 0x10 (0x10 + 1) 1 L),
    (unpack_field boot_data 0x11 (0x11 + 2) 2 L) by lia.
  cbn [bind]. unfold Boot.floordiv. change (0x0B + 2) with 0x0D.
  fold (Geometry.bytes_per_sector boot_data). rewrite Hz. reflexivity.
Qed.

Lemma ceil_div_bounds (a b : Z) :
  0 <= a -> 0 < b ->
  a <= (a + b - 1) / b * b < a + b.
Proof.
  intros Ha Hb.
  pose proof (Z.div_mod (a + b - 1) b ltac:(lia)) as Hdm.
  pose proof (Z.mod_pos_bound (a + b - 1) b Hb) as Hm. nia.
Qed.

End BootFacts.

(** X18.  [parse_fat16_boot_sector] of Boot.py refuses input that is
    not exactly 512 bytes long with a ValueError; on 512 bytes whose
    sector-size field (offset 0x0B) is zero it fails with a
    ZeroDivisionError; on any other 512 bytes it returns, whatever the
    signature and the other fields are. *)
Theorem parse_fat16_boot_sector_errors (boot_data : Py.bytes) (lba : Z) :
  (Py.len boot_data <> 512 ->
   Boot.parse_fat16_boot_sector boot_data lba = Py.Raise Py.ValueError)
  /\ (Py.len boot_data = 512 -> Geometry.bytes_per_sector boot_data = 0 ->
      Boot.parse_fat16_boot_sector boot_data lba
      = Py.Raise Py.ZeroDivisionError)
  /\ (Py.len boot_data = 512 -> Geometry.bytes_per_sector boot_data <> 0 ->
      exists r, Boot.parse_fat16_boot_sector boot_data lba = Py.Ok r).
Proof.
  split; [|split].
  - apply parse_boot_value_error.
  - apply parse_boot_zero_division.
  - intros H Hnz.
    destruct (parse_boot_ok boot_data lba) as (total & Hr & _);
      [unfold Py.len in H; lia|exact Hnz|]. eauto.
Qed.

Lemma parse_fat16_boot_sector_errors_witness :
  Boot.parse_fat16_boot_sector (firstn 512 (skipn 512 Samples.image_badgeom)) 1
  = Py.Raise Py.ZeroDivisionError.
Proof.
  apply (proj1 (proj2 (parse_fat16_boot_sector_errors
                         (firstn 512 (skipn 512 Samples.image_badgeom)) 1)));
    vm_compute; reflexivity.
Defined.

(** X19.  What [parse_fat16_boot_sector] returns is consistent: the
    root directory size in sectors is the byte size divided by the
    sector size and rounded up, the first FAT starts [reserved_sectors]
    after the partition start, the root directory follows the FAT
    copies and the data region follows the root directory, in
    non-decreasing order; and the total sector count is the 16-bit field
    unless that is zero. *)
Theorem parse_fat16_boot_sector_layout
        (boot_data : Py.bytes) (lba : Z) (r : Boot.boot_result)
        (Hparse : Boot.parse_fat16_boot_sector boot_data lba = Py.Ok r) :
  let q := Boot.params r in
  0 < Boot.bytes_per_sector q
  /\ Boot.root_size_bytes q = Boot.root_entry_count q * 32
  /\ (Boot.root_size_bytes q
      <= Boot.root_size_sectors q * Boot.bytes_per_sector q
      < Boot.root_size_bytes q + Boot.bytes_per_sector q)
  /\ Boot.first_fat_sector q = lba + Boot.reserved_sectors q
  /\ Boot.root_dir_sector q
     = Boot.first_fat_sector q + Boot.num_fats q * Boot.fat_size_sectors q
  /\ Boot.data_region_sector q = Boot.root_dir_sector q + Boot.root_size_sectors q
  /\ (Boot.first_fat_sector q <= Boot.root_dir_sector q
      <= Boot.data_region_sector q)
  /\ Boot.total_sectors q
     = (if Py.le_uint (Py.slice boot_data 0x13 0x15) =? 0
        then Py.le_uint (Py.slice boot_data 0x20 0x24)
        else Py.le_uint (Py.slice boot_data 0x13 0x15)).
Proof.
  destruct (Z.eq_dec (Py.len boot_data) 512) as [Hlen|Hlen].
  2:{ rewrite (parse_boot_value_error boot_data lba Hlen) in Hparse.
      discriminate. }
  destruct (Z.eq_dec (Geometry.bytes_per_sector boot_data) 0) as [Hz|Hnz].
  { rewrite (parse_boot_zero_division boot_data lba Hlen Hz) in Hparse.
    discriminate. }
  assert (L : List.length boot_data = 512%nat) by (unfold Py.len in Hlen; lia).
  destruct (parse_boot_ok boot_data lba L Hnz) as (total & Hr & Htot).
  rewrite Hr in Hparse. injection Hparse as <-. cbv zeta.
  cbn [Boot.params Boot.bytes_per_sector Boot.root_size_bytes
       Boot.root_entry_count Boot.root_size_sectors Boot.first_fat_sector
       Boot.reserved_sectors Boot.root_dir_sector Boot.num_fats
       Boot.fat_size_sectors Boot.data_region_sector Boot.total_sectors].
  pose proof (field_bound boot_data 0x0B 0x0D L ltac:(lia) ltac:(lia) ltac:(lia))
    as Hb.
  pose proof (field_bound boot_data 0x10 0x11 L ltac:(lia) ltac:(lia) ltac:(lia))
    as Hn.
  pose proof (field_bound boot_data 0x11 0x13 L ltac:(lia) ltac:(lia) ltac:(lia))
    as He.
  pose proof (field_bound boot_data 0x16 0x18 L ltac:(lia) ltac:(lia) ltac:(lia))
    as Hf.
  fold (Geometry.bytes_per_sector boot_data) in Hb.
  fold (Geometry.num_fats boot_data) in Hn.
  fold (Geometry.root_entries boot_data) in He.
  fold (Geometry.fat_size_sectors boot_data) in Hf.
  assert (Hpos : 0 < Geometry.bytes_per_sector boot_data) by lia.
  pose proof (ceil_div_bounds (Geometry.root_entries boot_data * 32)
                (Geometry.bytes_per_sector boot_data) ltac:(lia) Hpos) as Hc.
  assert (Hq : 0 <= (Geometry.root_entries boot_data * 32
                     + Geometry.bytes_per_sector boot_data - 1)
                    / Geometry.bytes_per_sector boot_data)
    by (apply Z.div_pos; lia).
  assert (Hprod : 0 <= Geometry.num_fats boot_data
                       * Geometry.fat_size_sectors boot_data) by nia.
  split; [exact Hpos|]. split; [reflexivity|]. split; [exact Hc|].
  split; [reflexivity|]. split; [reflexivity|]. split; [reflexivity|].
  split; [lia|]. rewrite Htot.
  destruct (Py.le_uint (Py.slice boot_data 0x13 0x15) =? 0); reflexivity.
Qed.

Lemma parse_fat16_boot_sector_layout_witness :
  exists r,
    Boot.parse_fat16_boot_sector (firstn 512 (skipn 512 Samples.image)) 1
    = Py.Ok r
    /\ Boot.data_region_sector (Boot.params r)
       = Boot.root_dir_sector (Boot.params r)
         + Boot.root_size_sectors (Boot.params r).
Proof.
  destruct (Boot.parse_fat16_boot_sector (firstn 512 (skipn 512 Samples.image)) 1)
    as [r|e] eqn:E; [|vm_compute in E; discriminate].
  exists r. split; [reflexivity|].
  apply (parse_fat16_boot_sector_layout
           (firstn 512 (skipn 512 Samples.image)) 1 r E).
Defined.

(** X20.  The readers of the three files agree: the boot-sector reader
    of Boot.py returns what [read_sector] returns for one sector at the
    same LBA, and the MBR reader of MBR.py returns what [read_sector]
    returns for sector 0. *)
Theorem sector_readers_agree (image : Py.bytes) (lba : Z) :
  Boot.read_boot_sector_from_file image lba
  = FAT16Recover.read_sector image lba 1
  /\ MBR.read_mbr_from_file image = FAT16Recover.read_sector image 0 1.
Proof.
  split; [apply boot_reader_is_read_sector|].
  rewrite read_mbr_from_file_spec, read_sector_first. reflexivity.
Qed.

(** X21.  The stand-alone boot-sector report and volume setup agree on
    the layout.  When setup succeeds and the boot sector, read and
    decoded by Boot.py at the partition start that setup found, declares
    512 bytes per sector, every layout value of the report equals the
    global that setup computed. *)
Theorem boot_report_agrees_with_setup
        (image : Py.bytes) (p : FAT16Recover.DiskParams)
        (boot_data : Py.bytes) (r : Boot.boot_result)
        (Hsetup : FAT16Recover.setup_disk_params image
                  = Py.Ok (FAT16Recover.SetupTrue p))
        (Hread : Boot.read_boot_sector_from_file image
                   (FAT16Recover.PARTITION_START_LBA p) = Some boot_data)
        (Hparse : Boot.parse_fat16_boot_sector boot_data
                    (FAT16Recover.PARTITION_START_LBA p) = Py.Ok r)
        (Hbps : Boot.bytes_per_sector (Boot.params r) = 512) :
  Boot.sectors_per_cluster (Boot.params r) = FAT16Recover.SECTORS_PER_CLUSTER p
  /\ Boot.reserved_sectors (Boot.params r) = FAT16Recover.RESERVED_SECTORS p
  /\ Boot.num_fats (Boot.params r) = FAT16Recover.NUM_FATS p
  /\ Boot.fat_size_sectors (Boot.params r) = FAT16Recover.FAT_SIZE_SECTORS p
  /\ Boot.root_size_sectors (Boot.params r) = FAT16Recover.ROOT_DIR_SECTORS p
  /\ Boot.first_fat_sector (Boot.params r) = FAT16Recover.FAT1_START_LBA p
  /\ Boot.root_dir_sector (Boot.params r) = FAT16Recover.ROOT_DIR_START_LBA p
  /\ Boot.data_region_sector (Boot.params r)
     = FAT16Recover.DATA_REGION_START_LBA p.
Proof.
  destruct (setup_true_inv image p Hsetup)
    as (mbr & vbr & b & l & Hmbr & _ & Hvbr & _ & ->).
  cbn [Geometry.geometry FAT16Recover.PARTITION_START_LBA] in Hread, Hparse.
  rewrite boot_reader_is_read_sector, Hvbr in Hread.
  injection Hread as <-.
  destruct (sector_nonempty _ _ _ Hvbr) as [L _].
  destruct (Z.eq_dec (Geometry.bytes_per_sector vbr) 0) as [Hz|Hnz].
  { rewrite (parse_boot_zero_division vbr _) in Hparse;
      [discriminate|unfold Py.len; lia|exact Hz]. }
  destruct (parse_boot_ok vbr (Geometry.partition_start mbr) L Hnz)
    as (total & Hr & _).
  rewrite Hr in Hparse. injection Hparse as <-.
  cbn [Boot.params Boot.bytes_per_sector] in Hbps.
  cbn [Boot.params Boot.sectors_per_cluster Boot.reserved_sectors Boot.num_fats
       Boot.fat_size_sectors Boot.root_size_sectors Boot.first_fat_sector
       Boot.root_dir_sector Boot.data_region_sector].
  unfold Geometry.geometry, Geometry.fat1_start, FAT16Recover.SECTOR_SIZE.
  cbn [FAT16Recover.SECTORS_PER_CLUSTER FAT16Recover.RESERVED_SECTORS
       FAT16Recover.NUM_FATS FAT16Recover.FAT_SIZE_SECTORS
       FAT16Recover.ROOT_DIR_SECTORS FAT16Recover.FAT1_START_LBA
       FAT16Recover.ROOT_DIR_START_LBA FAT16Recover.DATA_REGION_START_LBA].
  rewrite Hbps. repeat split; reflexivity.
Qed.

Lemma boot_report_agrees_with_setup_witness :
  exists r,
    Boot.parse_fat16_boot_sector (firstn 512 (skipn 512 Samples.image)) 1
    = Py.Ok r
    /\ Boot.data_region_sector (Boot.params r)
       = FAT16Recover.DATA_REGION_START_LBA Samples.params.
Proof.
  destruct (Boot.parse_fat16_boot_sector (firstn 512 (skipn 512 Samples.image)) 1)
    as [r|e] eqn:E; [|vm_compute in E; discriminate].
  exists r. split; [reflexivity|].
  apply (boot_report_agrees_with_setup Samples.image Samples.params
           (firstn 512 (skipn 512 Samples.image)) r).
  - vm_compute. reflexivity.
  - vm_compute. reflexivity.
  - exact E.
  - vm_compute in E. injection E as <-. reflexivity.
Defined.

(** ** The recursive walk *)

Section ToolFacts.
Import Py FAT16Recover WalkerShape Tool.





Lemma component_no_slash (name : str) : component name -> ~ In 47 name.
Proof. intros (_ & _ & H & _). exact H. Qed.

Section Containment.

Variable h : Host.
Variable image : bytes.
Variable p : DiskParams.



End Containment.

(** The kind of every action is independent of the path of the
    directory. *)
Lemma sfn_action_shape (p : DiskParams) (d1 d2 final_name : str)
      (is_dir : bool) (start_cluster file_size : Z) :
  option_map shape (sfn_action p d1 final_name is_dir start_cluster file_size)
  = option_map shape (sfn_action p d2 final_name is_dir start_cluster file_size).
Proof.
  unfold sfn_action.
  destruct (str_eqb final_name (lit ".") || str_eqb final_name (lit ".."));
    [reflexivity|].
  destruct is_dir.
  - destruct (start_cluster <? 2); reflexivity.
  - destruct ((file_size >? 0) && (start_cluster >=? 2)); reflexivity.
Qed.

Lemma sfn_entry_shape (p : DiskParams) (d1 d2 : str)
      (frags : list (Z * str)) (entry_data : bytes) (r1 r2 : option action) :
  sfn_entry p d1 frags entry_data = Ok r1 ->
  sfn_entry p d2 frags entry_data = Ok r2 ->
  option_map shape r1 = option_map shape r2.
Proof.
  unfold sfn_entry.
  destruct (unpack_I (slice entry_data 28 32)) as [n|e]; [|discriminate].
  destruct (unpack_H (slice entry_data 26 28)) as [c|e]; [|discriminate].
  cbn [bind]. intros [= <-] [= <-]. apply sfn_action_shape.
Qed.

Lemma walk_entries_shape (p : DiskParams) (d1 d2 : str) (dir_data : bytes)
      (indices : list nat) :
  forall (frags : list (Z * str)) (a1 a2 : list action),
    walk_entries p d1 dir_data indices frags = Ok a1 ->
    walk_entries p d2 dir_data indices frags = Ok a2 ->
    map shape a1 = map shape a2.
Proof.
  induction indices as [|j indices IH]; intros frags a1 a2.
  - cbn [walk_entries]. intros [= <-] [= <-]. reflexivity.
  - rewrite !walk_entries_cons. cbv zeta.
    destruct (byte_at (record_at dir_data j) 0 =? 0).
    { intros [= <-] [= <-]. reflexivity. }
    destruct (byte_at (record_at dir_data j) 11 =? LFN_ATTRIBUTES).
    + destruct (negb (byte_at (record_at dir_data j) 0 =? 229)); apply IH.
    + destruct (sfn_entry p d1 frags (record_at dir_data j)) as [r1|e] eqn:E1;
        [|discriminate].
      destruct (sfn_entry p d2 frags (record_at dir_data j)) as [r2|e] eqn:E2;
        [|discriminate].
      pose proof (sfn_entry_shape _ _ _ _ _ _ _ E1 E2) as Hr.
      cbn [bind].
      destruct (walk_entries p d1 dir_data indices []) as [o1|e] eqn:W1;
        [|discriminate].
      destruct (walk_entries p d2 dir_data indices []) as [o2|e] eqn:W2;
        [|discriminate].
      pose proof (IH _ _ _ W1 W2) as Ho.
      cbn [bind]. intros [= <-] [= <-].
      destruct r1 as [x1|], r2 as [x2|]; cbn in Hr; try discriminate.
      * cbn [map]. congruence.
      * exact Ho.
Qed.

Lemma directory_actions_shape (image : bytes) (p : DiskParams) (lba : Z)
      (d1 d2 : str) (a1 a2 : list action) :
  directory_actions image p lba d1 = Ok a1 ->
  directory_actions image p lba d2 = Ok a2 ->
  map shape a1 = map shape a2.
Proof.
  unfold directory_actions.
  destruct (read_sector image lba _) as [data|].
  - destruct (not_ (Some data)).
    + intros [= <-] [= <-]. reflexivity.
    + apply walk_entries_shape.
  - intros [= <-] [= <-]. reflexivity.
Qed.

Lemma run_actions_stuck (recurse : Z -> str -> list event * status)
      (h : Host) (image : bytes) (p : DiskParams) (lba : Z)
      (acts : list action) :
  (forall path, snd (recurse lba path) <> Finished) ->
  In (inl lba) (map shape acts) ->
  snd (run_actions recurse h image p acts) <> Finished.
Proof.
  intros Hrec. induction acts as [|a acts IH]; [intros []|].
  destruct a as [host_dir sub_dir_lba sub_path|start_cluster file_size rel];
    cbn [run_actions map shape In].
  - intros Hin. destruct (makedirs_ok h host_dir); [|discriminate].
    destruct (recurse sub_dir_lba sub_path) as [ev st] eqn:E.
    destruct st as [|c]; [|discriminate].
    destruct Hin as [Heq|Hin].
    + injection Heq as ->. exfalso. apply (Hrec sub_path). rewrite E. reflexivity.
    + specialize (IH Hin).
      destruct (run_actions recurse h image p acts) as [ev' st']. exact IH.
  - intros [Heq|Hin]; [discriminate|].
    destruct (makedirs_ok h (dirname rel)); [|discriminate].
    destruct (recover_file (output_ok h rel) image p start_cluster file_size);
      [|discriminate].
    specialize (IH Hin).
    destruct (run_actions recurse h image p acts) as [ev' st']. exact IH.
Qed.

Lemma recover_file_returns (host_ok : bool) (image : bytes) (p : DiskParams)
      (start_cluster file_size : Z) :
  exists o, recover_file host_ok image p start_cluster file_size = Ok o.
Proof.
  unfold recover_file.
  destruct (Z.ltb_spec start_cluster 2) as [Hlt|Hge]; cbn [orb]; [eauto|].
  destruct (file_size =? 0); [eauto|].
  destruct (trace_returns (GLOBAL_FAT_DATA p) start_cluster ltac:(lia))
    as [chain ->].
  destruct chain as [|c chain]; [eauto|].
  destruct host_ok; [|eauto].
  destruct (write_clusters image p file_size (c :: chain) [] 0). eauto.
Qed.

Lemma run_actions_ends_well (recurse : Z -> str -> list event * status)
      (h : Host) (image : bytes) (p : DiskParams) (acts : list action) :
  (forall lba path, ends_well h (snd (recurse lba path))) ->
  ends_well h (snd (run_actions recurse h image p acts)).
Proof.
  intros Hrec. induction acts as [|a acts IH]; [exact I|].
  destruct a as [host_dir sub_dir_lba sub_path|start_cluster file_size rel];
    cbn [run_actions].
  - destruct (makedirs_ok h host_dir) eqn:Hmk; [|exists host_dir; exact Hmk].
    specialize (Hrec sub_dir_lba sub_path).
    destruct (recurse sub_dir_lba sub_path) as [ev st].
    destruct st as [|c]; [|exact Hrec].
    destruct (run_actions recurse h image p acts) as [ev' st']. exact IH.
  - destruct (makedirs_ok h (dirname rel)) eqn:Hmk;
      [|exists (dirname rel); exact Hmk].
    destruct (recover_file_returns (output_ok h rel) image p
                start_cluster file_size) as [o ->].
    destruct (run_actions recurse h image p acts) as [ev' st']. exact IH.
Qed.

Lemma walk_ends_well (h : Host) (image : bytes) (p : DiskParams)
      (depth : nat) :
  forall (start_lba : Z) (dir_path : str),
    ends_well h
      (snd (parse_and_recover_directory depth h image p start_lba dir_path)).
Proof.
  induction depth as [|depth IH]; intros start_lba dir_path;
    cbn [parse_and_recover_directory]; [exact I|].
  destruct (directory_actions_total p dir_path image start_lba)
    as (acts & -> & _).
  apply run_actions_ends_well. exact IH.
Qed.

End ToolFacts.


(** X23.  The recursive walk has no protection against directories that
    lead back to themselves.  If every directory of a set holds an
    entry for a directory of the set (one directory with an entry for
    its own cluster is enough), the walk of any of them never returns
    normally, whatever recursion depth the interpreter allows and
    whatever the host answers: it ends by an exception that nothing
    catches. *)
Theorem directory_cycle_never_finishes
        (image : Py.bytes) (p : FAT16Recover.DiskParams) (cyclic : Z -> Prop)
        (Hcyclic : forall lba, cyclic lba ->
                     exists lba', cyclic lba' /\ Tool.enters image p lba lba')
        (depth : nat) (h : Tool.Host) (start_lba : Z) (dir_path : Py.str)
        (Hstart : cyclic start_lba) :
  exists c,
    snd (Tool.parse_and_recover_directory depth h image p start_lba dir_path)
    = Tool.Crashed c.
Proof.
  assert (H : forall depth lba path, cyclic lba ->
            snd (Tool.parse_and_recover_directory depth h image p lba path)
            <> Tool.Finished).
  { clear depth start_lba dir_path Hstart.
    induction depth as [|depth IH]; intros lba path Hlba;
      cbn [Tool.parse_and_recover_directory]; [discriminate|].
    destruct (Hcyclic lba Hlba) as (lba' & Hlba' & dp & acts & Hacts & Hin).
    destruct (directory_actions_total p path image lba) as (acts' & E & _).
    rewrite E.
    apply (run_actions_stuck _ h image p lba').
    - intros path'. apply IH. exact Hlba'.
    - rewrite (directory_actions_shape _ _ _ _ _ _ _ E Hacts). exact Hin. }
  specialize (H depth start_lba dir_path Hstart).
  destruct (snd (Tool.parse_and_recover_directory depth h image p start_lba
                   dir_path)) as [|c].
  - contradiction.
  - exists c. reflexivity.
Qed.

Lemma directory_cycle_never_finishes_witness :
  exists c,
    snd (Tool.parse_and_recover_directory 1000 Tool.willing_host Tool.image_loop
           Samples.params 4 (Py.lit "LOOP"))
    = Tool.Crashed c.
Proof.
  apply (directory_cycle_never_finishes Tool.image_loop Samples.params
           (fun lba => lba = 4)).
  - intros lba ->. exists 4. split; [reflexivity|].
    exists [], [FAT16Recover.EnterDirectory (Py.lit "RECOVERED_DATA/LOOP") 4
                  (Py.lit "LOOP")].
    split; [vm_compute; reflexivity|left; reflexivity].
  - reflexivity.
Defined.

(** X24.  No exception of the code itself leaves the recursive walk,
    whatever the image holds: it returns normally, or it stops at the
    recursion limit, or a call of [os.makedirs] was refused by the
    host.  No [struct.error] and no error of [recover_file] gets out.
    For the whole tool the only other exception is one that
    [setup_disk_params] raises before the walk starts. *)
Theorem walk_raises_nothing_of_its_own
        (depth : nat) (h : Tool.Host) (image : Py.bytes) :
  (forall (p : FAT16Recover.DiskParams) (start_lba : Z) (dir_path : Py.str),
      Tool.ends_well h
        (snd (Tool.parse_and_recover_directory depth h image p
                start_lba dir_path)))
  /\ match snd (Tool.run_recovery_tool depth h image) with
     | Tool.Crashed (Tool.Escaped e) =>
         FAT16Recover.setup_disk_params image = Py.Raise e
     | st => Tool.ends_well h st
     end.
Proof.
  split; [intros p start_lba dir_path; apply walk_ends_well|].
  unfold Tool.run_recovery_tool.
  destruct (FAT16Recover.setup_disk_params image) as [[p|why]|e];
    [|exact I|reflexivity].
  destruct (Tool.makedirs_ok h FAT16Recover.RECOVERY_DIR) eqn:Hmk.
  - pose proof (walk_ends_well h image p depth
                  (FAT16Recover.ROOT_DIR_START_LBA p) []) as H.
    destruct (Tool.parse_and_recover_directory depth h image p
                (FAT16Recover.ROOT_DIR_START_LBA p) []) as [ev st].
    cbn [snd] in *. destruct st as [|[| |e]]; try exact H. destruct H.
  - exists FAT16Recover.RECOVERY_DIR. exact Hmk.
Qed.
